(** * postgres-cli: the session engine of the interactive PostgreSQL client

    A shallow embedding of the Go package [postgres] (the CLI type, its
    statement accumulator, meta-command dispatcher, statement router and
    result renderer) together with the properties of the engine that the
    specification states.

    Go strings are byte strings; they are modelled by [string] (a list of
    8-bit characters).  The functions of Go's [strings] and [fmt]
    packages that the engine calls are written out below for ASCII text:
    [TrimSpace], [Fields], [ToUpper] and [ToLower] of the Go library also
    know the multi-byte Unicode spaces and letters, and the padding of
    [%-*s] counts runes; the model works on bytes.  The properties that
    depend on these functions are stated for ASCII text ([isASCII]),
    where the two coincide. *)

From Stdlib Require Import String Ascii List ZArith Lia Bool Arith.
From Stdlib Require Import Numbers.DecimalString.
Import ListNotations.

Open Scope string_scope.
Open Scope nat_scope.

(** ** The [strings] and [fmt] functions used by the engine *)

Module GoStrings.

(** [unicode.IsSpace] on ASCII: tab, line feed, vertical tab, form feed,
    carriage return and space. *)
Definition isSpace (c : ascii) : bool :=
  let n := nat_of_ascii c in
  ((9 <=? n) && (n <=? 13)) || (n =? 32).

Definition isLower (c : ascii) : bool :=
  let n := nat_of_ascii c in (97 <=? n) && (n <=? 122).

Definition isUpper (c : ascii) : bool :=
  let n := nat_of_ascii c in (65 <=? n) && (n <=? 90).

Definition upperChar (c : ascii) : ascii :=
  if isLower c then ascii_of_nat (nat_of_ascii c - 32) else c.

Definition lowerChar (c : ascii) : ascii :=
  if isUpper c then ascii_of_nat (nat_of_ascii c + 32) else c.

Fixpoint mapString (f : ascii -> ascii) (s : string) : string :=
  match s with
  | EmptyString => EmptyString
  | String c r => String (f c) (mapString f r)
  end.

(** [strings.ToUpper] and [strings.ToLower] on ASCII text: the letters
    a to z (A to Z) are mapped, every other byte is kept. *)
Definition ToUpper (s : string) : string := mapString upperChar s.
Definition ToLower (s : string) : string := mapString lowerChar s.

Fixpoint TrimLeftSpace (s : string) : string :=
  match s with
  | EmptyString => EmptyString
  | String c r => if isSpace c then TrimLeftSpace r else s
  end.

Fixpoint TrimRightSpace (s : string) : string :=
  match s with
  | EmptyString => EmptyString
  | String c r =>
      match TrimRightSpace r with
      | EmptyString => if isSpace c then EmptyString else String c EmptyString
      | r' => String c r'
      end
  end.

(** [strings.TrimSpace] on ASCII text: leading and trailing white space
    (the six characters of [isSpace]) removed. *)
Definition TrimSpace (s : string) : string := TrimRightSpace (TrimLeftSpace s).

(** [strings.HasPrefix s p]. *)
Definition HasPrefix (s p : string) : bool := String.prefix p s.

(** [strings.HasSuffix s suf]:
    [len(s) >= len(suf) && s[len(s)-len(suf):] == suf]. *)
Definition HasSuffix (s suf : string) : bool :=
  (String.length suf <=? String.length s)
  && (substring (String.length s - String.length suf) (String.length suf) s =? suf)%string.

(** [strings.TrimSuffix s suf]. *)
Definition TrimSuffix (s suf : string) : string :=
  if HasSuffix s suf
  then substring 0 (String.length s - String.length suf) s
  else s.

(** [strings.Join elems sep]. *)
Definition Join (elems : list string) (sep : string) : string :=
  String.concat sep elems.

(** [strings.Repeat s count] for a count that is not negative. *)
Fixpoint Repeat (s : string) (count : nat) : string :=
  match count with
  | O => EmptyString
  | S n => s ++ Repeat s n
  end.

(** [strings.Fields] on ASCII text: the maximal runs of characters that
    are not white space.  [cur] is the field being read, in reverse. *)
Fixpoint revString (acc s : string) : string :=
  match s with
  | EmptyString => acc
  | String c r => revString (String c acc) r
  end.

Fixpoint fieldsFrom (cur : string) (s : string) : list string :=
  match s with
  | EmptyString =>
      match cur with
      | EmptyString => []
      | _ => [revString EmptyString cur]
      end
  | String c r =>
      if isSpace c then
        match cur with
        | EmptyString => fieldsFrom EmptyString r
        | _ => revString EmptyString cur :: fieldsFrom EmptyString r
        end
      else fieldsFrom (String c cur) r
  end.

Definition Fields (s : string) : list string := fieldsFrom EmptyString s.

(** The verb [%d] of [fmt] on an integer. *)
Definition itoa (z : Z) : string := NilZero.string_of_int (Z.to_int z).

(** The verb [%-*s] on ASCII text: the text padded with spaces on the
    right up to the width; a longer text is written whole.  The length
    is counted in bytes, which on ASCII text are the runes Go counts. *)
Definition padRight (width : nat) (s : string) : string :=
  s ++ Repeat " " (width - String.length s).

(** The slice [s[:n]]. *)
Definition sliceTo (n : nat) (s : string) : string := substring 0 n s.

End GoStrings.
Import GoStrings.

(** Line feed, tab and the double quote, for the texts of the engine. *)
Definition nl : string := String (ascii_of_nat 10) EmptyString.
Definition tab : string := String (ascii_of_nat 9) EmptyString.
Definition dq : string := String (ascii_of_nat 34) EmptyString.

(** [time.Duration] counts nanoseconds. *)
Definition Second : Z := 1000000000%Z.
Definition Hour : Z := (3600 * Second)%Z.

(** [int(d.Seconds())]: the whole seconds of a duration, truncated toward
    zero.  Go computes [Seconds] in float64: the quotient below is its
    value for every duration shorter than 2^24 seconds, the range the
    properties of the DSN are stated for. *)
Definition secondsInt (d : Z) : Z := Z.quot d Second.

(** [int(d.Milliseconds())]. *)
Definition millisecondsInt (d : Z) : Z := Z.quot d 1000000%Z.

(** ** Data model *)

(** Config: the connection configuration. *)
Record Config := mkConfig {
  Host : string;
  Port : Z;
  Username : string;
  Password : string;
  Database : string;
  SSLMode : string;
  ConnectTimeout : Z;
  StatementTimeout : Z;
  MaxOpenConns : Z;
  MaxIdleConns : Z;
  ConnMaxLifetime : Z;
  ApplicationName : string;
  SearchPath : string;
  TimeZone : string;
  CustomParams : string
}.

Record ServerInfo := mkServerInfo {
  Version : string;
  ServerEncoding : string;
  ClientEncoding : string;
  ConnectionID : Z
}.

(** A [*sql.DB] handle: the identity of the pool and the DSN it was
    opened with. *)
Record DB := mkDB { db_id : nat; db_dsn : string }.

(** A scanned column value, as the driver hands it to [rows.Scan] into an
    [interface{}]: nil, [[]byte], [time.Time], [bool], or another scalar.
    A time carries its text under the layout [2006-01-02 15:04:05] and
    its text under [%v]; a float carries its text under [%v]. *)
Inductive Value :=
| VNil
| VBytes (b : string)
| VTime (layoutText defaultText : string)
| VBool (b : bool)
| VInt (z : Z)
| VFloat (text : string)
| VString (s : string).

Definition Row := list Value.

(** What [QueryContext] gives back: the column names, the column types
    and the stream of rows not yet fetched by [rows.Next]. *)
Record Rows := mkRows {
  rows_cols : list string;
  rows_types : list string;
  rows_pending : list Row
}.

(** The calls the engine makes on its collaborators (database driver and
    clock), in the order it makes them. *)
Inductive Call :=
| COpen (dsn : string)
| CSetMaxOpenConns (d : DB) (n : Z)
| CSetMaxIdleConns (d : DB) (n : Z)
| CSetConnMaxLifetime (d : DB) (n : Z)
| CPing (d : DB)
| CClose (d : DB)
| CExec (d : DB) (timeout : Z) (sql : string)
| CQuery (d : DB) (timeout : Z) (sql : string)
| CQueryRow (d : DB) (sql : string)
| CRowsClose (d : DB) (fetched : nat)
| CNow.

(** The collaborators: each answer may depend on everything the engine
    has asked so far (the history, latest call first). *)
Record Env := mkEnv {
  (** error of [sql.Open], if any *)
  open_error : list Call -> string -> option string;
  (** error of [db.Ping], if any *)
  ping_error : list Call -> DB -> option string;
  (** [db.ExecContext]: an error or the number of rows affected *)
  exec_result : list Call -> DB -> Z -> string -> string + Z;
  (** [db.QueryContext]: an error or the result stream *)
  query_result : list Call -> DB -> Z -> string -> string + Rows;
  (** [db.QueryRow(..).Scan(&x)] into a string or an int variable: what
      was stored, if the scan worked *)
  scan_string : list Call -> DB -> string -> option string;
  scan_int : list Call -> DB -> string -> option Z;
  (** the clock, in nanoseconds *)
  clock : list Call -> Z;
  (** the verb [%.3f] on a duration in milliseconds *)
  fmt_ms : Z -> string
}.

(** What a call to [ReadLine] can give. *)
Inductive ReadResult :=
| RLine (line : string)
| REOF
| RErr (msg : string).

(** Reader: the line source.  [input] is what the terminal will deliver
    to the next calls of [ReadLine]; once it is used up the source is at
    end of input.  [prompt] is the prompt last set. *)
Record Reader := mkReader {
  input : list ReadResult;
  prompt : string
}.

(** CLI: the session.  [term] holds everything written to the terminal
    so far; [db] is [None] for a nil pointer. *)
Record CLI := mkCLI {
  term : string;
  config : Config;
  db : option DB;
  reader : Reader;
  serverInfo : ServerInfo;
  expandedMode : bool;
  timingEnabled : bool;
  maxRows : Z;
  inTransaction : bool;
  database : string
}.

Definition set_term (v : string) (c : CLI) : CLI :=
  mkCLI v (config c) (db c) (reader c) (serverInfo c) (expandedMode c)
        (timingEnabled c) (maxRows c) (inTransaction c) (database c).
Definition set_db (v : option DB) (c : CLI) : CLI :=
  mkCLI (term c) (config c) v (reader c) (serverInfo c) (expandedMode c)
        (timingEnabled c) (maxRows c) (inTransaction c) (database c).
Definition set_reader (v : Reader) (c : CLI) : CLI :=
  mkCLI (term c) (config c) (db c) v (serverInfo c) (expandedMode c)
        (timingEnabled c) (maxRows c) (inTransaction c) (database c).
Definition set_serverInfo (v : ServerInfo) (c : CLI) : CLI :=
  mkCLI (term c) (config c) (db c) (reader c) v (expandedMode c)
        (timingEnabled c) (maxRows c) (inTransaction c) (database c).
Definition set_expandedMode (v : bool) (c : CLI) : CLI :=
  mkCLI (term c) (config c) (db c) (reader c) (serverInfo c) v
        (timingEnabled c) (maxRows c) (inTransaction c) (database c).
Definition set_timingEnabled (v : bool) (c : CLI) : CLI :=
  mkCLI (term c) (config c) (db c) (reader c) (serverInfo c) (expandedMode c)
        v (maxRows c) (inTransaction c) (database c).
Definition set_inTransaction (v : bool) (c : CLI) : CLI :=
  mkCLI (term c) (config c) (db c) (reader c) (serverInfo c) (expandedMode c)
        (timingEnabled c) (maxRows c) v (database c).
Definition set_database (v : string) (c : CLI) : CLI :=
  mkCLI (term c) (config c) (db c) (reader c) (serverInfo c) (expandedMode c)
        (timingEnabled c) (maxRows c) (inTransaction c) v.

(** The state a method of the session runs in: the session itself and
    the history of its calls on the collaborators. *)
Record State := mkState { cli : CLI; history : list Call }.

(** ** A state monad with panics *)

Inductive Outcome (A : Type) :=
| Done (a : A)
| Panic (msg : string).
Arguments Done {A} a.
Arguments Panic {A} msg.

Definition M (A : Type) : Type := State -> Outcome A * State.

Definition ret {A} (a : A) : M A := fun s => (Done a, s).

Definition bind {A B} (m : M A) (k : A -> M B) : M B :=
  fun s =>
    match m s with
    | (Done a, s') => k a s'
    | (Panic msg, s') => (Panic msg, s')
    end.

Notation "x <- m ;; k" := (bind m (fun x => k))
  (at level 61, m at next level, right associativity).
Notation "m ;;; k" := (bind m (fun _ => k))
  (at level 61, right associativity).

Definition getCLI : M CLI := fun s => (Done (cli s), s).

Definition modifyCLI (f : CLI -> CLI) : M unit :=
  fun s => (Done tt, mkState (f (cli s)) (history s)).

(** Log a call; the answer is computed from the history before it. *)
Definition call {A} (ev : Call) (answer : list Call -> A) : M A :=
  fun s => (Done (answer (history s)), mkState (cli s) (ev :: history s)).

Definition panic {A} (msg : string) : M A := fun s => (Panic msg, s).

(** [fmt.Fprintf(c.term, ..)] with the text already formatted. *)
Definition Fprintf (text : string) : M unit :=
  modifyCLI (fun c => set_term (term c ++ text) c).

Definition when (b : bool) (m : M unit) : M unit := if b then m else ret tt.

Definition nilDeref : string := "invalid memory address or nil pointer dereference".

(** The handle [c.db], dereferenced. *)
Definition theDB : M DB :=
  c <- getCLI ;;
  match db c with
  | Some d => ret d
  | None => panic nilDeref
  end.

(** ** Construction of a session *)

(** NewCLIWithConfig: the defaults are written into the configuration,
    the row cap is 1000. *)
Definition withDefaults (cfg : Config) : Config :=
  mkConfig (Host cfg) (Port cfg) (Username cfg) (Password cfg) (Database cfg)
    (if (SSLMode cfg =? EmptyString)%string then "disable" else SSLMode cfg)
    (if (ConnectTimeout cfg =? 0)%Z then (10 * Second)%Z else ConnectTimeout cfg)
    (StatementTimeout cfg)
    (if (MaxOpenConns cfg =? 0)%Z then 10%Z else MaxOpenConns cfg)
    (if (MaxIdleConns cfg =? 0)%Z then 5%Z else MaxIdleConns cfg)
    (if (ConnMaxLifetime cfg =? 0)%Z then Hour else ConnMaxLifetime cfg)
    (if (ApplicationName cfg =? EmptyString)%string then "psql" else ApplicationName cfg)
    (SearchPath cfg) (TimeZone cfg) (CustomParams cfg).

Definition NewCLIWithConfig (termInput : list ReadResult) (cfg : Config) : CLI :=
  let cfg' := withDefaults cfg in
  mkCLI EmptyString cfg' None (mkReader termInput EmptyString)
        (mkServerInfo EmptyString EmptyString EmptyString 0%Z)
        false false 1000%Z false (Database cfg').

Definition NewCLI (termInput : list ReadResult) (host : string) (port : Z)
    (username password database : string) : CLI :=
  NewCLIWithConfig termInput
    (mkConfig host port username password database "disable" (10 * Second)%Z 0%Z
              10%Z 5%Z Hour "psql" EmptyString EmptyString EmptyString).

(** ** Statement accumulator *)

(** ReadLine of the line source. *)
Definition ReadLine (r : Reader) : (string * option string) * Reader :=
  match input r with
  | [] => ((EmptyString, Some "EOF"), r)
  | RLine line :: rest => ((line, None), mkReader rest (prompt r))
  | REOF :: rest => ((EmptyString, Some "EOF"), mkReader rest (prompt r))
  | RErr msg :: rest => ((EmptyString, Some msg), mkReader rest (prompt r))
  end.

Definition isShortcut (cmdLower : string) : bool :=
  ((cmdLower =? "exit") || (cmdLower =? "quit") || (cmdLower =? "help"))%string.

(** The loop of readMultiLine.  [lines] is the buffer, [pr] the prompt in
    force, [inp] what the line source still holds; each turn takes the
    answer of one ReadLine off [inp].  The result is the text returned
    and the line source as the call leaves it. *)
Fixpoint readLoop (database : string) (lines : list string) (pr : string)
    (inp : list ReadResult) {struct inp} : string * Reader :=
  match inp with
  | [] => (EmptyString, mkReader [] pr)
  | REOF :: rest => (EmptyString, mkReader rest pr)
  | RErr _ :: rest => (EmptyString, mkReader rest pr)
  | RLine line :: rest =>
      let trimmed := TrimSpace line in
      if (trimmed =? EmptyString)%string && (List.length lines =? 0) then
        (EmptyString, mkReader rest pr)
      else if (List.length lines =? 0) && HasPrefix trimmed "\" then
        (trimmed, mkReader rest pr)
      else if (List.length lines =? 0) && isShortcut (ToLower trimmed) then
        (trimmed, mkReader rest pr)
      else if (0 <? List.length lines) && HasPrefix trimmed "\" then
        readLoop database (lines ++ [line])%list pr rest
      else
        let lines' := (lines ++ [line])%list in
        if HasSuffix trimmed ";" then
          (Join lines' nl, mkReader rest pr)
        else
          readLoop database lines' (database ++ "-> ") rest
  end.

(** ** Statement classification *)

Definition queryPrefixes : list string :=
  ["SELECT"; "SHOW"; "WITH"; "TABLE"; "VALUES"; "EXPLAIN"; "ANALYZE"].

(** isQuery *)
Definition isQuery (sqlStr : string) : bool :=
  let upper := ToUpper (TrimSpace sqlStr) in
  existsb (fun prefix => HasPrefix upper prefix) queryPrefixes.

(** The command tag of executeCommand. *)
Definition commandTag (sqlStr : string) : string :=
  let upperSQL := ToUpper (TrimSpace sqlStr) in
  if HasPrefix upperSQL "INSERT" then "INSERT"
  else if HasPrefix upperSQL "UPDATE" then "UPDATE"
  else if HasPrefix upperSQL "DELETE" then "DELETE"
  else if HasPrefix upperSQL "CREATE" then "CREATE"
  else if HasPrefix upperSQL "DROP" then "DROP"
  else if HasPrefix upperSQL "ALTER" then "ALTER"
  else "COMMAND".

(** ** Result renderer: the pure part *)

(** The verb [%v] on a scanned value. *)
Definition Sprintf_v (v : Value) : string :=
  match v with
  | VNil => "<nil>"
  | VBytes b =>
      "[" ++ Join (map (fun ch => itoa (Z.of_nat (nat_of_ascii ch)))
                       (list_ascii_of_string b)) " " ++ "]"
  | VTime _ defaultText => defaultText
  | VBool true => "true"
  | VBool false => "false"
  | VInt z => itoa z
  | VFloat text => text
  | VString s => s
  end.

(** The text of a value in both display modes. *)
Definition formatValue (v : Value) : string :=
  match v with
  | VNil => EmptyString
  | VBytes b => b
  | VTime layoutText _ => layoutText
  | VBool true => "t"
  | VBool false => "f"
  | _ => Sprintf_v v
  end.

(** [rows.Scan] into [len(cols)] fresh [interface{}] cells. *)
Definition Scan (ncols : nat) (r : Row) : list Value :=
  map (fun i => nth i r VNil) (seq 0 ncols).

(** The starting width of a column of displayTable. *)
Definition headerWidth (col : string) : nat :=
  let w := String.length col in
  let w := if w <? 4 then 4 else w in
  if 50 <? w then 50 else w.

(** One cell of displayTable: the text kept for the cell and the new
    width of its column. *)
Definition fitCell (v : Value) (width : nat) : string * nat :=
  let s := formatValue v in
  if width <? String.length s then
    if 50 <? String.length s then (sliceTo 47 s ++ "...", 50)
    else (s, String.length s)
  else (s, width).

(** The inner loop of displayTable over the cells of one row. *)
Fixpoint fitRow (vals : list Value) (colWidths : list nat)
  : list string * list nat :=
  match vals, colWidths with
  | v :: vs, w :: ws =>
      let '(s, w') := fitCell v w in
      let '(ss, ws') := fitRow vs ws in
      (s :: ss, w' :: ws')
  | _, _ => ([], colWidths)
  end.

(** The row loop of displayTable: widths, the rows kept, and the part of
    the stream that was never fetched. *)
Fixpoint collectRows (cap : Z) (ncols : nat) (pending : list Row)
    (colWidths : list nat) (allRows : list (list string))
  : list nat * list (list string) * list Row :=
  match pending with
  | [] => (colWidths, allRows, [])
  | r :: rest =>
      let '(rowStrs, colWidths') := fitRow (Scan ncols r) colWidths in
      let allRows' := (allRows ++ [rowStrs])%list in
      if (cap <=? Z.of_nat (List.length allRows'))%Z then (colWidths', allRows', rest)
      else collectRows cap ncols rest colWidths' allRows'
  end.

(** A header or data line of the grid, after its leading space. *)
Fixpoint tableCells (colWidths : list nat) (cells : list string) : string :=
  match cells, colWidths with
  | c :: cs, w :: ws =>
      padRight w c ++ " "
      ++ (match cs with [] => EmptyString | _ => "| " end)
      ++ tableCells ws cs
  | _, _ => EmptyString
  end.

Fixpoint separatorCells (colWidths : list nat) : string :=
  match colWidths with
  | [] => EmptyString
  | w :: ws =>
      Repeat "-" (w + 1)
      ++ (match ws with [] => EmptyString | _ => "+-" end)
      ++ separatorCells ws
  end.

Definition rowCountLine (rowCount : nat) : string :=
  match rowCount with
  | 0 => "(0 rows)" ++ nl
  | 1 => "(1 row)" ++ nl
  | _ => "(" ++ itoa (Z.of_nat rowCount) ++ " rows)" ++ nl
  end.

(** The lines of one record of displayExpanded. *)
Fixpoint expandedFields (maxColLen : nat) (cols : list string) (vals : list Value)
  : string :=
  match cols, vals with
  | col :: cols', v :: vals' =>
      padRight maxColLen col ++ " | " ++ formatValue v ++ nl
      ++ expandedFields maxColLen cols' vals'
  | _, _ => EmptyString
  end.

Definition maxColLen (cols : list string) : nat :=
  fold_left (fun m col => if m <? String.length col then String.length col else m)
            cols 0.

(** The row loop of displayExpanded: the text written, the last record
    number, the part of the stream never fetched, and whether
    [strings.Repeat] was given a negative count (it panics then). *)
Fixpoint expandedLoop (cap : Z) (cols : list string) (pending : list Row)
    (rowNum : nat) : string * nat * list Row * bool :=
  match pending with
  | [] => (EmptyString, rowNum, [], false)
  | r :: rest =>
      let rowNum' := S rowNum in
      let vals := Scan (List.length cols) r in
      let head := "-[ RECORD " ++ itoa (Z.of_nat rowNum') ++ " ]" in
      if 50 <? String.length head then (head, rowNum', rest, true)
      else
        let text := head ++ Repeat "-" (50 - String.length head) ++ nl
                    ++ expandedFields (maxColLen cols) cols vals in
        if (cap <=? Z.of_nat rowNum')%Z then (text, rowNum', rest, false)
        else
          let '(more, n, rest', p) := expandedLoop cap cols rest rowNum' in
          (text ++ more, n, rest', p)
  end.

(** The cells of a line of describeTable; the flag tells that a fourth
    cell met the three fixed widths (index out of range). *)
Fixpoint describeCells (colWidths : list nat) (cells : list string) : string * bool :=
  match cells with
  | [] => (EmptyString, false)
  | c :: cs =>
      match colWidths with
      | [] => (EmptyString, true)
      | w :: ws =>
          let '(t, p) := describeCells ws cs in
          (padRight w c ++ " | " ++ t, p)
      end
  end.

Definition describeValue (v : Value) : string :=
  match v with
  | VNil => EmptyString
  | _ => Sprintf_v v
  end.

(** printSeparator *)
Definition separatorLine (colWidths : list nat) : string :=
  "+" ++ String.concat EmptyString (map (fun w => Repeat "-" (w + 2) ++ "+") colWidths) ++ nl.

(** extractVersionNumber *)
Definition extractVersionNumber (version : string) : string :=
  match Fields version with
  | _ :: p1 :: _ => p1
  | _ => version
  end.

(** ** The texts of the dispatcher *)

Definition helpText : string := "
General
  \\?, help               show this help
  \\q, exit, quit         quit psql

Connection
  \\c [DBNAME]            connect to new database
  \\conninfo              display information about connection

Informational
  \\d [NAME]              describe table, view, sequence, or index
  \\dt[+]                 list tables
  \\dv[+]                 list views
  \\di[+]                 list indexes
  \\ds[+]                 list sequences
  \\df[+]                 list functions
  \\dn[+]                 list schemas
  \\du[+]                 list roles
  \\l, \\list             list databases

Formatting
  \\x                     toggle expanded output
  \\timing                toggle timing of commands

Transaction
  BEGIN                   start a transaction
  COMMIT                  commit current transaction
  ROLLBACK                rollback current transaction

Query Buffer
  \\h [NAME]              help on syntax of SQL commands

".

(** [AS "label"] with its double quotes. *)
Definition quoted (label : string) : string := dq ++ label ++ dq.

Definition sqlListDatabases : string :=
  "SELECT datname AS " ++ quoted "Name"
  ++ ", pg_catalog.pg_get_userbyid(datdba) AS " ++ quoted "Owner"
  ++ ", pg_catalog.pg_encoding_to_char(encoding) AS " ++ quoted "Encoding"
  ++ " FROM pg_catalog.pg_database ORDER BY datname".

Definition sqlListTables : string :=
  "SELECT schemaname AS " ++ quoted "Schema" ++ ", tablename AS " ++ quoted "Name"
  ++ ", tableowner AS " ++ quoted "Owner"
  ++ " FROM pg_catalog.pg_tables WHERE schemaname NOT IN ('pg_catalog', 'information_schema') ORDER BY schemaname, tablename".

Definition sqlListSchemas : string :=
  "SELECT nspname AS " ++ quoted "Name"
  ++ ", pg_catalog.pg_get_userbyid(nspowner) AS " ++ quoted "Owner"
  ++ " FROM pg_catalog.pg_namespace WHERE nspname !~ '^pg_' AND nspname <> 'information_schema' ORDER BY nspname".

Definition sqlListViews : string :=
  "SELECT schemaname AS " ++ quoted "Schema" ++ ", viewname AS " ++ quoted "Name"
  ++ ", viewowner AS " ++ quoted "Owner"
  ++ " FROM pg_catalog.pg_views WHERE schemaname NOT IN ('pg_catalog', 'information_schema') ORDER BY schemaname, viewname".

Definition sqlListIndexes : string :=
  "SELECT schemaname AS " ++ quoted "Schema" ++ ", indexname AS " ++ quoted "Name"
  ++ ", tablename AS " ++ quoted "Table"
  ++ " FROM pg_catalog.pg_indexes WHERE schemaname NOT IN ('pg_catalog', 'information_schema') ORDER BY schemaname, indexname".

Definition sqlListSequences : string :=
  "SELECT schemaname AS " ++ quoted "Schema" ++ ", sequencename AS " ++ quoted "Name"
  ++ ", sequenceowner AS " ++ quoted "Owner"
  ++ " FROM pg_catalog.pg_sequences WHERE schemaname NOT IN ('pg_catalog', 'information_schema') ORDER BY schemaname, sequencename".

Definition sqlListFunctions : string :=
  "SELECT n.nspname AS " ++ quoted "Schema" ++ ", p.proname AS " ++ quoted "Name"
  ++ ", pg_catalog.pg_get_function_result(p.oid) AS " ++ quoted "Result data type"
  ++ " FROM pg_catalog.pg_proc p LEFT JOIN pg_catalog.pg_namespace n ON n.oid = p.pronamespace WHERE n.nspname NOT IN ('pg_catalog', 'information_schema') ORDER BY n.nspname, p.proname".

Definition sqlListRoles : string :=
  "SELECT rolname AS " ++ quoted "Role name" ++ ", rolsuper AS " ++ quoted "Superuser"
  ++ ", rolinherit AS " ++ quoted "Inherit" ++ ", rolcreaterole AS " ++ quoted "Create role"
  ++ ", rolcreatedb AS " ++ quoted "Create DB"
  ++ " FROM pg_catalog.pg_roles ORDER BY rolname".

Definition sqlPublicTables : string :=
  "SELECT tablename FROM pg_catalog.pg_tables WHERE schemaname = 'public' ORDER BY tablename".

Definition sqlDescribeTable (tableName : string) : string :=
  nl ++ tab ++ tab ++ "SELECT " ++ nl
  ++ tab ++ tab ++ tab ++ "a.attname AS " ++ quoted "Column" ++ "," ++ nl
  ++ tab ++ tab ++ tab ++ "pg_catalog.format_type(a.atttypid, a.atttypmod) AS "
       ++ quoted "Type" ++ "," ++ nl
  ++ tab ++ tab ++ tab ++ "CASE WHEN a.attnotnull THEN 'not null' ELSE '' END AS "
       ++ quoted "Modifiers" ++ nl
  ++ tab ++ tab ++ "FROM pg_catalog.pg_attribute a" ++ nl
  ++ tab ++ tab ++ "WHERE a.attrelid = (" ++ nl
  ++ tab ++ tab ++ tab ++ "SELECT c.oid FROM pg_catalog.pg_class c" ++ nl
  ++ tab ++ tab ++ tab ++ "LEFT JOIN pg_catalog.pg_namespace n ON n.oid = c.relnamespace" ++ nl
  ++ tab ++ tab ++ tab ++ "WHERE c.relname = '" ++ tableName ++ "' AND n.nspname = 'public'" ++ nl
  ++ tab ++ tab ++ ") AND a.attnum > 0 AND NOT a.attisdropped" ++ nl
  ++ tab ++ tab ++ "ORDER BY a.attnum" ++ nl
  ++ tab.

(** The DSN Connect builds from the configuration. *)
Definition connectDSN (cfg : Config) : string :=
  let dsn :=
    "host=" ++ Host cfg ++ " port=" ++ itoa (Port cfg) ++ " user=" ++ Username cfg
    ++ " password=" ++ Password cfg ++ " dbname=" ++ Database cfg
    ++ " sslmode=" ++ SSLMode cfg
    ++ " connect_timeout=" ++ itoa (secondsInt (ConnectTimeout cfg)) in
  let dsn := if (ApplicationName cfg =? EmptyString)%string then dsn
             else dsn ++ " application_name=" ++ ApplicationName cfg in
  let dsn := if (SearchPath cfg =? EmptyString)%string then dsn
             else dsn ++ " search_path=" ++ SearchPath cfg in
  let dsn := if (TimeZone cfg =? EmptyString)%string then dsn
             else dsn ++ " timezone=" ++ TimeZone cfg in
  let dsn := if (0 <? StatementTimeout cfg)%Z
             then dsn ++ " statement_timeout=" ++ itoa (millisecondsInt (StatementTimeout cfg))
             else dsn in
  if (CustomParams cfg =? EmptyString)%string then dsn
  else dsn ++ " " ++ CustomParams cfg.

(** The DSN connectToDatabase builds for the database it switches to. *)
Definition switchDSN (cfg : Config) (dbName : string) : string :=
  "host=" ++ Host cfg ++ " port=" ++ itoa (Port cfg) ++ " user=" ++ Username cfg
  ++ " password=" ++ Password cfg ++ " dbname=" ++ dbName
  ++ " sslmode=disable connect_timeout=10".

(** ** The engine *)

Section Engine.

Variable env : Env.

Definition time_Now : M Z := call CNow (clock env).

(** The line [Time: %.3f ms] for the time since [startTime]. *)
Definition printTiming (startTime : Z) : M unit :=
  now <- time_Now ;;
  Fprintf ("Time: " ++ fmt_ms env (now - startTime)%Z ++ " ms" ++ nl).

(** [sql.Open("postgres", dsn)]: an error, or a new handle. *)
Definition sql_Open (dsn : string) : M (option DB * option string) :=
  fun s =>
    let s' := mkState (cli s) (COpen dsn :: history s) in
    match open_error env (history s) dsn with
    | Some e => (Done (None, Some e), s')
    | None => (Done (Some (mkDB (List.length (history s)) dsn), None), s')
    end.

Definition db_Ping (d : DB) : M (option string) :=
  call (CPing d) (fun h => ping_error env h d).

Definition db_Close (d : DB) : M unit := call (CClose d) (fun _ => tt).

(** [c.db.ExecContext(ctx, sql)] under a timeout. *)
Definition db_ExecContext (timeout : Z) (sql : string) : M (string + Z) :=
  d <- theDB ;;
  call (CExec d timeout sql) (fun h => exec_result env h d timeout sql).

(** [c.db.QueryRow(sql).Scan(&x)] for a string [x] that was empty: it
    stays empty when the scan fails. *)
Definition db_QueryRowString (sql : string) : M string :=
  d <- theDB ;;
  call (CQueryRow d sql)
       (fun h => match scan_string env h d sql with Some x => x | None => EmptyString end).

(** The same for an int [x] that was zero. *)
Definition db_QueryRowInt (sql : string) : M Z :=
  d <- theDB ;;
  call (CQueryRow d sql)
       (fun h => match scan_int env h d sql with Some x => x | None => 0%Z end).

(** printError *)
Definition printError (err : string) : M unit :=
  Fprintf ("ERROR: " ++ err ++ nl ++ nl).

(** getPrompt *)
Definition getPrompt : M string :=
  c <- getCLI ;;
  if inTransaction c then ret (database c ++ "*=> ")
  else ret (database c ++ "=> ").

Definition Reader_SetPrompt (p : string) : M unit :=
  modifyCLI (fun c => set_reader (mkReader (input (reader c)) p) c).

(** readMultiLine *)
Definition readMultiLine : M string :=
  c <- getCLI ;;
  let '(result, r) :=
    readLoop (database c) [] (prompt (reader c)) (input (reader c)) in
  modifyCLI (set_reader r) ;;;
  ret result.

(** displayTable; the result is the part of the stream never fetched. *)
Definition displayTable (rows : Rows) (cols colTypes : list string) (startTime : Z)
  : M (list Row) :=
  c <- getCLI ;;
  let '(colWidths, allRows, rest) :=
    collectRows (maxRows c) (List.length cols) (rows_pending rows)
                (map headerWidth cols) [] in
  Fprintf (" " ++ tableCells colWidths cols ++ nl) ;;;
  Fprintf (separatorCells colWidths ++ nl) ;;;
  Fprintf (String.concat EmptyString
             (map (fun row => " " ++ tableCells colWidths row ++ nl) allRows)) ;;;
  Fprintf (rowCountLine (List.length allRows)) ;;;
  when (timingEnabled c) (printTiming startTime) ;;;
  Fprintf nl ;;;
  ret rest.

(** displayExpanded; the result is the part of the stream never fetched
    and whether the record header made [strings.Repeat] panic. *)
Definition displayExpanded (rows : Rows) (cols : list string) (startTime : Z)
  : M (list Row * bool) :=
  c <- getCLI ;;
  let '(text, rowNum, rest, panicked) :=
    expandedLoop (maxRows c) cols (rows_pending rows) 0 in
  Fprintf text ;;;
  if panicked then ret (rest, true)
  else
    when (rowNum =? 0) (Fprintf ("(0 rows)" ++ nl)) ;;;
    when (timingEnabled c) (printTiming startTime) ;;;
    Fprintf nl ;;;
    ret (rest, false).

(** executeQuery; the deferred [rows.Close] is logged with the number of
    rows that were fetched. *)
Definition executeQuery (timeout : Z) (sqlStr : string) (startTime : Z) : M unit :=
  d <- theDB ;;
  r <- call (CQuery d timeout sqlStr) (fun h => query_result env h d timeout sqlStr) ;;
  match r with
  | inl err => printError err
  | inr rows =>
      let cols := rows_cols rows in
      let colTypes := rows_types rows in
      let total := List.length (rows_pending rows) in
      c <- getCLI ;;
      if expandedMode c then
        res <- displayExpanded rows cols startTime ;;
        call (CRowsClose d (total - List.length (fst res))) (fun _ => tt) ;;;
        if snd res then panic "strings: negative Repeat count" else ret tt
      else
        rest <- displayTable rows cols colTypes startTime ;;
        call (CRowsClose d (total - List.length rest)) (fun _ => tt)
  end.

(** executeCommand *)
Definition executeCommand (timeout : Z) (sqlStr : string) (startTime : Z) : M unit :=
  r <- db_ExecContext timeout sqlStr ;;
  match r with
  | inl err => printError err
  | inr affected =>
      Fprintf (commandTag sqlStr ++ " " ++ itoa affected ++ nl) ;;;
      c <- getCLI ;;
      when (timingEnabled c) (printTiming startTime) ;;;
      Fprintf nl
  end.

(** One of the three transaction branches of executeSQL: the flag is
    assigned, then the keyword is sent. *)
Definition transactionControl (flag : bool) (keyword : string) (startTime : Z) : M unit :=
  modifyCLI (set_inTransaction flag) ;;;
  r <- db_ExecContext (30 * Second)%Z keyword ;;
  match r with
  | inl err => Fprintf ("ERROR: " ++ err ++ nl)
  | inr _ =>
      Fprintf (keyword ++ nl) ;;;
      c <- getCLI ;;
      when (timingEnabled c) (printTiming startTime)
  end.

(** executeSQL *)
Definition executeSQL (sqlStr : string) : M unit :=
  startTime <- time_Now ;;
  let sqlStr := TrimSuffix (TrimSpace sqlStr) ";" in
  let sqlStr := TrimSpace sqlStr in
  if (sqlStr =? EmptyString)%string then ret tt
  else
    let upperSQL := ToUpper sqlStr in
    if ((upperSQL =? "BEGIN") || (upperSQL =? "START TRANSACTION"))%string then
      transactionControl true "BEGIN" startTime
    else if (upperSQL =? "COMMIT")%string then
      transactionControl false "COMMIT" startTime
    else if (upperSQL =? "ROLLBACK")%string then
      transactionControl false "ROLLBACK" startTime
    else if isQuery sqlStr then
      executeQuery (60 * Second)%Z sqlStr startTime
    else
      executeCommand (60 * Second)%Z sqlStr startTime.

(** connectToDatabase *)
Definition connectToDatabase (dbName : string) : M unit :=
  c <- getCLI ;;
  let dsn := switchDSN (config c) dbName in
  opened <- sql_Open dsn ;;
  match opened with
  | (Some newDB, None) =>
      pingErr <- db_Ping newDB ;;
      match pingErr with
      | Some _ =>
          db_Close newDB ;;;
          Fprintf ("ERROR: database " ++ dq ++ dbName ++ dq ++ " does not exist" ++ nl)
      | None =>
          match db c with
          | Some old => db_Close old
          | None => ret tt
          end ;;;
          modifyCLI (set_db (Some newDB)) ;;;
          modifyCLI (set_database dbName) ;;;
          Fprintf ("You are now connected to database " ++ dq ++ dbName ++ dq
                   ++ " as user " ++ dq ++ Username (config c) ++ dq ++ "." ++ nl)
      end
  | (_, Some err) => Fprintf ("ERROR: " ++ err ++ nl)
  | (None, None) => panic nilDeref
  end.

(** describeTable *)
Fixpoint describeRows (colWidths : list nat) (ncols : nat) (pending : list Row)
  : string :=
  match pending with
  | [] => EmptyString
  | r :: rest =>
      "| " ++ fst (describeCells colWidths (map describeValue (Scan ncols r))) ++ nl
      ++ describeRows colWidths ncols rest
  end.

Definition describeTable (tableName : string) : M unit :=
  let query := sqlDescribeTable tableName in
  d <- theDB ;;
  r <- call (CQuery d (30 * Second)%Z query)
            (fun h => query_result env h d (30 * Second)%Z query) ;;
  match r with
  | inl err => Fprintf ("ERROR: " ++ err ++ nl)
  | inr rows =>
      Fprintf ("Table " ++ dq ++ tableName ++ dq ++ nl) ;;;
      let cols := rows_cols rows in
      let colWidths := [10; 20; 15] in
      Fprintf (separatorLine colWidths) ;;;
      Fprintf "| " ;;;
      let '(headerText, outOfRange) := describeCells colWidths cols in
      Fprintf headerText ;;;
      if outOfRange then
        call (CRowsClose d 0) (fun _ => tt) ;;;
        panic "index out of range [3] with length 3"
      else
        Fprintf nl ;;;
        Fprintf (separatorLine colWidths) ;;;
        Fprintf (describeRows colWidths (List.length cols) (rows_pending rows)) ;;;
        Fprintf (separatorLine colWidths) ;;;
        Fprintf nl ;;;
        call (CRowsClose d (List.length (rows_pending rows))) (fun _ => tt)
  end.

(** showSQLHelp *)
Definition showSQLHelp (cmd : string) : M unit :=
  match Fields cmd with
  | [_] =>
      Fprintf ("Available help:" ++ nl) ;;;
      Fprintf ("  SELECT, INSERT, UPDATE, DELETE" ++ nl) ;;;
      Fprintf ("  CREATE TABLE, DROP TABLE, ALTER TABLE" ++ nl) ;;;
      Fprintf ("  CREATE INDEX, DROP INDEX" ++ nl) ;;;
      Fprintf ("  BEGIN, COMMIT, ROLLBACK" ++ nl) ;;;
      Fprintf ("Use \h <command> for help on specific command" ++ nl ++ nl)
  | _ :: p1 :: _ =>
      Fprintf ("No detailed help available for: " ++ p1 ++ nl) ;;;
      Fprintf ("Please refer to PostgreSQL documentation." ++ nl ++ nl)
  | [] => panic "index out of range [1] with length 0"
  end.

(** showConnectionInfo *)
Definition showConnectionInfo : M unit :=
  c <- getCLI ;;
  Fprintf ("You are connected to database " ++ dq ++ database c ++ dq
           ++ " as user " ++ dq ++ Username (config c) ++ dq
           ++ " via socket in " ++ dq ++ Host (config c) ++ dq
           ++ " at port " ++ dq ++ itoa (Port (config c)) ++ dq ++ "." ++ nl).

(** handlePsqlCommand *)
Definition handlePsqlCommand (cmd : string) : M bool :=
  let cmd := TrimSpace cmd in
  let cmdLower := ToLower cmd in
  if ((cmd =? "\q") || (cmdLower =? "exit") || (cmdLower =? "quit"))%string then
    Fprintf nl ;;; ret true
  else if ((cmd =? "\?") || (cmdLower =? "help"))%string then
    Fprintf helpText ;;; ret true
  else if (cmd =? "\h")%string || HasPrefix cmd "\h " then
    showSQLHelp cmd ;;; ret true
  else if ((cmd =? "\l") || (cmd =? "\list"))%string then
    executeSQL sqlListDatabases ;;; ret true
  else if HasPrefix cmd "\c " || HasPrefix cmd "\connect " then
    match Fields cmd with
    | _ :: p1 :: _ => connectToDatabase p1
    | _ => Fprintf ("ERROR: database name required" ++ nl)
    end ;;; ret true
  else if ((cmd =? "\dt") || (cmd =? "\dt+"))%string then
    executeSQL sqlListTables ;;; ret true
  else if ((cmd =? "\dn") || (cmd =? "\dn+"))%string then
    executeSQL sqlListSchemas ;;; ret true
  else if HasPrefix cmd "\d " then
    describeTable (TrimSpace (substring 3 (String.length cmd - 3) cmd)) ;;; ret true
  else if ((cmd =? "\dv") || (cmd =? "\dv+"))%string then
    executeSQL sqlListViews ;;; ret true
  else if ((cmd =? "\di") || (cmd =? "\di+"))%string then
    executeSQL sqlListIndexes ;;; ret true
  else if ((cmd =? "\ds") || (cmd =? "\ds+"))%string then
    executeSQL sqlListSequences ;;; ret true
  else if ((cmd =? "\df") || (cmd =? "\df+"))%string then
    executeSQL sqlListFunctions ;;; ret true
  else if ((cmd =? "\du") || (cmd =? "\du+"))%string then
    executeSQL sqlListRoles ;;; ret true
  else if (cmd =? "\x")%string then
    modifyCLI (fun c => set_expandedMode (negb (expandedMode c)) c) ;;;
    c <- getCLI ;;
    (if expandedMode c then Fprintf ("Expanded display is on." ++ nl)
     else Fprintf ("Expanded display is off." ++ nl)) ;;;
    ret true
  else if (cmd =? "\timing")%string then
    modifyCLI (fun c => set_timingEnabled (negb (timingEnabled c)) c) ;;;
    c <- getCLI ;;
    (if timingEnabled c then Fprintf ("Timing is on." ++ nl)
     else Fprintf ("Timing is off." ++ nl)) ;;;
    ret true
  else if (cmd =? "\conninfo")%string then
    showConnectionInfo ;;; ret true
  else if (cmd =? "\d")%string then
    executeSQL sqlPublicTables ;;; ret true
  else ret false.

(** fetchServerInfo *)
Definition fetchServerInfo : M unit :=
  version <- db_QueryRowString "SELECT version()" ;;
  modifyCLI (fun c => set_serverInfo
    (mkServerInfo version (ServerEncoding (serverInfo c))
                  (ClientEncoding (serverInfo c)) (ConnectionID (serverInfo c))) c) ;;;
  serverEncoding <- db_QueryRowString "SHOW server_encoding" ;;
  clientEncoding <- db_QueryRowString "SHOW client_encoding" ;;
  modifyCLI (fun c => set_serverInfo
    (mkServerInfo (Version (serverInfo c)) serverEncoding clientEncoding
                  (ConnectionID (serverInfo c))) c) ;;;
  connID <- db_QueryRowInt "SELECT pg_backend_pid()" ;;
  modifyCLI (fun c => set_serverInfo
    (mkServerInfo (Version (serverInfo c)) (ServerEncoding (serverInfo c))
                  (ClientEncoding (serverInfo c)) connID) c).

(** showWelcome *)
Definition showWelcome : M unit :=
  c <- getCLI ;;
  Fprintf ("psql (" ++ extractVersionNumber (Version (serverInfo c)) ++ ")" ++ nl) ;;;
  Fprintf ("Type " ++ dq ++ "help" ++ dq ++ " for help." ++ nl ++ nl).

(** Connect; the result is the error returned, if any. *)
Definition Connect : M (option string) :=
  c <- getCLI ;;
  let dsn := connectDSN (config c) in
  opened <- sql_Open dsn ;;
  modifyCLI (set_db (fst opened)) ;;;
  match opened with
  | (_, Some err) => ret (Some err)
  | (None, None) => panic nilDeref
  | (Some d, None) =>
      call (CSetMaxOpenConns d (MaxOpenConns (config c))) (fun _ => tt) ;;;
      call (CSetMaxIdleConns d (MaxIdleConns (config c))) (fun _ => tt) ;;;
      call (CSetConnMaxLifetime d (ConnMaxLifetime (config c))) (fun _ => tt) ;;;
      pingErr <- db_Ping d ;;
      match pingErr with
      | Some err => db_Close d ;;; ret (Some err)
      | None => fetchServerInfo ;;; showWelcome ;;; ret None
      end
  end.

(** Close *)
Definition Close : M (option string) :=
  c <- getCLI ;;
  match db c with
  | Some d => db_Close d ;;; ret None
  | None => ret None
  end.

(** What one turn of the loop of Start decides. *)
Inductive LoopStep :=
| LoopContinue
| LoopReturn (err : option string).

(** The body of the loop of Start. *)
Definition StartBody : M LoopStep :=
  p <- getPrompt ;;
  Reader_SetPrompt p ;;;
  sqlStr <- readMultiLine ;;
  if (sqlStr =? EmptyString)%string then ret LoopContinue
  else
    let sqlStr := TrimSpace sqlStr in
    handled <- handlePsqlCommand sqlStr ;;
    if handled then
      if ((ToLower sqlStr =? "exit") || (ToLower sqlStr =? "quit")
          || (sqlStr =? "\q"))%string
      then ret (LoopReturn None)
      else ret LoopContinue
    else
      executeSQL sqlStr ;;; ret LoopContinue.

(** Start, run for at most [fuel] turns of its loop: [None] when the
    loop has not returned within them. *)
Fixpoint Start (fuel : nat) (s : State) : option (Outcome (option string) * State) :=
  match fuel with
  | O => None
  | S fuel' =>
      match StartBody s with
      | (Done LoopContinue, s') => Start fuel' s'
      | (Done (LoopReturn err), s') => Some (Done err, s')
      | (Panic msg, s') => Some (Panic msg, s')
      end
  end.

End Engine.

(** ** Sample collaborators and sessions *)

(** A server that is down: nothing answers. *)
Definition envDown : Env :=
  mkEnv (fun _ _ => None)
        (fun _ _ => Some "connection refused")
        (fun _ _ _ _ => inl "connection refused")
        (fun _ _ _ _ => inl "connection refused")
        (fun _ _ _ => None)
        (fun _ _ _ => None)
        (fun h => Z.of_nat (List.length h))
        (fun _ => "0.001").

Definition sampleRows : list Row :=
  [[VInt 1; VString "ab"]; [VInt 2; VNil]; [VInt 3; VBool true]].

(** A server that is up: every statement works, every query gives the
    same three rows. *)
Definition envUp : Env :=
  mkEnv (fun _ _ => None)
        (fun _ _ => None)
        (fun _ _ _ _ => inr 0%Z)
        (fun _ _ _ _ => inr (mkRows ["id"; "name"] ["int4"; "text"] sampleRows))
        (fun _ _ _ => Some "PostgreSQL 16.1 on x86_64")
        (fun _ _ _ => Some 4242%Z)
        (fun h => Z.of_nat (List.length h))
        (fun _ => "0.001").

(** A session as NewCLI makes it, connected through a first handle. *)
Definition sampleCLI (termInput : list ReadResult) : CLI :=
  set_db (Some (mkDB 0 "host=localhost port=5432 user=postgres password=password dbname=testdb sslmode=disable connect_timeout=10 application_name=psql"))
         (NewCLI termInput "localhost" 5432%Z "postgres" "password" "testdb").

Definition sampleState (termInput : list ReadResult) : State :=
  mkState (sampleCLI termInput) [COpen "host=localhost port=5432 user=postgres password=password dbname=testdb sslmode=disable connect_timeout=10 application_name=psql"].

(** ** Notions of the specification *)

(** ASCII text: every byte of [s] is below 128.  On such text a
    character is a byte, the white space of Go is the six characters of
    [isSpace], its letters are A to Z and a to z, and the padding of
    [%-*s] counts bytes: there [TrimSpace], [Fields], [ToUpper],
    [ToLower] and [padRight] above are the functions of the Go library. *)
Fixpoint isASCII (s : string) : bool :=
  match s with
  | EmptyString => true
  | String c r => (nat_of_ascii c <? 128) && isASCII r
  end.

(** A read of the line source whose line, if it gives one, is ASCII. *)
Definition readIsASCII (r : ReadResult) : bool :=
  match r with
  | RLine line => isASCII line
  | _ => true
  end.

(** A value whose text in the grid is ASCII. *)
Definition valueIsASCII (v : Value) : bool := isASCII (formatValue v).

(** The character [c] is the capital letter [k] or its small form, 32
    codes higher. *)
Definition letterMatches (k c : ascii) : bool :=
  (nat_of_ascii c =? nat_of_ascii k) || (nat_of_ascii c =? nat_of_ascii k + 32).

(** [s] begins with the keyword [kw], written in capital letters, the
    case of the letters of [s] ignored. *)
Fixpoint beginsWithKeyword (kw s : string) : bool :=
  match kw with
  | EmptyString => true
  | String k kw' =>
      match s with
      | EmptyString => false
      | String c s' => letterMatches k c && beginsWithKeyword kw' s'
      end
  end.

(** A word written in capital letters only. *)
Fixpoint capitals (kw : string) : bool :=
  match kw with
  | EmptyString => true
  | String k kw' => isUpper k && capitals kw'
  end.

(** The keyword a statement is reported under when it succeeds: the one
    of INSERT, UPDATE, DELETE, CREATE, DROP, ALTER it begins with, and
    COMMAND when it begins with none. *)
Definition leadingCommandKeyword (stmt : string) : string :=
  if beginsWithKeyword "INSERT" stmt then "INSERT"
  else if beginsWithKeyword "UPDATE" stmt then "UPDATE"
  else if beginsWithKeyword "DELETE" stmt then "DELETE"
  else if beginsWithKeyword "CREATE" stmt then "CREATE"
  else if beginsWithKeyword "DROP" stmt then "DROP"
  else if beginsWithKeyword "ALTER" stmt then "ALTER"
  else "COMMAND".

(** [n] blanks and [n] dashes. *)
Fixpoint blanks (n : nat) : string :=
  match n with
  | O => EmptyString
  | S k => String " " (blanks k)
  end.

Fixpoint dashes (n : nat) : string :=
  match n with
  | O => EmptyString
  | S k => String "-" (dashes k)
  end.

(** A cell written at the left of a column [w] characters wide: blanks
    fill the column up, and a longer cell is written whole. *)
Definition leftAligned (w : nat) (cell : string) : string :=
  cell ++ blanks (w - String.length cell).

(** A header or data line of the grid: a blank, then every cell at the
    left of its column with a blank after it, and a bar and a blank
    between two columns. *)
Definition gridLine (widths : list nat) (cells : list string) : string :=
  " " ++ String.concat "| "
           (map (fun wc => leftAligned (fst wc) (snd wc) ++ " ") (combine widths cells)).

(** The line under the header: for every column one dash more than its
    width, and a plus sign and a dash between two columns. *)
Definition dashLine (widths : list nat) : string :=
  String.concat "+-" (map (fun w => dashes (w + 1)) widths).

(** The line [Time: .. ms] that ends an answer when timing is on: the
    clock is read after the calls of [h]. *)
Definition timingText (env : Env) (on : bool) (h : list Call) (startTime : Z) : string :=
  if on then "Time: " ++ fmt_ms env (clock env h - startTime)%Z ++ " ms" ++ nl
  else EmptyString.

(** The frame and a line of the listing of describeTable: three columns
    of 10, 20 and 15 characters between bars. *)
Definition describeFrame : string :=
  "+------------+----------------------+-----------------+".

Definition describeLine (cells : list string) : string :=
  "| " ++ String.concat EmptyString
            (map (fun wc => leftAligned (fst wc) (snd wc) ++ " | ")
                 (combine [10; 20; 15] cells)).

(** The DSNs handed to [sql.Open] in a history, latest first. *)
Fixpoint openedDSNs (h : list Call) : list string :=
  match h with
  | [] => []
  | COpen dsn :: h' => dsn :: openedDSNs h'
  | _ :: h' => openedDSNs h'
  end.

(** [sub] occurs in [s]. *)
Definition Contains (s sub : string) : Prop :=
  exists pre post, s = pre ++ sub ++ post.

(** The text of a value in the grid: a formatted value longer than 50
    characters is cut to its first 47 characters and three dots. *)
Definition renderCell (v : Value) : string :=
  let s := formatValue v in
  if 50 <? String.length s then sliceTo 47 s ++ "..." else s.

(** The number of rows a display loop fetches from a stream when
    [already] rows were counted before: the loops test the cap after
    they have taken a row. *)
Definition fetchCount (cap : Z) (already : nat) (pending : list Row) : nat :=
  Nat.min (List.length pending) (Nat.max 1 (Z.to_nat cap - already)).

(** The width of column [i] of the grid for the rows shown: the length
    of its label, 4 at least, or the length of the longest formatted
    value of the column when that is larger, and 50 at most. *)
Definition columnWidth (cols : list string) (shown : list Row) (i : nat) : nat :=
  Nat.min 50
    (Nat.max (Nat.max 4 (String.length (nth i cols EmptyString)))
             (list_max (map (fun r => String.length (formatValue (nth i r VNil))) shown))).

(** The widths after one row. *)
Definition widen (vals : list Value) (colWidths : list nat) : list nat :=
  map (fun vw => Nat.min 50 (Nat.max (snd vw) (String.length (formatValue (fst vw)))))
      (combine vals colWidths).

(** The widths after the rows of a list, starting from [colWidths]. *)
Definition widenAll (ncols : nat) (rows : list Row) (colWidths : list nat) : list nat :=
  fold_left (fun ws r => widen (Scan ncols r) ws) rows colWidths.

(** An action that leaves maxRows as it found it. *)
Definition keepsMaxRows {A} (m : M A) : Prop :=
  forall s, maxRows (cli (snd (m s))) = maxRows (cli s).

(** Every character of [s] is white space. *)
Fixpoint allSpace (s : string) : bool :=
  match s with
  | EmptyString => true
  | String c r => isSpace c && allSpace r
  end.

(** An action that never answers [false]. *)
Definition neverFalse (m : M bool) : Prop :=
  forall s s', m s <> (Done false, s').

(** An action that only writes to the terminal: it ends without panic,
    makes no call and leaves the session as it is but for the text it
    appends. *)
Definition onlyWrites {A} (m : M A) : Prop :=
  forall c h, exists a text,
    m (mkState c h) = (Done a, mkState (set_term (term c ++ text) c) h).

(** A line that does not end a statement in progress: its trimmed form
    starts with the escape prefix or does not end with a semicolon. *)
Definition continuesStatement (line : string) : bool :=
  HasPrefix (TrimSpace line) "\" || negb (HasSuffix (TrimSpace line) ";").

(** The statement executeSQL works on: the text trimmed, one final
    semicolon taken off, trimmed again. *)
Definition strippedStatement (sqlStr : string) : string :=
  TrimSpace (TrimSuffix (TrimSpace sqlStr) ";").

(** The transaction keywords of executeSQL, on the statement in upper
    case: the value given to inTransaction and the keyword sent. *)
Definition transactionKeyword (upperSQL : string) : option (bool * string) :=
  if ((upperSQL =? "BEGIN") || (upperSQL =? "START TRANSACTION"))%string
  then Some (true, "BEGIN")
  else if (upperSQL =? "COMMIT")%string then Some (false, "COMMIT")
  else if (upperSQL =? "ROLLBACK")%string then Some (false, "ROLLBACK")
  else None.

(** The length of a line of the grid whose cells fit the widths: each
    cell with the space after it, and [| ] between two cells. *)
Fixpoint gridWidth (colWidths : list nat) : nat :=
  match colWidths with
  | [] => 0
  | w :: ws => w + 1 + (match ws with [] => 0 | _ => 2 end) + gridWidth ws
  end.

(** An action that changes nothing in the session but the text on the
    terminal (its calls on the collaborators apart). *)
Definition changesOnlyTerminal {A} (m : M A) : Prop :=
  forall s, exists text, cli (snd (m s)) = set_term text (cli s).

(** ** The line source that reads the terminal byte by byte *)

Module RawReader.

(** What one [term.Read(buf)] on the one-byte buffer gives: a byte, no
    byte and no error, or an error (a byte that comes with an error is
    not looked at). *)
Inductive ReadEvent :=
| RdByte (ch : ascii)
| RdNothing
| RdError (msg : string).

(** Reader: what the terminal will deliver to the next reads (at end of
    input once it is used up) and what has been written to it. *)
Record Reader := mkReader {
  term_in : list ReadEvent;
  writer : string
}.

(** [fmt.Fprintf(r.writer, string(ch))]: the character is the format
    itself, so a lone percent sign comes out as the missing-verb text. *)
Definition echoOf (ch : ascii) : string :=
  if (nat_of_ascii ch =? 37) then "%!(NOVERB)" else String ch EmptyString.

(** The text ["\b \b"]. *)
Definition backspaceEcho : string :=
  String (ascii_of_nat 8) (String " " (String (ascii_of_nat 8) EmptyString)).

(** The slice [line[:len(line)-1]]. *)
Definition dropLast (line : string) : string :=
  substring 0 (String.length line - 1) line.

(** The loop of ReadLine: [line] is the line so far, [w] what has been
    written. *)
Fixpoint readLoop (line : string) (w : string) (inp : list ReadEvent)
  : (string * option string) * Reader :=
  match inp with
  | [] => ((EmptyString, Some "EOF"), mkReader [] w)
  | RdError msg :: rest => ((EmptyString, Some msg), mkReader rest w)
  | RdNothing :: rest => readLoop line w rest
  | RdByte ch :: rest =>
      let n := nat_of_ascii ch in
      if (n =? 10) || (n =? 13) then
        ((line, None), mkReader (if n =? 13 then tl rest else rest) w)
      else if (n =? 127) || (n =? 8) then
        if 0 <? String.length line
        then readLoop (dropLast line) (w ++ backspaceEcho) rest
        else readLoop line w rest
      else if (32 <=? n) && (n <? 127) then
        readLoop (line ++ String ch EmptyString) (w ++ echoOf ch) rest
      else readLoop line w rest
  end.

(** ReadLine *)
Definition ReadLine (r : Reader) : (string * option string) * Reader :=
  readLoop EmptyString (writer r) (term_in r).

(** A character the loop keeps. *)
Definition printableChar (ch : ascii) : bool :=
  (32 <=? nat_of_ascii ch) && (nat_of_ascii ch <? 127).

Fixpoint printable (s : string) : bool :=
  match s with
  | EmptyString => true
  | String ch r => printableChar ch && printable r
  end.

(** The bytes of a text, as the terminal delivers them. *)
Definition typed (s : string) : list ReadEvent :=
  map RdByte (list_ascii_of_string s).

(** What the loop writes back for a text. *)
Fixpoint echoAll (s : string) : string :=
  match s with
  | EmptyString => EmptyString
  | String ch r => echoOf ch ++ echoAll r
  end.


End RawReader.

(** * Properties *)

(** ** Transaction control *)

(** A transaction branch of executeSQL assigns the flag before the
    keyword is sent, so the flag has its new value whatever the backend
    answers. *)
Lemma transactionControl_assigns_flag_first env flag keyword startTime c h d :
  db c = Some d ->
  exists text,
    transactionControl env flag keyword startTime (mkState c h)
    = (Done tt,
       mkState (set_term text (set_inTransaction flag c))
               (if timingEnabled c
                then match exec_result env h d (30 * Second)%Z keyword with
                     | inl _ => [CExec d (30 * Second)%Z keyword]
                     | inr _ => [CNow; CExec d (30 * Second)%Z keyword]
                     end ++ h
                else CExec d (30 * Second)%Z keyword :: h)%list).
Proof.
  intros Hdb. destruct c as [t cfg dbh rd si ex tm mr it dbn]. simpl in Hdb. subst dbh.
  unfold transactionControl, bind, modifyCLI, db_ExecContext, theDB, bind, getCLI, ret, call.
  generalize (30 * Second)%Z; intros timeout.
  simpl. destruct (exec_result env h d timeout keyword) as [err | n].
  - destruct tm; eexists; reflexivity.
  - destruct tm; eexists; reflexivity.
Qed.

(** C1 (the code departs from it).  The claim: the flag inTransaction
    changes only together with a successful backend acknowledgment.
    Here the session is outside a transaction, BEGIN is submitted and
    the Exec call of the backend fails: the error is printed and the
    session is left with inTransaction set. *)
Theorem failed_begin_sets_inTransaction :
  let s0 := sampleState [] in
  let d := mkDB 0 "host=localhost port=5432 user=postgres password=password dbname=testdb sslmode=disable connect_timeout=10 application_name=psql" in
  let s1 := snd (executeSQL envDown "BEGIN;" s0) in
  inTransaction (cli s0) = false
  /\ fst (executeSQL envDown "BEGIN;" s0) = Done tt
  /\ history s1 = CExec d (30 * Second)%Z "BEGIN" :: CNow :: history s0
  /\ exec_result envDown (CNow :: history s0) d (30 * Second)%Z "BEGIN"
     = inl "connection refused"
  /\ term (cli s1) = "ERROR: connection refused" ++ nl
  /\ inTransaction (cli s1) = true.
Proof. vm_compute. repeat split. Qed.

(** The same ordering on the way out: a COMMIT that the backend refuses
    still clears the flag. *)
Lemma failed_commit_clears_inTransaction :
  let s0 := mkState (set_inTransaction true (sampleCLI [])) [] in
  let s1 := snd (executeSQL envDown "commit" s0) in
  inTransaction (cli s0) = true
  /\ term (cli s1) = "ERROR: connection refused" ++ nl
  /\ inTransaction (cli s1) = false.
Proof. vm_compute. repeat split. Qed.

(** Whatever the backend answers to BEGIN, the session is left with the
    flag set. *)
Lemma executeSQL_begin_sets_flag_whatever_the_answer env c h d :
  db c = Some d ->
  inTransaction (cli (snd (executeSQL env "BEGIN;" (mkState c h)))) = true.
Proof.
  intros Hdb.
  change (executeSQL env "BEGIN;")
    with (startTime <- time_Now env ;; transactionControl env true "BEGIN" startTime).
  unfold bind, time_Now, call. cbn [cli history].
  destruct (transactionControl_assigns_flag_first env true "BEGIN"
              (clock env h) c (CNow :: h) d Hdb) as [text ->].
  reflexivity.
Qed.

(** ** The session loop at end of input *)

(** At end of input a turn of the loop reads nothing, executes nothing
    and asks for another turn. *)
Lemma StartBody_at_end_of_input env s :
  input (reader (cli s)) = [] ->
  exists s',
    StartBody env s = (Done LoopContinue, s')
    /\ input (reader (cli s')) = []
    /\ history s' = history s
    /\ term (cli s') = term (cli s).
Proof.
  destruct s as [c h]. destruct c as [t cfg dbh rd si ex tm mr it dbn].
  destruct rd as [inp pr]. simpl. intros ->.
  unfold StartBody, bind, getPrompt, getCLI, Reader_SetPrompt, readMultiLine,
    modifyCLI, bind, ret. simpl.
  destruct it; simpl; eexists; repeat split.
Qed.

Lemma Start_never_returns_at_end_of_input env fuel :
  forall s, input (reader (cli s)) = [] -> Start env fuel s = None.
Proof.
  induction fuel as [| fuel IH]; intros s Hs; simpl.
  - reflexivity.
  - destruct (StartBody_at_end_of_input env s Hs) as [s' [Hb [Hin _]]].
    rewrite Hb. apply IH. exact Hin.
Qed.

(** C2 (the code departs from it).  The claim: when the line source
    reports end of input, Start returns without error.  In the code
    readMultiLine answers end of input with the empty text, which Start
    takes for a blank line: with the line source at end of input, Start
    has not returned after any number of turns of its loop. *)
Theorem Start_spins_at_end_of_input env fuel c h p :
  Start env fuel (mkState (set_reader (mkReader [] p) c) h) = None.
Proof. apply Start_never_returns_at_end_of_input. reflexivity. Qed.

(** An end of input reported in the middle of the input is passed over
    in the same way: the statement after it is read and executed. *)
Lemma Start_reads_past_end_of_input :
  exists s',
    Start envUp 3 (sampleState [REOF; RLine "begin;"; RLine "\q"]) = Some (Done None, s')
    /\ input (reader (cli s')) = []
    /\ inTransaction (cli s') = true.
Proof. vm_compute. eexists. repeat split. Qed.

(** ** Display toggles *)

(** C9.  Dispatching [\x] flips expandedMode, writes the confirmation
    line of the new state and changes nothing else; dispatching it twice
    gives expandedMode its first value back.  The same holds of
    [\timing] and timingEnabled. *)
Theorem toggle_commands_flip_and_restore env c h :
  handlePsqlCommand env "\x" (mkState c h)
  = (Done true,
     mkState (set_term (term c ++ (if negb (expandedMode c)
                                   then "Expanded display is on."
                                   else "Expanded display is off.") ++ nl)
                       (set_expandedMode (negb (expandedMode c)) c)) h)
  /\ expandedMode (cli (snd (handlePsqlCommand env "\x"
                         (snd (handlePsqlCommand env "\x" (mkState c h))))))
     = expandedMode c
  /\ handlePsqlCommand env "\timing" (mkState c h)
     = (Done true,
        mkState (set_term (term c ++ (if negb (timingEnabled c)
                                      then "Timing is on."
                                      else "Timing is off.") ++ nl)
                          (set_timingEnabled (negb (timingEnabled c)) c)) h)
  /\ timingEnabled (cli (snd (handlePsqlCommand env "\timing"
                          (snd (handlePsqlCommand env "\timing" (mkState c h))))))
     = timingEnabled c.
Proof.
  destruct c as [t cfg dbh rd si ex tm mr it dbn].
  repeat split; destruct ex, tm; vm_compute; reflexivity.
Qed.

(** ** Statement accumulator *)

Lemma HasPrefix_cons s a p :
  HasPrefix s (String a p) = true ->
  exists r, s = String a r /\ HasPrefix r p = true.
Proof.
  unfold HasPrefix. destruct s as [| b r]; simpl; [discriminate |].
  destruct (ascii_dec a b) as [-> | _]; [| discriminate].
  intros H. exists r. split; [reflexivity | exact H].
Qed.

Lemma HasPrefix_not_empty s a p :
  HasPrefix s (String a p) = true -> (s =? EmptyString)%string = false.
Proof.
  intros H. apply HasPrefix_cons in H. destruct H as [r [-> _]]. reflexivity.
Qed.

(** A turn of the loop on an empty buffer, when the line read starts
    with the escape prefix. *)
Lemma readLoop_escape_first database pr line rest :
  HasPrefix (TrimSpace line) "\" = true ->
  readLoop database [] pr (RLine line :: rest) = (TrimSpace line, mkReader rest pr).
Proof.
  intros H. cbn [readLoop List.length Nat.eqb].
  rewrite (HasPrefix_not_empty _ _ _ H), H. reflexivity.
Qed.

(** A turn of the loop on a buffer that is not empty. *)
Lemma readLoop_buffered database lines pr line rest :
  lines <> [] ->
  readLoop database lines pr (RLine line :: rest)
  = if HasPrefix (TrimSpace line) "\"
    then readLoop database (lines ++ [line]) pr rest
    else if HasSuffix (TrimSpace line) ";"
         then (Join (lines ++ [line]) nl, mkReader rest pr)
         else readLoop database (lines ++ [line]) (database ++ "-> ") rest.
Proof.
  intros Hne. destruct lines as [| l0 lines]; [contradiction |].
  cbn [readLoop List.length Nat.eqb Nat.ltb Nat.leb andb].
  rewrite Bool.andb_false_r. reflexivity.
Qed.

(** A turn of the loop in terms of ReadLine: an error of the line source,
    end of input included, ends the call with the empty text. *)
Lemma readLoop_ReadLine database lines pr inp :
  readLoop database lines pr inp
  = match ReadLine (mkReader inp pr) with
    | ((_, Some _), r) => (EmptyString, r)
    | ((line, None), r) =>
        let trimmed := TrimSpace line in
        if (trimmed =? EmptyString)%string && (List.length lines =? 0) then
          (EmptyString, r)
        else if (List.length lines =? 0) && HasPrefix trimmed "\" then (trimmed, r)
        else if (List.length lines =? 0) && isShortcut (ToLower trimmed) then (trimmed, r)
        else if (0 <? List.length lines) && HasPrefix trimmed "\" then
          readLoop database (lines ++ [line]) (prompt r) (input r)
        else if HasSuffix trimmed ";" then (Join (lines ++ [line]) nl, r)
        else readLoop database (lines ++ [line]) (database ++ "-> ") (input r)
    end.
Proof. destruct inp as [| [line | | msg] rest]; reflexivity. Qed.

(** C3 as it is stated fails: with [select 1] in the buffer, the line
    [\x;] ends with a semicolon and does not end the accumulation. *)
Lemma escape_line_with_semicolon_keeps_accumulating :
  ~ (forall database lines pr line rest,
        lines <> [] ->
        HasSuffix (TrimSpace line) ";" = true ->
        readLoop database lines pr (RLine line :: rest)
        = (Join (lines ++ [line]) nl, mkReader rest pr)).
Proof.
  intros H.
  specialize (H "db" ["select 1"] "db-> " "\x;" [RLine "from t;"]).
  assert (Hne : ["select 1"] <> []) by discriminate.
  specialize (H Hne eq_refl). vm_compute in H. discriminate H.
Qed.

(** The same input through readMultiLine: the unit returned holds the
    three lines. *)
Example readMultiLine_escape_line_inside_statement :
  fst (readMultiLine (sampleState [RLine "select 1"; RLine "\x;"; RLine "from t;"]))
  = Done ("select 1" ++ nl ++ "\x;" ++ nl ++ "from t;").
Proof. vm_compute. reflexivity. Qed.

(** C3, amended.  With the buffer not empty and a line of ASCII text: a
    line whose trimmed form ends with [;] and does not start with the
    escape prefix ends the accumulation, and the buffer joined with line
    feeds is returned; a line whose trimmed form starts with the escape
    prefix is appended to the buffer as text and the accumulation goes on
    with the next line, also when that line ends with [;]. *)
Theorem readLoop_accumulation_in_progress database lines pr line rest :
  isASCII line = true ->
  lines <> [] ->
  (HasPrefix (TrimSpace line) "\" = false ->
   HasSuffix (TrimSpace line) ";" = true ->
   readLoop database lines pr (RLine line :: rest)
   = (Join (lines ++ [line]) nl, mkReader rest pr))
  /\ (HasPrefix (TrimSpace line) "\" = true ->
      readLoop database lines pr (RLine line :: rest)
      = readLoop database (lines ++ [line]) pr rest).
Proof.
  intros _ Hne. rewrite (readLoop_buffered _ _ _ _ _ Hne). split.
  - intros -> ->. reflexivity.
  - intros ->. reflexivity.
Qed.

Lemma readLoop_accumulation_in_progress_witness :
  readLoop "db" ["select 1"] "db-> " [RLine "from t; "; RLine "select 2;"]
  = ("select 1" ++ nl ++ "from t; ", mkReader [RLine "select 2;"] "db-> ")
  /\ readLoop "db" ["select 1"] "db-> " [RLine "\x;"; RLine "from t;"]
     = readLoop "db" ["select 1"; "\x;"] "db-> " [RLine "from t;"].
Proof.
  assert (Hne : ["select 1"] <> []) by discriminate.
  split.
  - exact (proj1 (readLoop_accumulation_in_progress "db" ["select 1"] "db-> "
                    "from t; " [RLine "select 2;"] eq_refl Hne) eq_refl eq_refl).
  - exact (proj2 (readLoop_accumulation_in_progress "db" ["select 1"] "db-> "
                    "\x;" [RLine "from t;"] eq_refl Hne) eq_refl).
Defined.

(** C4 as it is stated fails: the unit returned is the trimmed form of
    the line, not the line as it was read. *)
Lemma escape_first_line_is_not_returned_verbatim :
  ~ (forall c h line rest,
        input (reader c) = RLine line :: rest ->
        HasPrefix (TrimSpace line) "\" = true ->
        fst (readMultiLine (mkState c h)) = Done line).
Proof.
  intros H.
  specialize (H (sampleCLI [RLine "  \dt "]) [] "  \dt " [] eq_refl eq_refl).
  vm_compute in H. discriminate H.
Qed.

(** C4, amended.  When the first line read is ASCII text and, after
    trimming, starts with the escape prefix, readMultiLine returns the
    trimmed form of that line as a one-line unit and reads no further
    input: the line source is left with everything after that line, and
    nothing else in the session changes. *)
Theorem readMultiLine_escape_first_line c h line rest :
  isASCII line = true ->
  input (reader c) = RLine line :: rest ->
  HasPrefix (TrimSpace line) "\" = true ->
  readMultiLine (mkState c h)
  = (Done (TrimSpace line),
     mkState (set_reader (mkReader rest (prompt (reader c))) c) h).
Proof.
  intros _ Hin Hp. unfold readMultiLine, bind, getCLI, modifyCLI, ret.
  cbn [cli history]. rewrite Hin, (readLoop_escape_first _ _ _ _ Hp). reflexivity.
Qed.

Lemma readMultiLine_escape_first_line_witness :
  readMultiLine (mkState (sampleCLI [RLine "  \dt "; RLine "select 1;"]) [])
  = (Done "\dt",
     mkState (set_reader (mkReader [RLine "select 1;"] EmptyString)
                         (sampleCLI [RLine "  \dt "; RLine "select 1;"])) []).
Proof.
  exact (readMultiLine_escape_first_line
           (sampleCLI [RLine "  \dt "; RLine "select 1;"]) [] "  \dt "
           [RLine "select 1;"] eq_refl eq_refl eq_refl).
Defined.

(** ** Statement classification *)

(** Against a capital letter, the test of a character put in upper case
    is the test of the letter in its two forms. *)
Lemma upperChar_matches k c :
  isUpper k = true ->
  (if ascii_dec k (upperChar c) then true else false) = letterMatches k c.
Proof.
  unfold isUpper, upperChar, isLower, letterMatches. cbv zeta. intros Hk.
  apply andb_true_iff in Hk. destruct Hk as [Hk1 Hk2].
  apply Nat.leb_le in Hk1. apply Nat.leb_le in Hk2.
  pose proof (nat_ascii_bounded c) as Hc.
  destruct ((97 <=? nat_of_ascii c) && (nat_of_ascii c <=? 122)) eqn:Elow.
  - apply andb_true_iff in Elow. destruct Elow as [E1 E2].
    apply Nat.leb_le in E1. apply Nat.leb_le in E2.
    destruct (ascii_dec k (ascii_of_nat (nat_of_ascii c - 32))) as [Heq | Hne].
    + assert (Hn : nat_of_ascii k = nat_of_ascii c - 32).
      { rewrite Heq at 1. apply nat_ascii_embedding. lia. }
      symmetry. apply orb_true_iff. right. apply Nat.eqb_eq. lia.
    + symmetry. apply orb_false_iff. split; apply Nat.eqb_neq; [lia |].
      intros Hn. apply Hne. replace (nat_of_ascii c - 32) with (nat_of_ascii k) by lia.
      symmetry. apply ascii_nat_embedding.
  - assert (Hnot : ~ (97 <= nat_of_ascii c <= 122)).
    { intros [H1 H2]. apply Nat.leb_le in H1. apply Nat.leb_le in H2.
      rewrite H1, H2 in Elow. discriminate Elow. }
    destruct (ascii_dec k c) as [Heq | Hne].
    + subst c. symmetry. apply orb_true_iff. left. apply Nat.eqb_refl.
    + symmetry. apply orb_false_iff. split; apply Nat.eqb_neq; [| lia].
      intros Hn. apply Hne.
      rewrite <- (ascii_nat_embedding k), <- (ascii_nat_embedding c), Hn. reflexivity.
Qed.

(** The prefix test of the engine, on the text put in upper case against
    a keyword in capital letters, is the test of the keyword with the
    case of the text ignored. *)
Lemma HasPrefix_ToUpper_keyword kw :
  capitals kw = true ->
  forall t, HasPrefix (ToUpper t) kw = beginsWithKeyword kw t.
Proof.
  unfold HasPrefix, ToUpper.
  induction kw as [| k kw IH]; intros Hkw t.
  - destruct t; reflexivity.
  - cbn [capitals] in Hkw. apply andb_true_iff in Hkw. destruct Hkw as [Hk Hkw].
    destruct t as [| c t]; [reflexivity |].
    cbn [mapString String.prefix beginsWithKeyword].
    rewrite <- (upperChar_matches k c Hk), <- (IH Hkw t).
    destruct (ascii_dec k (upperChar c)); reflexivity.
Qed.

(** C7.  On ASCII text, isQuery answers true exactly when the statement,
    trimmed and with the case of its letters ignored, begins with one of
    SELECT, SHOW, WITH, TABLE, VALUES, EXPLAIN, ANALYZE; it answers false
    on every other statement. *)
Theorem isQuery_iff_begins_with_query_keyword sqlStr :
  isASCII sqlStr = true ->
  isQuery sqlStr
  = (beginsWithKeyword "SELECT" (TrimSpace sqlStr)
     || beginsWithKeyword "SHOW" (TrimSpace sqlStr)
     || beginsWithKeyword "WITH" (TrimSpace sqlStr)
     || beginsWithKeyword "TABLE" (TrimSpace sqlStr)
     || beginsWithKeyword "VALUES" (TrimSpace sqlStr)
     || beginsWithKeyword "EXPLAIN" (TrimSpace sqlStr)
     || beginsWithKeyword "ANALYZE" (TrimSpace sqlStr)).
Proof.
  intros _. unfold isQuery, queryPrefixes. cbv zeta. cbn [existsb].
  rewrite !HasPrefix_ToUpper_keyword by reflexivity.
  rewrite Bool.orb_false_r, !Bool.orb_assoc. reflexivity.
Qed.

Lemma isQuery_iff_begins_with_query_keyword_witness :
  isQuery "  Select 1" = true /\ isQuery "vacuum t" = false.
Proof.
  split.
  - rewrite (isQuery_iff_begins_with_query_keyword "  Select 1" eq_refl). reflexivity.
  - rewrite (isQuery_iff_begins_with_query_keyword "vacuum t" eq_refl). reflexivity.
Defined.

(** The statements the specification names. *)
Example isQuery_examples :
  isQuery "select 1" = true
  /\ isQuery "  SHOW ALL" = true
  /\ isQuery "with x as (select 1) select * from x" = true
  /\ isQuery "insert into t values (1)" = false
  /\ isQuery "vacuum t" = false.
Proof. vm_compute. repeat split. Qed.

(** The router follows the classification: a statement that is neither
    empty nor a transaction keyword goes to executeQuery when isQuery
    holds of it and to executeCommand otherwise. *)
Lemma executeSQL_routes_by_isQuery env sqlStr s :
  let stmt := TrimSpace (TrimSuffix (TrimSpace sqlStr) ";") in
  (stmt =? EmptyString)%string = false ->
  (ToUpper stmt =? "BEGIN")%string = false ->
  (ToUpper stmt =? "START TRANSACTION")%string = false ->
  (ToUpper stmt =? "COMMIT")%string = false ->
  (ToUpper stmt =? "ROLLBACK")%string = false ->
  executeSQL env sqlStr s
  = (startTime <- time_Now env ;;
     if isQuery stmt then executeQuery env (60 * Second)%Z stmt startTime
     else executeCommand env (60 * Second)%Z stmt startTime) s.
Proof.
  intros stmt H0 H1 H2 H3 H4. unfold executeSQL, bind. fold stmt.
  destruct (time_Now env s) as [[startTime | msg] s']; [| reflexivity].
  rewrite H0, H1, H2, H3, H4. reflexivity.
Qed.

(** ** Switching the database *)

Lemma append_assoc (a b c : string) : (a ++ b) ++ c = a ++ b ++ c.
Proof. induction a as [| x a IH]; simpl; [reflexivity | rewrite IH; reflexivity]. Qed.

Lemma append_empty_r (a : string) : a ++ EmptyString = a.
Proof. induction a as [| x a IH]; simpl; [reflexivity | rewrite IH; reflexivity]. Qed.

(** connectToDatabase, case by case. *)
Lemma connectToDatabase_cases env dbName c h :
  let dsn := switchDSN (config c) dbName in
  let newDB := mkDB (List.length h) dsn in
  connectToDatabase env dbName (mkState c h)
  = match open_error env h dsn with
    | Some err =>
        (Done tt, mkState (set_term (term c ++ "ERROR: " ++ err ++ nl) c) (COpen dsn :: h))
    | None =>
        match ping_error env (COpen dsn :: h) newDB with
        | Some _ =>
            (Done tt,
             mkState (set_term (term c ++ "ERROR: database " ++ dq ++ dbName ++ dq
                                ++ " does not exist" ++ nl) c)
                     (CClose newDB :: CPing newDB :: COpen dsn :: h))
        | None =>
            (Done tt,
             mkState (set_term (term c ++ "You are now connected to database " ++ dq
                                ++ dbName ++ dq ++ " as user " ++ dq
                                ++ Username (config c) ++ dq ++ "." ++ nl)
                               (set_database dbName (set_db (Some newDB) c)))
                     (match db c with
                      | Some old => [CClose old]
                      | None => []
                      end ++ CPing newDB :: COpen dsn :: h)%list)
        end
    end.
Proof.
  intros dsn newDB. subst newDB.
  unfold connectToDatabase, bind, getCLI, sql_Open, db_Ping, db_Close, call,
    modifyCLI, Fprintf, modifyCLI, ret.
  cbn [cli history]. fold dsn.
  destruct (open_error env h dsn) as [err |]; [reflexivity |].
  cbn [cli history].
  destruct (ping_error env (COpen dsn :: h) (mkDB (List.length h) dsn)) as [e |];
    [reflexivity |].
  destruct c as [t cfg dbh rd si ex tm mr it dbn].
  destruct dbh as [old |]; reflexivity.
Qed.

(** The tests of the dispatcher are decided by the first characters of
    the command. *)
Ltac decide_test :=
  match goal with
  | |- (if ?b then _ else _) _ = _ =>
      let v := eval vm_compute in b in
      match v with
      | true => change b with true
      | false => change b with false
      end;
      cbv iota
  end.

(** A command that starts with [\c ] or [\connect ] reaches
    connectToDatabase with its second field. *)
Lemma handlePsqlCommand_connect env cmd s :
  HasPrefix (TrimSpace cmd) "\c " = true
  \/ HasPrefix (TrimSpace cmd) "\connect " = true ->
  handlePsqlCommand env cmd s
  = (match Fields (TrimSpace cmd) with
     | _ :: p1 :: _ => connectToDatabase env p1
     | _ => Fprintf ("ERROR: database name required" ++ nl)
     end ;;; ret true) s.
Proof.
  unfold handlePsqlCommand. cbv zeta. generalize (TrimSpace cmd) as t.
  intros t [H | H]; pose proof H as H0.
  - repeat (apply HasPrefix_cons in H; destruct H as [? [-> H]]).
    do 4 decide_test. rewrite H0. reflexivity.
  - repeat (apply HasPrefix_cons in H; destruct H as [? [-> H]]).
    do 4 decide_test. rewrite H0, Bool.orb_true_r. reflexivity.
Qed.

(** C5.  A command [\c NAME] or [\connect NAME], in ASCII text, whose
    new connection opens: if the ping of the new connection fails, the session is as
    before but for the error line written to the terminal (the active
    connection and the database name are the old ones, and the old
    connection is not closed); if the ping succeeds, the old connection
    is closed, the new one is the active one and the database name is
    the one asked for. *)
Theorem database_switch_follows_ping env cmd verb name more c h :
  isASCII cmd = true ->
  HasPrefix (TrimSpace cmd) "\c " = true
  \/ HasPrefix (TrimSpace cmd) "\connect " = true ->
  Fields (TrimSpace cmd) = verb :: name :: more ->
  open_error env h (switchDSN (config c) name) = None ->
  (forall old, db c = Some old -> db_id old < List.length h) ->
  let dsn := switchDSN (config c) name in
  let newDB := mkDB (List.length h) dsn in
  let s' := snd (handlePsqlCommand env cmd (mkState c h)) in
  fst (handlePsqlCommand env cmd (mkState c h)) = Done true
  /\ (ping_error env (COpen dsn :: h) newDB <> None ->
      cli s' = set_term (term c ++ "ERROR: database " ++ dq ++ name ++ dq
                         ++ " does not exist" ++ nl) c
      /\ db (cli s') = db c
      /\ database (cli s') = database c
      /\ history s' = CClose newDB :: CPing newDB :: COpen dsn :: h
      /\ (forall old, db c = Some old -> In (CClose old) (history s') ->
                      In (CClose old) h))
  /\ (ping_error env (COpen dsn :: h) newDB = None ->
      db (cli s') = Some newDB
      /\ database (cli s') = name
      /\ (forall old, db c = Some old ->
                      history s' = CClose old :: CPing newDB :: COpen dsn :: h)
      /\ cli s' = set_term (term c ++ "You are now connected to database " ++ dq
                            ++ name ++ dq ++ " as user " ++ dq
                            ++ Username (config c) ++ dq ++ "." ++ nl)
                           (set_database name (set_db (Some newDB) c))).
Proof.
  intros _ Hcmd Hfields Hopen Hfresh dsn newDB s'. subst s' newDB dsn.
  rewrite (handlePsqlCommand_connect env cmd _ Hcmd), Hfields.
  unfold bind. rewrite connectToDatabase_cases. cbv zeta. rewrite Hopen.
  destruct (ping_error env _ _) as [e |].
  - cbn [fst snd ret cli history]. split; [reflexivity |]. split.
    + intros _. repeat split.
      intros old Hold [Heq | [Heq | [Heq | Hin]]]; try discriminate; [| exact Hin].
      injection Heq as Heq. specialize (Hfresh old Hold). subst old. simpl in Hfresh. lia.
    + intros Hnone. discriminate Hnone.
  - cbn [fst snd ret cli history]. split; [reflexivity |]. split.
    + intros Hsome. contradiction Hsome. reflexivity.
    + intros _. repeat split.
      intros old Hold. rewrite Hold. reflexivity.
Qed.

Lemma database_switch_follows_ping_witness :
  (let s' := snd (handlePsqlCommand envDown "\c other" (sampleState [])) in
   db (cli s') = db (sampleCLI []) /\ database (cli s') = "testdb")
  /\ (let s' := snd (handlePsqlCommand envUp "\connect  other" (sampleState [])) in
      db (cli s')
      = Some (mkDB 1 "host=localhost port=5432 user=postgres password=password dbname=other sslmode=disable connect_timeout=10")
      /\ database (cli s') = "other").
Proof.
  assert (Hfresh : forall old, db (sampleCLI []) = Some old ->
                               db_id old < List.length (history (sampleState []))).
  { intros old H. injection H as <-. simpl. lia. }
  split.
  - destruct (database_switch_follows_ping envDown "\c other" "\c" "other" []
                (sampleCLI []) (history (sampleState []))
                eq_refl (or_introl eq_refl) eq_refl eq_refl Hfresh) as [_ [Hfail _]].
    assert (Hping : ping_error envDown
                      (COpen (switchDSN (config (sampleCLI [])) "other")
                         :: history (sampleState []))
                      (mkDB (List.length (history (sampleState [])))
                            (switchDSN (config (sampleCLI [])) "other")) <> None)
      by discriminate.
    destruct (Hfail Hping) as [_ [Hdb [Hname _]]].
    split; [exact Hdb | exact Hname].
  - destruct (database_switch_follows_ping envUp "\connect  other" "\connect" "other" []
                (sampleCLI []) (history (sampleState []))
                eq_refl (or_intror eq_refl) eq_refl eq_refl Hfresh) as [_ [_ Hok]].
    destruct (Hok eq_refl) as [Hdb [Hname _]].
    split; [exact Hdb | exact Hname].
Defined.

(** ** The DSN of a database switch *)

Lemma Contains_append_r s sub x : Contains s sub -> Contains (s ++ x) sub.
Proof.
  intros [pre [post ->]]. exists pre, (post ++ x).
  rewrite !append_assoc. reflexivity.
Qed.

(** The DSN of Connect carries the SSL mode and the connect timeout of
    the configuration. *)
Lemma connectDSN_honours_config cfg :
  Contains (connectDSN cfg)
           (" sslmode=" ++ SSLMode cfg ++ " connect_timeout="
            ++ itoa (secondsInt (ConnectTimeout cfg))).
Proof.
  unfold connectDSN.
  assert (Hbase : Contains
            ("host=" ++ Host cfg ++ " port=" ++ itoa (Port cfg) ++ " user=" ++ Username cfg
             ++ " password=" ++ Password cfg ++ " dbname=" ++ Database cfg
             ++ " sslmode=" ++ SSLMode cfg
             ++ " connect_timeout=" ++ itoa (secondsInt (ConnectTimeout cfg)))
            (" sslmode=" ++ SSLMode cfg ++ " connect_timeout="
             ++ itoa (secondsInt (ConnectTimeout cfg)))).
  { exists ("host=" ++ Host cfg ++ " port=" ++ itoa (Port cfg) ++ " user=" ++ Username cfg
            ++ " password=" ++ Password cfg ++ " dbname=" ++ Database cfg), EmptyString.
    rewrite !append_assoc, append_empty_r. reflexivity. }
  revert Hbase. generalize ("host=" ++ Host cfg ++ " port=" ++ itoa (Port cfg) ++ " user=" ++ Username cfg
             ++ " password=" ++ Password cfg ++ " dbname=" ++ Database cfg
             ++ " sslmode=" ++ SSLMode cfg
             ++ " connect_timeout=" ++ itoa (secondsInt (ConnectTimeout cfg))) as base.
  intros base Hbase. cbv zeta.
  destruct (ApplicationName cfg =? EmptyString)%string,
           (SearchPath cfg =? EmptyString)%string,
           (TimeZone cfg =? EmptyString)%string,
           (0 <? StatementTimeout cfg)%Z,
           (CustomParams cfg =? EmptyString)%string;
    repeat apply Contains_append_r; exact Hbase.
Qed.

(** C10.  connectToDatabase opens exactly one connection, with the DSN
    [host=.. port=.. user=.. password=.. dbname=NAME sslmode=disable
    connect_timeout=10]: it ends with the two fixed parameters and is the
    same whatever the SSL mode, the timeouts, the pool sizes, the
    application name, the search path, the time zone and the custom
    parameters of the configuration are.  Connect opens its connection
    with a DSN that carries the SSL mode of the configuration and its
    connect timeout in whole seconds (for a timeout that is not negative
    and shorter than 2^24 seconds, where the float64 arithmetic of
    [Seconds] is exact). *)
Theorem database_switch_dsn_has_fixed_parameters env dbName c h :
  openedDSNs (history (snd (connectToDatabase env dbName (mkState c h))))
  = switchDSN (config c) dbName :: openedDSNs h
  /\ switchDSN (config c) dbName
     = ("host=" ++ Host (config c) ++ " port=" ++ itoa (Port (config c))
        ++ " user=" ++ Username (config c) ++ " password=" ++ Password (config c)
        ++ " dbname=" ++ dbName) ++ " sslmode=disable connect_timeout=10"
  /\ (forall database' sslMode connectTimeout statementTimeout maxOpen maxIdle
             maxLifetime applicationName searchPath timeZone customParams,
        switchDSN (mkConfig (Host (config c)) (Port (config c)) (Username (config c))
                            (Password (config c)) database' sslMode connectTimeout
                            statementTimeout maxOpen maxIdle maxLifetime
                            applicationName searchPath timeZone customParams) dbName
        = switchDSN (config c) dbName)
  /\ openedDSNs (history (snd (Connect env (mkState c h))))
     = connectDSN (config c) :: openedDSNs h
  /\ ((0 <= ConnectTimeout (config c) < 16777216 * 1000000000)%Z ->
      Contains (connectDSN (config c))
               (" sslmode=" ++ SSLMode (config c) ++ " connect_timeout="
                ++ itoa (ConnectTimeout (config c) / 1000000000)%Z)).
Proof.
  split; [| split; [| split; [| split]]].
  - rewrite connectToDatabase_cases.
    destruct (open_error env h (switchDSN (config c) dbName)); [reflexivity |].
    destruct (ping_error env _ _); [reflexivity |].
    destruct (db c); reflexivity.
  - unfold switchDSN. rewrite !append_assoc. reflexivity.
  - intros. reflexivity.
  - unfold Connect, bind, getCLI, sql_Open, modifyCLI, ret, panic. cbn [cli history].
    destruct (open_error env h (connectDSN (config c))); [reflexivity |].
    unfold call, db_Ping, db_Close, call. cbn [cli history fst snd].
    destruct (ping_error env _ _); [reflexivity |].
    unfold fetchServerInfo, showWelcome, db_QueryRowString, db_QueryRowInt, theDB,
      bind, getCLI, call, modifyCLI, Fprintf, modifyCLI, ret.
    destruct c as [t cfg dbh rd si ex tm mr it dbn]. reflexivity.
  - intros [Hlo _].
    rewrite <- (Z.quot_div_nonneg _ 1000000000) by lia.
    apply connectDSN_honours_config.
Qed.

Lemma database_switch_dsn_has_fixed_parameters_witness :
  openedDSNs (history (snd (connectToDatabase envUp "other" (sampleState []))))
  = ["host=localhost port=5432 user=postgres password=password dbname=other sslmode=disable connect_timeout=10";
     "host=localhost port=5432 user=postgres password=password dbname=testdb sslmode=disable connect_timeout=10 application_name=psql"]
  /\ Contains (connectDSN (config (sampleCLI [])))
               " sslmode=disable connect_timeout=10".
Proof.
  destruct (database_switch_dsn_has_fixed_parameters envUp "other" (sampleCLI [])
              (history (sampleState []))) as [Hopened [_ [_ [_ Hconnect]]]].
  split; [exact Hopened |].
  apply Hconnect. cbn. lia.
Defined.

(** ** Table mode: widths and truncation *)

Lemma length_append (a b : string) :
  String.length (a ++ b) = String.length a + String.length b.
Proof. induction a as [| x a IH]; simpl; [reflexivity | rewrite IH; reflexivity]. Qed.

Lemma length_sliceTo n : forall s, String.length (sliceTo n s) = Nat.min n (String.length s).
Proof.
  unfold sliceTo. induction n as [| n IH]; intros s.
  - destruct s; reflexivity.
  - destruct s as [| x s]; simpl; [reflexivity | rewrite IH; reflexivity].
Qed.

Lemma sliceTo_append n : forall a b, n <= String.length a -> sliceTo n (a ++ b) = sliceTo n a.
Proof.
  unfold sliceTo. induction n as [| n IH]; intros a b Hn.
  - destruct a; destruct b; reflexivity.
  - destruct a as [| x a]; simpl in *; [lia |]. rewrite IH by lia. reflexivity.
Qed.

Lemma sliceTo_idem n s : sliceTo n (sliceTo n s) = sliceTo n s.
Proof.
  unfold sliceTo. revert s. induction n as [| n IH]; intros s.
  - destruct s; reflexivity.
  - destruct s as [| x s]; simpl; [reflexivity | rewrite IH; reflexivity].
Qed.

Lemma headerWidth_clamps col :
  headerWidth col = Nat.min 50 (Nat.max 4 (String.length col)).
Proof.
  unfold headerWidth. cbv zeta.
  destruct (String.length col <? 4) eqn:E4;
    [apply Nat.ltb_lt in E4 | apply Nat.ltb_ge in E4].
  - change (50 <? 4) with false. cbv iota. lia.
  - destruct (50 <? String.length col) eqn:E50;
      [apply Nat.ltb_lt in E50 | apply Nat.ltb_ge in E50]; lia.
Qed.

Lemma headerWidths_bounded cols : Forall (fun w => w <= 50) (map headerWidth cols).
Proof.
  induction cols as [| col cols IH]; simpl; constructor; [| exact IH].
  rewrite headerWidth_clamps. lia.
Qed.

Lemma fitCell_spec v w :
  w <= 50 ->
  fitCell v w
  = (renderCell v, Nat.min 50 (Nat.max w (String.length (formatValue v)))).
Proof.
  intros Hw. unfold fitCell, renderCell. cbv zeta.
  destruct (Nat.ltb_spec w (String.length (formatValue v)));
    destruct (Nat.ltb_spec 50 (String.length (formatValue v)));
    try (exfalso; lia); f_equal; lia.
Qed.

Lemma fitRow_spec :
  forall vals colWidths,
    List.length vals = List.length colWidths ->
    Forall (fun w => w <= 50) colWidths ->
    fitRow vals colWidths = (map renderCell vals, widen vals colWidths).
Proof.
  induction vals as [| v vals IH]; intros [| w ws] Hlen Hb; simpl in Hlen; try discriminate.
  - reflexivity.
  - inversion Hb as [| ? ? Hw Hws]; subst.
    cbn [fitRow]. rewrite (fitCell_spec v w Hw), (IH ws) by (auto; lia). reflexivity.
Qed.

Lemma widen_length vals ws :
  List.length vals = List.length ws -> List.length (widen vals ws) = List.length ws.
Proof.
  intros H. unfold widen. rewrite length_map, length_combine. lia.
Qed.

Lemma widen_bounded vals ws : Forall (fun w => w <= 50) (widen vals ws).
Proof.
  unfold widen. apply Forall_forall. intros x Hx. apply in_map_iff in Hx.
  destruct Hx as [[v w] [<- _]]. lia.
Qed.

Lemma widen_nth :
  forall vals ws i,
    List.length vals = List.length ws ->
    i < List.length ws ->
    nth i (widen vals ws) 0
    = Nat.min 50 (Nat.max (nth i ws 0) (String.length (formatValue (nth i vals VNil)))).
Proof.
  induction vals as [| v vals IH]; intros [| w ws] i Hlen Hi; simpl in *; try discriminate; try lia.
  destruct i as [| i]; [reflexivity |].
  apply IH; lia.
Qed.

Lemma Scan_length ncols r : List.length (Scan ncols r) = ncols.
Proof. unfold Scan. rewrite length_map, length_seq. reflexivity. Qed.

Lemma Scan_nth ncols r i : i < ncols -> nth i (Scan ncols r) VNil = nth i r VNil.
Proof.
  intros Hi. unfold Scan.
  rewrite (nth_indep _ VNil (nth 0 r VNil)) by (rewrite length_map, length_seq; exact Hi).
  rewrite (map_nth (fun j => nth j r VNil) (seq 0 ncols) 0 i).
  rewrite seq_nth by exact Hi. reflexivity.
Qed.

Lemma widenAll_length ncols :
  forall rows ws, List.length ws = ncols -> List.length (widenAll ncols rows ws) = ncols.
Proof.
  induction rows as [| r rows IH]; intros ws Hlen; simpl; [exact Hlen |].
  apply IH. rewrite widen_length; rewrite ?Scan_length; auto.
Qed.

Lemma widenAll_bounded ncols :
  forall rows ws, Forall (fun w => w <= 50) ws ->
                  Forall (fun w => w <= 50) (widenAll ncols rows ws).
Proof.
  induction rows as [| r rows IH]; intros ws Hb; simpl; [exact Hb |].
  apply IH. apply widen_bounded.
Qed.

Lemma widenAll_nth ncols i :
  i < ncols ->
  forall rows ws,
    List.length ws = ncols ->
    nth i ws 0 <= 50 ->
    nth i (widenAll ncols rows ws) 0
    = Nat.min 50 (Nat.max (nth i ws 0)
        (list_max (map (fun r => String.length (formatValue (nth i r VNil))) rows))).
Proof.
  intros Hi. induction rows as [| r rows IH]; intros ws Hlen Hb.
  - cbn [widenAll fold_left map list_max fold_right]. lia.
  - unfold widenAll. cbn [fold_left]. fold (widenAll ncols rows (widen (Scan ncols r) ws)).
    assert (Hn : nth i (widen (Scan ncols r) ws) 0
                 = Nat.min 50 (Nat.max (nth i ws 0)
                                 (String.length (formatValue (nth i r VNil))))).
    { rewrite widen_nth by (rewrite ?Scan_length; lia). rewrite Scan_nth by exact Hi.
      reflexivity. }
    rewrite IH; [| rewrite widen_length; rewrite ?Scan_length; auto | rewrite Hn; lia].
    rewrite Hn. cbn [map list_max fold_right].
    fold (list_max (map (fun r0 => String.length (formatValue (nth i r0 VNil))) rows)).
    lia.
Qed.

(** The row loop of displayTable in closed form. *)
Lemma collectRows_spec cap ncols :
  forall pending colWidths allRows,
    List.length colWidths = ncols ->
    Forall (fun w => w <= 50) colWidths ->
    let k := fetchCount cap (List.length allRows) pending in
    collectRows cap ncols pending colWidths allRows
    = (widenAll ncols (firstn k pending) colWidths,
       (allRows ++ map (fun r => map renderCell (Scan ncols r)) (firstn k pending))%list,
       skipn k pending).
Proof.
  induction pending as [| r rest IH]; intros ws acc Hlen Hb k; subst k.
  - unfold fetchCount. cbn. rewrite app_nil_r. reflexivity.
  - cbn [collectRows].
    rewrite fitRow_spec by (rewrite ?Scan_length; auto).
    rewrite length_app. cbn [List.length].
    destruct (cap <=? Z.of_nat (List.length acc + 1))%Z eqn:E.
    + apply Z.leb_le in E.
      assert (Hk : fetchCount cap (List.length acc) (r :: rest) = 1).
      { unfold fetchCount. cbn [List.length]. lia. }
      rewrite Hk. reflexivity.
    + apply Z.leb_gt in E.
      assert (Hk : fetchCount cap (List.length acc) (r :: rest)
                   = S (fetchCount cap (List.length acc + 1) rest)).
      { unfold fetchCount. cbn [List.length]. lia. }
      rewrite Hk.
      specialize (IH (widen (Scan ncols r) ws)
                     (acc ++ [map renderCell (Scan ncols r)])%list).
      rewrite length_app in IH. cbn [List.length] in IH.
      rewrite IH; [| rewrite widen_length; rewrite ?Scan_length; auto | apply widen_bounded].
      cbn [firstn skipn map widenAll fold_left]. rewrite <- app_assoc. reflexivity.
Qed.

Lemma list_max_ge x l : In x l -> x <= list_max l.
Proof.
  intros Hin.
  assert (H : Forall (fun k => k <= list_max l) l) by (apply list_max_le; lia).
  rewrite Forall_forall in H. apply H. exact Hin.
Qed.

Lemma renderCell_long v :
  50 < String.length (formatValue v) ->
  renderCell v = sliceTo 47 (formatValue v) ++ "..."
  /\ String.length (renderCell v) = 50.
Proof.
  intros H. unfold renderCell. cbv zeta.
  destruct (Nat.ltb_spec 50 (String.length (formatValue v))); [| lia].
  split; [reflexivity |].
  rewrite length_append, length_sliceTo.
  change (String.length "...") with 3. lia.
Qed.

Lemma renderCell_short v :
  String.length (formatValue v) <= 50 -> renderCell v = formatValue v.
Proof.
  intros H. unfold renderCell. cbv zeta.
  destruct (Nat.ltb_spec 50 (String.length (formatValue v))); [lia | reflexivity].
Qed.

(** The row loop of displayTable: the width of a column starts at the
    length of its header, not below 4 and not above 50; after the rows
    that are kept it is the length of the longest formatted value of the
    column when that is larger, and 50 at most.  A formatted value of
    more than 50 characters is kept as its first 47 characters and three
    dots (50 characters), and its column is then 50 wide; any other value
    is kept as it is. *)
Lemma collectRows_widths_and_truncation cap cols pending :
  let ncols := List.length cols in
  let shown := firstn (fetchCount cap 0 pending) pending in
  let result := collectRows cap ncols pending (map headerWidth cols) [] in
  let colWidths := fst (fst result) in
  let allRows := snd (fst result) in
  (forall col, headerWidth col = Nat.min 50 (Nat.max 4 (String.length col)))
  /\ allRows = map (fun r => map renderCell (Scan ncols r)) shown
  /\ List.length colWidths = ncols
  /\ (forall i, i < ncols ->
        nth i colWidths 0
        = Nat.min 50 (Nat.max (headerWidth (nth i cols EmptyString))
            (list_max (map (fun r => String.length (formatValue (nth i r VNil))) shown))))
  /\ (forall v, 50 < String.length (formatValue v) ->
        renderCell v = sliceTo 47 (formatValue v) ++ "..."
        /\ String.length (renderCell v) = 50)
  /\ (forall v, String.length (formatValue v) <= 50 -> renderCell v = formatValue v)
  /\ (forall i r, i < ncols -> In r shown ->
        50 < String.length (formatValue (nth i r VNil)) ->
        nth i colWidths 0 = 50).
Proof.
  intros ncols shown result colWidths allRows.
  assert (Hres : result
                 = (widenAll ncols shown (map headerWidth cols),
                    map (fun r => map renderCell (Scan ncols r)) shown,
                    skipn (fetchCount cap 0 pending) pending)).
  { subst result shown.
    rewrite (collectRows_spec cap ncols pending (map headerWidth cols) [])
      by (try apply headerWidths_bounded; subst ncols; apply length_map).
    reflexivity. }
  subst colWidths allRows. rewrite Hres. cbn [fst snd].
  assert (Hnth : forall i, i < ncols ->
            nth i (widenAll ncols shown (map headerWidth cols)) 0
            = Nat.min 50 (Nat.max (headerWidth (nth i cols EmptyString))
                (list_max (map (fun r => String.length (formatValue (nth i r VNil))) shown)))).
  { intros i Hi.
    assert (Hh : nth i (map headerWidth cols) 0 = headerWidth (nth i cols EmptyString)).
    { rewrite (nth_indep _ 0 (headerWidth EmptyString)) by (rewrite length_map; exact Hi).
      apply map_nth. }
    rewrite (widenAll_nth ncols i Hi shown (map headerWidth cols));
      [rewrite Hh; reflexivity | subst ncols; apply length_map |].
    rewrite Hh, headerWidth_clamps. lia. }
  split; [exact headerWidth_clamps |].
  split; [reflexivity |].
  split; [apply widenAll_length; subst ncols; apply length_map |].
  split; [exact Hnth |].
  split; [exact renderCell_long |].
  split; [exact renderCell_short |].
  intros i r Hi Hin Hlong. rewrite (Hnth i Hi).
  assert (Hge : String.length (formatValue (nth i r VNil))
                <= list_max (map (fun r => String.length (formatValue (nth i r VNil))) shown)).
  { apply list_max_ge. apply in_map_iff. exists r. split; [reflexivity | exact Hin]. }
  lia.
Qed.

(** The rendering the specification gives as an example: a value of 60
    characters. *)
Example truncation_of_sixty_characters :
  let v := VString "012345678901234567890123456789012345678901234567890123456789" in
  collectRows 1000 1 [[v]] (map headerWidth ["c"]) []
  = ([50], [["01234567890123456789012345678901234567890123456..."]], []).
Proof. vm_compute. reflexivity. Qed.

(** ** The row cap *)

Lemma fetchCount_le_length cap already pending :
  fetchCount cap already pending <= List.length pending.
Proof. unfold fetchCount. lia. Qed.

Lemma fetchCount_firstn cap already pending :
  fetchCount cap already (firstn (fetchCount cap already pending) pending)
  = fetchCount cap already pending.
Proof. unfold fetchCount. rewrite length_firstn. lia. Qed.

Lemma fetchCount_under_cap cap pending :
  (0 < cap)%Z ->
  fetchCount cap 0 pending = Nat.min (List.length pending) (Z.to_nat cap).
Proof. intros H. unfold fetchCount. lia. Qed.

(** The row loop of displayExpanded: it fetches [j] rows, no more than
    [fetchCount] and just as many unless [strings.Repeat] panics, and
    does the same on the stream cut after [fetchCount] rows. *)
Lemma expandedLoop_spec cap cols :
  forall pending rowNum,
    let k := fetchCount cap rowNum pending in
    exists text j p,
      j <= k
      /\ (p = false -> j = k)
      /\ expandedLoop cap cols pending rowNum
         = (text, rowNum + j, skipn j pending, p)
      /\ expandedLoop cap cols (firstn k pending) rowNum
         = (text, rowNum + j, skipn j (firstn k pending), p).
Proof.
  induction pending as [| r rest IH]; intros rowNum k; subst k.
  - exists EmptyString, 0, false. unfold fetchCount. cbn. rewrite Nat.add_0_r.
    repeat split; lia.
  - assert (Hk1 : exists k0, fetchCount cap rowNum (r :: rest) = S k0).
    { unfold fetchCount. cbn [List.length].
      exists (Nat.min (List.length rest) (Nat.max 1 (Z.to_nat cap - rowNum) - 1)). lia. }
    destruct Hk1 as [k0 Hk0]. rewrite Hk0.
    cbn [expandedLoop firstn].
    destruct (50 <? String.length ("-[ RECORD " ++ itoa (Z.of_nat (S rowNum)) ++ " ]")).
    + exists ("-[ RECORD " ++ itoa (Z.of_nat (S rowNum)) ++ " ]"), 1, true.
      rewrite Nat.add_1_r. cbn [skipn]. repeat split; try lia; try discriminate.
    + destruct (cap <=? Z.of_nat (S rowNum))%Z eqn:E.
      * apply Z.leb_le in E.
        assert (k0 = 0) by (unfold fetchCount in Hk0; cbn [List.length] in Hk0; lia).
        subst k0. eexists _, 1, false.
        rewrite Nat.add_1_r. cbn [skipn firstn]. repeat split; lia.
      * apply Z.leb_gt in E.
        assert (Hk : k0 = fetchCount cap (S rowNum) rest)
          by (unfold fetchCount in *; cbn [List.length] in Hk0; lia).
        subst k0.
        destruct (IH (S rowNum)) as [text [j [p [Hj [Hp [H1 H2]]]]]].
        rewrite H1, H2. eexists _, (S j), p.
        rewrite <- plus_n_Sm. cbn [skipn Nat.add].
        repeat split; try lia. intros Hf. rewrite (Hp Hf). reflexivity.
Qed.

(** C8.  With a row cap above zero (the sessions that NewCLIWithConfig
    makes have 1000), in table mode and in expanded mode: no more rows
    are fetched from the result stream and displayed than the cap, the
    rest of the stream is left unfetched, and the terminal receives the
    same text as for the stream that holds the displayed rows only. *)
Theorem display_stops_at_row_cap env rows cols colTypes startTime c h :
  (0 < maxRows c)%Z ->
  let pending := rows_pending rows in
  let n := Nat.min (List.length pending) (Z.to_nat (maxRows c)) in
  let shownOnly := mkRows (rows_cols rows) (rows_types rows) (firstn n pending) in
  let s := mkState c h in
  (Z.of_nat n <= maxRows c)%Z
  /\ (let result := collectRows (maxRows c) (List.length cols) pending
                                (map headerWidth cols) [] in
      List.length (snd (fst result)) = n /\ snd result = skipn n pending)
  /\ fst (displayTable env rows cols colTypes startTime s) = Done (skipn n pending)
  /\ snd (displayTable env rows cols colTypes startTime s)
     = snd (displayTable env shownOnly cols colTypes startTime s)
  /\ (exists j p,
        j <= n /\ (p = false -> j = n)
        /\ fst (displayExpanded env rows cols startTime s) = Done (skipn j pending, p))
  /\ snd (displayExpanded env rows cols startTime s)
     = snd (displayExpanded env shownOnly cols startTime s).
Proof.
  intros Hcap pending n shownOnly s.
  assert (Hn : fetchCount (maxRows c) 0 pending = n)
    by (subst n; apply fetchCount_under_cap; exact Hcap).
  assert (Hw : List.length (map headerWidth cols) = List.length cols) by apply length_map.
  pose proof (headerWidths_bounded cols) as Hb.
  pose proof (collectRows_spec (maxRows c) (List.length cols) pending
                (map headerWidth cols) [] Hw Hb) as Hfull.
  pose proof (collectRows_spec (maxRows c) (List.length cols) (firstn n pending)
                (map headerWidth cols) [] Hw Hb) as Hcut.
  cbv zeta in Hfull, Hcut. cbn [List.length] in Hfull, Hcut.
  rewrite <- Hn in Hcut at 2 3 4. rewrite fetchCount_firstn in Hcut.
  rewrite Hn in Hfull, Hcut. rewrite firstn_firstn, Nat.min_id in Hcut.
  split; [subst n; lia |].
  split.
  { cbv zeta. rewrite Hfull. cbn [fst snd app]. split; [| reflexivity].
    rewrite length_map, length_firstn. subst n. lia. }
  split.
  { subst s. unfold displayTable, bind, getCLI. cbn [cli]. fold pending.
    rewrite Hfull. destruct (timingEnabled c); reflexivity. }
  split.
  { subst s shownOnly. unfold displayTable, bind, getCLI. cbn [cli rows_pending]. fold pending.
    rewrite Hfull, Hcut. destruct (timingEnabled c); reflexivity. }
  destruct (expandedLoop_spec (maxRows c) cols pending 0)
    as [text [j [p [Hj [Hp [H1 H2]]]]]].
  rewrite Hn in Hj, Hp, H2. cbn [Nat.add] in H1, H2.
  split.
  { exists j, p. split; [exact Hj |]. split; [exact Hp |].
    subst s. unfold displayExpanded, bind, getCLI. cbn [cli]. fold pending.
    rewrite H1. destruct p; [reflexivity |].
    destruct (j =? 0); destruct (timingEnabled c); reflexivity. }
  subst s shownOnly. unfold displayExpanded, bind, getCLI. cbn [cli rows_pending]. fold pending.
  rewrite H1, H2. destruct p; [reflexivity |].
  destruct (j =? 0); destruct (timingEnabled c); reflexivity.
Qed.

Lemma display_stops_at_row_cap_witness :
  let c := set_timingEnabled true (sampleCLI []) in
  let rows := mkRows ["id"; "name"] ["int4"; "text"]
                     (sampleRows ++ sampleRows ++ sampleRows) in
  let c2 := mkCLI (term c) (config c) (db c) (reader c) (serverInfo c)
                  (expandedMode c) (timingEnabled c) 2%Z (inTransaction c) (database c) in
  fst (displayTable envUp rows ["id"; "name"] ["int4"; "text"] 0%Z (mkState c2 []))
  = Done (skipn 2 (sampleRows ++ sampleRows ++ sampleRows))
  /\ fst (displayTable envUp rows ["id"; "name"] ["int4"; "text"] 0%Z (mkState c []))
     = Done [].
Proof.
  split.
  - exact (proj1 (proj2 (proj2
      (display_stops_at_row_cap envUp
         (mkRows ["id"; "name"] ["int4"; "text"] (sampleRows ++ sampleRows ++ sampleRows))
         ["id"; "name"] ["int4"; "text"] 0%Z
         (mkCLI EmptyString (config (sampleCLI [])) (db (sampleCLI []))
                (reader (sampleCLI [])) (serverInfo (sampleCLI [])) false true 2%Z
                false "testdb")
         [] eq_refl)))).
  - exact (proj1 (proj2 (proj2
      (display_stops_at_row_cap envUp
         (mkRows ["id"; "name"] ["int4"; "text"] (sampleRows ++ sampleRows ++ sampleRows))
         ["id"; "name"] ["int4"; "text"] 0%Z
         (set_timingEnabled true (sampleCLI [])) [] eq_refl)))).
Defined.

(** ** The row cap is the same in every state of a session *)

Lemma keeps_ret {A} (a : A) : keepsMaxRows (ret a).
Proof. intros s. reflexivity. Qed.

Lemma keeps_panic {A} msg : keepsMaxRows (@panic A msg).
Proof. intros s. reflexivity. Qed.

Lemma keeps_getCLI : keepsMaxRows getCLI.
Proof. intros s. reflexivity. Qed.

Lemma keeps_call {A} ev (answer : list Call -> A) : keepsMaxRows (call ev answer).
Proof. intros s. reflexivity. Qed.

Lemma keeps_bind {A B} (m : M A) (k : A -> M B) :
  keepsMaxRows m -> (forall a, keepsMaxRows (k a)) -> keepsMaxRows (bind m k).
Proof.
  intros Hm Hk s. unfold bind. specialize (Hm s).
  destruct (m s) as [[a | msg] s1]; cbn [snd] in *.
  - rewrite (Hk a s1). exact Hm.
  - exact Hm.
Qed.

Lemma keeps_modifyCLI f :
  (forall c, maxRows (f c) = maxRows c) -> keepsMaxRows (modifyCLI f).
Proof. intros Hf s. apply Hf. Qed.

Lemma keeps_Fprintf text : keepsMaxRows (Fprintf text).
Proof. apply keeps_modifyCLI. reflexivity. Qed.

Lemma keeps_when b m : keepsMaxRows m -> keepsMaxRows (when b m).
Proof. intros Hm. destruct b; [exact Hm | apply keeps_ret]. Qed.

Lemma keeps_sql_Open env dsn : keepsMaxRows (sql_Open env dsn).
Proof. intros s. unfold sql_Open. destruct (open_error env (history s) dsn); reflexivity. Qed.

Create HintDb keeps.
#[local] Hint Resolve keeps_ret keeps_panic keeps_getCLI keeps_call keeps_Fprintf
  keeps_when keeps_sql_Open : keeps.

(** Take an action apart along its binds and its case distinctions. *)
Ltac keeps_step :=
  match goal with
  | |- keepsMaxRows (bind _ _) => apply keeps_bind; [| intro]
  | |- keepsMaxRows (modifyCLI _) => apply keeps_modifyCLI; intro; reflexivity
  | |- keepsMaxRows (match ?x with _ => _ end) => destruct x
  | |- keepsMaxRows _ => solve [auto with keeps]
  end.

Ltac keeps := repeat keeps_step.

Lemma keeps_theDB : keepsMaxRows theDB.
Proof. unfold theDB. keeps. Qed.
#[local] Hint Resolve keeps_theDB : keeps.

Lemma keeps_printTiming env t : keepsMaxRows (printTiming env t).
Proof. unfold printTiming, time_Now. keeps. Qed.
#[local] Hint Resolve keeps_printTiming : keeps.

Lemma keeps_db_ExecContext env timeout sql : keepsMaxRows (db_ExecContext env timeout sql).
Proof. unfold db_ExecContext. keeps. Qed.
#[local] Hint Resolve keeps_db_ExecContext : keeps.

Lemma keeps_displayTable env rows cols colTypes t :
  keepsMaxRows (displayTable env rows cols colTypes t).
Proof. unfold displayTable. keeps. Qed.

Lemma keeps_displayExpanded env rows cols t :
  keepsMaxRows (displayExpanded env rows cols t).
Proof. unfold displayExpanded. keeps. Qed.
#[local] Hint Resolve keeps_displayTable keeps_displayExpanded : keeps.

Lemma keeps_executeSQL env sqlStr : keepsMaxRows (executeSQL env sqlStr).
Proof.
  unfold executeSQL, transactionControl, executeQuery, executeCommand, printError,
    time_Now.
  cbv zeta. keeps.
Qed.
#[local] Hint Resolve keeps_executeSQL : keeps.

Lemma keeps_connectToDatabase env dbName : keepsMaxRows (connectToDatabase env dbName).
Proof. unfold connectToDatabase, db_Ping, db_Close. keeps. Qed.

Lemma keeps_describeTable env tableName : keepsMaxRows (describeTable env tableName).
Proof. unfold describeTable. cbv zeta. keeps. Qed.
#[local] Hint Resolve keeps_connectToDatabase keeps_describeTable : keeps.

Lemma keeps_handlePsqlCommand env cmd : keepsMaxRows (handlePsqlCommand env cmd).
Proof.
  unfold handlePsqlCommand, showSQLHelp, showConnectionInfo. cbv zeta. keeps.
Qed.

Lemma keeps_readMultiLine : keepsMaxRows readMultiLine.
Proof. unfold readMultiLine. keeps. Qed.
#[local] Hint Resolve keeps_handlePsqlCommand keeps_readMultiLine : keeps.

Lemma keeps_StartBody env : keepsMaxRows (StartBody env).
Proof. unfold StartBody, getPrompt, Reader_SetPrompt. cbv zeta. keeps. Qed.

Lemma keeps_Connect env : keepsMaxRows (Connect env).
Proof.
  unfold Connect, fetchServerInfo, showWelcome, db_QueryRowString, db_QueryRowInt,
    db_Ping, db_Close.
  cbv zeta. keeps.
Qed.

(** A session made by NewCLIWithConfig has the cap 1000, and has it
    still when Start returns. *)
Lemma NewCLIWithConfig_maxRows termInput cfg :
  maxRows (NewCLIWithConfig termInput cfg) = 1000%Z.
Proof. reflexivity. Qed.

Lemma Start_keeps_maxRows env fuel :
  forall s out s', Start env fuel s = Some (out, s') -> maxRows (cli s') = maxRows (cli s).
Proof.
  induction fuel as [| fuel IH]; intros s out s' H; simpl in H; [discriminate |].
  pose proof (keeps_StartBody env s) as Hb.
  destruct (StartBody env s) as [[[| err] | msg] s1]; cbn [snd] in Hb.
  - rewrite <- Hb. exact (IH _ _ _ H).
  - injection H as _ <-. exact Hb.
  - injection H as _ <-. exact Hb.
Qed.

(** With a cap of zero the loops would still fetch and show one row:
    they test the cap after they have taken a row. *)
Lemma fetchCount_without_cap r pending : fetchCount 0 0 (r :: pending) = 1.
Proof. unfold fetchCount. cbn [List.length]. lia. Qed.

(** ** The grid of the specification's example *)

Example displayTable_two_rows :
  term (cli (snd (displayTable envUp
                    (mkRows ["id"; "name"] ["int4"; "text"]
                            [[VInt 1; VString "ab"]; [VInt 2; VNil]])
                    ["id"; "name"] ["int4"; "text"] 0%Z
                    (mkState (sampleCLI []) []))))
  = " id   | name " ++ nl
    ++ "-----+------" ++ nl
    ++ " 1    | ab   " ++ nl
    ++ " 2    |      " ++ nl
    ++ "(2 rows)" ++ nl
    ++ nl.
Proof. vm_compute. reflexivity. Qed.

(** * Further properties of the engine *)

(** ** Trimming and fields *)

Lemma TrimRightSpace_cons c s :
  TrimRightSpace (String c s)
  = match TrimRightSpace s with
    | EmptyString => if isSpace c then EmptyString else String c EmptyString
    | String d y => String c (String d y)
    end.
Proof. reflexivity. Qed.

Lemma TrimRightSpace_idempotent s : TrimRightSpace (TrimRightSpace s) = TrimRightSpace s.
Proof.
  induction s as [| c s IH]; [reflexivity |].
  rewrite TrimRightSpace_cons. destruct (TrimRightSpace s) as [| d y] eqn:E.
  - destruct (isSpace c) eqn:Ec; [reflexivity |].
    rewrite TrimRightSpace_cons. cbn [TrimRightSpace]. rewrite Ec. reflexivity.
  - rewrite TrimRightSpace_cons, IH. reflexivity.
Qed.

Lemma TrimRightSpace_head c s :
  isSpace c = false -> exists r, TrimRightSpace (String c s) = String c r.
Proof.
  intros Hc. cbn [TrimRightSpace]. destruct (TrimRightSpace s) as [| d y].
  - rewrite Hc. exists EmptyString. reflexivity.
  - exists (String d y). reflexivity.
Qed.

Lemma TrimLeftSpace_head s :
  TrimLeftSpace s = EmptyString
  \/ exists c r, TrimLeftSpace s = String c r /\ isSpace c = false.
Proof.
  induction s as [| c s IH]; [left; reflexivity |].
  cbn [TrimLeftSpace]. destruct (isSpace c) eqn:Ec; [exact IH |].
  right. exists c, s. split; [reflexivity | exact Ec].
Qed.

(** What TrimSpace returns is empty or starts with a character that is
    not white space. *)
Lemma TrimSpace_head s :
  TrimSpace s = EmptyString
  \/ exists c r, TrimSpace s = String c r /\ isSpace c = false.
Proof.
  unfold TrimSpace. destruct (TrimLeftSpace_head s) as [-> | [c [r [-> Hc]]]].
  - left. reflexivity.
  - right. destruct (TrimRightSpace_head c r Hc) as [r' ->].
    exists c, r'. split; [reflexivity | exact Hc].
Qed.

Lemma TrimSpace_idempotent s : TrimSpace (TrimSpace s) = TrimSpace s.
Proof.
  destruct (TrimSpace_head s) as [E | [c [r [E Hc]]]].
  - rewrite E. reflexivity.
  - unfold TrimSpace at 1. rewrite E. cbn [TrimLeftSpace]. rewrite Hc.
    rewrite <- E. unfold TrimSpace. apply TrimRightSpace_idempotent.
Qed.

(** What TrimRightSpace returns has no white space at its end. *)
Lemma TrimRightSpace_no_trailing_space :
  forall s p r, TrimRightSpace s = p ++ r -> allSpace r = true -> r = EmptyString.
Proof.
  induction s as [| c s IH]; intros p r H Hr.
  - cbn in H. destruct p; cbn in H; [symmetry; exact H | discriminate].
  - cbn [TrimRightSpace] in H. destruct (TrimRightSpace s) as [| d y] eqn:E.
    + destruct (isSpace c) eqn:Ec.
      * destruct p; cbn in H; [symmetry; exact H | discriminate].
      * destruct p as [| a p]; cbn in H.
        -- subst r. cbn in Hr. rewrite Ec in Hr. discriminate.
        -- injection H as _ H. destruct p; cbn in H; [symmetry; exact H | discriminate].
    + destruct p as [| a p]; cbn in H.
      * subst r. cbn [allSpace] in Hr. apply andb_prop in Hr. destruct Hr as [_ Hr].
        specialize (IH EmptyString (String d y) eq_refl Hr). discriminate.
      * injection H as _ H. exact (IH p r H Hr).
Qed.

Lemma fieldsFrom_in_field cur s : cur <> EmptyString -> fieldsFrom cur s <> [].
Proof.
  revert cur. induction s as [| c s IH]; intros cur Hcur.
  - cbn. destruct cur; [contradiction | discriminate].
  - cbn [fieldsFrom]. destruct (isSpace c).
    + destruct cur; [contradiction | discriminate].
    + apply IH. discriminate.
Qed.

Lemma fieldsFrom_none s : fieldsFrom EmptyString s = [] -> allSpace s = true.
Proof.
  induction s as [| c s IH]; [reflexivity |].
  cbn [fieldsFrom allSpace]. destruct (isSpace c); cbn [andb].
  - exact IH.
  - intros H. exfalso. revert H. apply fieldsFrom_in_field. discriminate.
Qed.

(** ** The dispatcher: what it recognizes *)

Lemma neverFalse_ret_true : neverFalse (ret true).
Proof. intros s s' H. discriminate H. Qed.

Lemma neverFalse_bind {A} (m : M A) (k : A -> M bool) :
  (forall a, neverFalse (k a)) -> neverFalse (bind m k).
Proof.
  intros Hk s s' H. unfold bind in H.
  destruct (m s) as [[a | msg] s1]; [exact (Hk a s1 s' H) | discriminate H].
Qed.

(** X2.  When handlePsqlCommand answers that the text is no meta-command
    it has written nothing, called nothing and changed nothing. *)
Theorem handlePsqlCommand_false_changes_nothing env cmd s s' :
  handlePsqlCommand env cmd s = (Done false, s') -> s' = s.
Proof.
  unfold handlePsqlCommand. cbv zeta. generalize (TrimSpace cmd) as t. intros t H.
  repeat match type of H with
         | (if ?b then _ else _) _ = _ =>
             destruct b;
             [ exfalso; revert H;
               repeat (apply neverFalse_bind; intro); apply neverFalse_ret_true
             | ]
         end.
  injection H as <-. reflexivity.
Qed.

Lemma handlePsqlCommand_false_changes_nothing_witness :
  snd (handlePsqlCommand envUp "select 1;" (sampleState [])) = sampleState [].
Proof.
  apply (handlePsqlCommand_false_changes_nothing envUp "select 1;" (sampleState [])).
  reflexivity.
Defined.

Lemma prefix_cons a p b s :
  String.prefix (String a p) (String b s)
  = if ascii_dec a b then String.prefix p s else false.
Proof. reflexivity. Qed.

Lemma prefix_empty s : String.prefix EmptyString s = true.
Proof. destruct s; reflexivity. Qed.

Lemma HasPrefix_escape_head a r : HasPrefix (String a r) "\" = false -> a <> "\"%char.
Proof.
  unfold HasPrefix. rewrite prefix_cons, prefix_empty.
  destruct (ascii_dec "\" a) as [<- | Hne]; [discriminate | intros _ E; apply Hne; symmetry; exact E].
Qed.

Lemma eqb_escape_false t x :
  HasPrefix t "\" = false -> (t =? String "\" x)%string = false.
Proof.
  destruct t as [| a r]; [reflexivity |].
  intros H. apply HasPrefix_escape_head in H.
  apply String.eqb_neq. intros E. injection E as E _. contradiction.
Qed.

Lemma HasPrefix_escape_false t p :
  HasPrefix t "\" = false -> HasPrefix t (String "\" p) = false.
Proof.
  destruct t as [| a r]; [reflexivity |].
  intros H. apply HasPrefix_escape_head in H.
  unfold HasPrefix. rewrite prefix_cons.
  destruct (ascii_dec "\" a) as [E | _]; [symmetry in E; contradiction | reflexivity].
Qed.

(** X1.  An ASCII text that, trimmed, does not start with the escape
    prefix and is none of exit, quit and help (in any letter case) is no
    meta-command: handlePsqlCommand answers false and leaves the session
    as it is, so that Start hands the text to executeSQL. *)
Theorem handlePsqlCommand_passes_sql_through env cmd s :
  isASCII cmd = true ->
  HasPrefix (TrimSpace cmd) "\" = false ->
  isShortcut (ToLower (TrimSpace cmd)) = false ->
  handlePsqlCommand env cmd s = (Done false, s).
Proof.
  intros _. unfold handlePsqlCommand, isShortcut. cbv zeta.
  generalize (TrimSpace cmd) as t. intros t Hesc Hshort.
  apply Bool.orb_false_iff in Hshort. destruct Hshort as [Hshort Hhelp].
  apply Bool.orb_false_iff in Hshort. destruct Hshort as [Hexit Hquit].
  rewrite !(eqb_escape_false t _ Hesc), !(HasPrefix_escape_false t _ Hesc).
  rewrite Hexit, Hquit, Hhelp. reflexivity.
Qed.

Lemma handlePsqlCommand_passes_sql_through_witness :
  handlePsqlCommand envUp "  Select * from help; " (sampleState [])
  = (Done false, sampleState []).
Proof.
  exact (handlePsqlCommand_passes_sql_through envUp "  Select * from help; "
           (sampleState []) eq_refl eq_refl eq_refl).
Defined.

(** ** The dispatcher: commands that need no backend *)

Lemma set_term_same c : set_term (term c ++ EmptyString) c = c.
Proof. destruct c. unfold set_term. cbn. rewrite append_empty_r. reflexivity. Qed.

Lemma set_term_twice c t1 t2 :
  set_term (term (set_term (term c ++ t1) c) ++ t2) (set_term (term c ++ t1) c)
  = set_term (term c ++ t1 ++ t2) c.
Proof. destruct c. unfold set_term. cbn. rewrite append_assoc. reflexivity. Qed.

Lemma Fprintf_after {B} c h t1 text (k : unit -> M B) :
  bind (Fprintf text) k (mkState (set_term (term c ++ t1) c) h)
  = k tt (mkState (set_term (term c ++ t1 ++ text) c) h).
Proof.
  unfold bind, Fprintf, modifyCLI. cbn [cli history]. rewrite set_term_twice. reflexivity.
Qed.

Lemma onlyWrites_ret {A} (a : A) : onlyWrites (ret a).
Proof. intros c h. exists a, EmptyString. rewrite set_term_same. reflexivity. Qed.

Lemma onlyWrites_getCLI : onlyWrites getCLI.
Proof. intros c h. exists c, EmptyString. rewrite set_term_same. reflexivity. Qed.

Lemma onlyWrites_Fprintf text : onlyWrites (Fprintf text).
Proof. intros c h. exists tt, text. reflexivity. Qed.

Lemma onlyWrites_bind {A B} (m : M A) (k : A -> M B) :
  onlyWrites m -> (forall a, onlyWrites (k a)) -> onlyWrites (bind m k).
Proof.
  intros Hm Hk c h. destruct (Hm c h) as [a [t1 E1]].
  destruct (Hk a (set_term (term c ++ t1) c) h) as [b [t2 E2]].
  exists b, (t1 ++ t2). unfold bind. rewrite E1, E2, set_term_twice. reflexivity.
Qed.

Ltac only_writes :=
  repeat first [ apply onlyWrites_bind; [| intro]
               | apply onlyWrites_Fprintf
               | apply onlyWrites_ret
               | apply onlyWrites_getCLI ].

Lemma onlyWrites_showSQLHelp cmd : Fields cmd <> [] -> onlyWrites (showSQLHelp cmd).
Proof.
  intros H. unfold showSQLHelp. destruct (Fields cmd) as [| f [| g fs]];
    [contradiction | only_writes | only_writes].
Qed.

Lemma onlyWrites_showConnectionInfo : onlyWrites showConnectionInfo.
Proof. unfold showConnectionInfo. only_writes. Qed.

Lemma ToLower_not_escape t x : ToLower t = x -> HasPrefix x "\" = false -> HasPrefix t "\" = false.
Proof.
  intros <-. destruct t as [| a r]; [reflexivity |].
  unfold HasPrefix, ToLower. cbn [mapString]. rewrite !prefix_cons, !prefix_empty.
  destruct (ascii_dec "\" (lowerChar a)) as [E | Hn]; [discriminate |].
  intros _. destruct (ascii_dec "\" a) as [<- | _]; [| reflexivity].
  exfalso. apply Hn. reflexivity.
Qed.

(** X5.  The commands [\q], [\?], [\h], [\h NAME] and [\conninfo], and
    the words exit, quit and help in any letter case, are answered from
    the session alone: handlePsqlCommand answers true, makes no call on
    the backend and changes nothing in the session but the text on the
    terminal.  (In particular [\h] never indexes a missing field.) *)
Theorem local_commands_only_write env cmd :
  TrimSpace cmd = "\q" \/ TrimSpace cmd = "\?" \/ TrimSpace cmd = "\h"
  \/ HasPrefix (TrimSpace cmd) "\h " = true \/ TrimSpace cmd = "\conninfo"
  \/ ToLower (TrimSpace cmd) = "exit" \/ ToLower (TrimSpace cmd) = "quit"
  \/ ToLower (TrimSpace cmd) = "help" ->
  forall c h, exists text,
    handlePsqlCommand env cmd (mkState c h)
    = (Done true, mkState (set_term (term c ++ text) c) h).
Proof.
  intros H.
  assert (Hw : exists m : M unit,
             onlyWrites m /\ handlePsqlCommand env cmd = (m ;;; ret true)).
  { unfold handlePsqlCommand. cbv zeta. revert H. generalize (TrimSpace cmd) as t.
    intros t [H | [H | [H | [H | [H | [H | [H | H]]]]]]].
    - subst t. eexists. split; [| reflexivity]. only_writes.
    - subst t. eexists. split; [| reflexivity]. only_writes.
    - subst t. eexists. split; [| reflexivity]. apply onlyWrites_showSQLHelp. discriminate.
    - pose proof H as H0.
      apply HasPrefix_cons in H; destruct H as [x3 [-> H]].
      apply HasPrefix_cons in H; destruct H as [x2 [-> H]].
      apply HasPrefix_cons in H; destruct H as [x1 [-> H]].
      exists (showSQLHelp (String "\" (String "h" (String " " x1)))).
      split.
      { apply onlyWrites_showSQLHelp.
        change (fieldsFrom (String "h" (String "\" EmptyString)) (String " " x1) <> []).
        apply fieldsFrom_in_field. discriminate. }
      change (String "\" (String "h" (String " " x1)) =? "\q")%string with false.
      change (ToLower (String "\" (String "h" (String " " x1))) =? "exit")%string with false.
      change (ToLower (String "\" (String "h" (String " " x1))) =? "quit")%string with false.
      change (String "\" (String "h" (String " " x1)) =? "\?")%string with false.
      change (ToLower (String "\" (String "h" (String " " x1))) =? "help")%string with false.
      rewrite H0, Bool.orb_true_r. reflexivity.
    - subst t. eexists. split; [| reflexivity]. apply onlyWrites_showConnectionInfo.
    - rewrite H. eexists. split; [| rewrite Bool.orb_true_r; reflexivity]. only_writes.
    - rewrite H. eexists. split; [| rewrite Bool.orb_true_r; reflexivity]. only_writes.
    - rewrite H.
      rewrite (eqb_escape_false t _ (ToLower_not_escape t _ H eq_refl)).
      rewrite (eqb_escape_false t _ (ToLower_not_escape t _ H eq_refl)).
      eexists. split; [| reflexivity]. only_writes. }
  destruct Hw as [m [Hm ->]]. intros c h.
  destruct (onlyWrites_bind m (fun _ => ret true) Hm (fun _ => onlyWrites_ret true) c h)
    as [b [text E]].
  exists text. rewrite E. unfold bind in E.
  destruct (m (mkState c h)) as [[u | msg] s1]; [| discriminate E].
  injection E as <- _. reflexivity.
Qed.

Lemma local_commands_only_write_witness :
  exists text,
    handlePsqlCommand envDown " \h select " (mkState (sampleCLI []) [])
    = (Done true, mkState (set_term (term (sampleCLI []) ++ text) (sampleCLI [])) []).
Proof.
  exact (local_commands_only_write envDown " \h select "
           (or_intror (or_intror (or_intror (or_introl eq_refl))))
           (sampleCLI []) []).
Defined.

(** ** The dispatcher: the database switch and its argument *)

(** X3.  An ASCII command that, trimmed, starts with [\c ] or
    [\connect ] always has a second field: handlePsqlCommand calls connectToDatabase with
    it, and the branch that reports a missing database name is never
    taken. *)
Theorem switch_command_always_names_a_database env cmd s :
  isASCII cmd = true ->
  HasPrefix (TrimSpace cmd) "\c " = true
  \/ HasPrefix (TrimSpace cmd) "\connect " = true ->
  exists verb name more,
    Fields (TrimSpace cmd) = verb :: name :: more
    /\ handlePsqlCommand env cmd s = (connectToDatabase env name ;;; ret true) s.
Proof.
  intros _ H. rewrite (handlePsqlCommand_connect env cmd s H).
  assert (Hf : exists verb name more, Fields (TrimSpace cmd) = verb :: name :: more).
  { pose proof (TrimRightSpace_no_trailing_space (TrimLeftSpace cmd)) as Hend.
    fold (TrimSpace cmd) in Hend. revert H Hend. generalize (TrimSpace cmd) as t.
    intros t [H | H] Hend;
      repeat (apply HasPrefix_cons in H; destruct H as [? [-> H]]).
    - match goal with
      | |- context [String " " ?r] =>
          assert (Hr : allSpace r = false);
          [ destruct (allSpace r) eqn:E; [| reflexivity];
            specialize (Hend "\c" (String " " r) eq_refl E); discriminate
          | change (Fields (String "\" (String "c" (String " " r))))
              with ("\c" :: fieldsFrom EmptyString r);
            destruct (fieldsFrom EmptyString r) as [| f fs] eqn:Ef;
            [ apply fieldsFrom_none in Ef; congruence
            | exists "\c", f, fs; reflexivity ] ]
      end.
    - match goal with
      | |- context [String " " ?r] =>
          assert (Hr : allSpace r = false);
          [ destruct (allSpace r) eqn:E; [| reflexivity];
            specialize (Hend "\connect" (String " " r) eq_refl E); discriminate
          | change (Fields (String "\" (String "c" (String "o" (String "n" (String "n"
                     (String "e" (String "c" (String "t" (String " " r))))))))))
              with ("\connect" :: fieldsFrom EmptyString r);
            destruct (fieldsFrom EmptyString r) as [| f fs] eqn:Ef;
            [ apply fieldsFrom_none in Ef; congruence
            | exists "\connect", f, fs; reflexivity ] ]
      end. }
  destruct Hf as [verb [name [more Hf]]]. exists verb, name, more.
  split; [exact Hf |]. rewrite Hf. reflexivity.
Qed.

Lemma switch_command_always_names_a_database_witness :
  exists verb name more,
    Fields (TrimSpace "\c  other  x ") = verb :: name :: more
    /\ handlePsqlCommand envUp "\c  other  x " (sampleState [])
       = (connectToDatabase envUp name ;;; ret true) (sampleState []).
Proof.
  exact (switch_command_always_names_a_database envUp "\c  other  x " (sampleState [])
           eq_refl (or_introl eq_refl)).
Defined.

(** X4.  The bare commands [\c] and [\connect] are not recognized: a
    turn of Start that reads one of them as the first line hands it to
    executeCommand, so the backend receives the text as an SQL statement
    under the 60 second timeout. *)
Theorem bare_switch_command_is_sent_as_sql env c h line rest :
  input (reader c) = RLine line :: rest ->
  TrimSpace line = "\c" \/ TrimSpace line = "\connect" ->
  StartBody env (mkState c h)
  = ((startTime <- time_Now env ;;
      executeCommand env (60 * Second)%Z (TrimSpace line) startTime) ;;;
     ret LoopContinue)
      (mkState (set_reader (mkReader rest (database c
                                           ++ if inTransaction c then "*=> " else "=> ")) c)
               h).
Proof.
  intros Hin H.
  assert (Hp : HasPrefix (TrimSpace line) "\" = true) by (destruct H as [-> | ->]; reflexivity).
  unfold StartBody. unfold bind at 1 2 3. unfold getPrompt, bind, getCLI, Reader_SetPrompt, modifyCLI.
  cbn [cli history].
  assert (Hr : forall p,
             readMultiLine (mkState (set_reader (mkReader (input (reader c)) p) c) h)
             = (Done (TrimSpace line), mkState (set_reader (mkReader rest p) c) h)).
  { intros p. unfold readMultiLine, bind, getCLI, modifyCLI, ret. cbn [cli history].
    destruct c as [t cfg dbh rd si ex tm mr it dbn]. cbn in Hin |- *.
    rewrite Hin, (readLoop_escape_first _ _ _ _ Hp). reflexivity. }
  destruct (inTransaction c); unfold ret; rewrite Hr;
    destruct H as [-> | ->]; reflexivity.
Qed.

Lemma bare_switch_command_is_sent_as_sql_witness :
  history (snd (StartBody envUp (sampleState [RLine " \c "])))
  = [CExec (mkDB 0 "host=localhost port=5432 user=postgres password=password dbname=testdb sslmode=disable connect_timeout=10 application_name=psql")
           (60 * Second)%Z "\c";
     CNow;
     COpen "host=localhost port=5432 user=postgres password=password dbname=testdb sslmode=disable connect_timeout=10 application_name=psql"].
Proof.
  change (sampleState [RLine " \c "])
    with (mkState (sampleCLI [RLine " \c "]) (history (sampleState []))).
  rewrite (bare_switch_command_is_sent_as_sql envUp (sampleCLI [RLine " \c "])
             (history (sampleState [])) " \c " [] eq_refl (or_introl eq_refl)).
  reflexivity.
Defined.

(** ** Leaving the session *)

Lemma readLoop_shortcut_first database pr line rest :
  isShortcut (ToLower (TrimSpace line)) = true ->
  readLoop database [] pr (RLine line :: rest) = (TrimSpace line, mkReader rest pr).
Proof.
  intros H. cbn [readLoop List.length Nat.eqb].
  destruct (TrimSpace line) as [| a r] eqn:E; [discriminate H |].
  change ((String a r =? EmptyString)%string) with false. cbn [andb].
  rewrite H. destruct (HasPrefix (String a r) "\"); reflexivity.
Qed.

Lemma bind_done {A B} (m : M A) (k : A -> M B) s a s' :
  m s = (Done a, s') -> bind m k s = k a s'.
Proof. intros H. unfold bind. rewrite H. reflexivity. Qed.

Lemma getPrompt_value c h :
  getPrompt (mkState c h)
  = (Done (database c ++ if inTransaction c then "*=> " else "=> "), mkState c h).
Proof. unfold getPrompt, bind, getCLI, ret. cbn [cli]. destruct (inTransaction c); reflexivity. Qed.

(** A first line that is a meta-command or a shortcut word comes back
    trimmed, at once. *)
Lemma readMultiLine_first_line_unit c h line rest :
  input (reader c) = RLine line :: rest ->
  HasPrefix (TrimSpace line) "\" = true \/ isShortcut (ToLower (TrimSpace line)) = true ->
  readMultiLine (mkState c h)
  = (Done (TrimSpace line),
     mkState (set_reader (mkReader rest (prompt (reader c))) c) h).
Proof.
  intros Hin H. unfold readMultiLine, bind, getCLI, modifyCLI, ret.
  cbn [cli history]. rewrite Hin.
  destruct H as [H | H];
    [rewrite (readLoop_escape_first _ _ _ _ H) | rewrite (readLoop_shortcut_first _ _ _ _ H)];
    reflexivity.
Qed.

Lemma StartBody_quit env c h line rest :
  input (reader c) = RLine line :: rest ->
  TrimSpace line = "\q" \/ ToLower (TrimSpace line) = "exit"
  \/ ToLower (TrimSpace line) = "quit" ->
  StartBody env (mkState c h)
  = (Done (LoopReturn None),
     mkState (set_term (term c ++ nl)
                (set_reader (mkReader rest (database c
                                            ++ if inTransaction c then "*=> " else "=> ")) c))
             h).
Proof.
  intros Hin H.
  pose proof (TrimSpace_idempotent line) as Htt.
  assert (Hfirst : HasPrefix (TrimSpace line) "\" = true
                   \/ isShortcut (ToLower (TrimSpace line)) = true).
  { unfold isShortcut. destruct H as [H | [H | H]]; rewrite H; [left | right | right]; reflexivity. }
  assert (Hq1 : ((TrimSpace line =? "\q") || (ToLower (TrimSpace line) =? "exit")
                 || (ToLower (TrimSpace line) =? "quit"))%string = true).
  { destruct H as [H | [H | H]]; rewrite H; rewrite ?Bool.orb_true_r; reflexivity. }
  assert (Hq2 : ((ToLower (TrimSpace line) =? "exit") || (ToLower (TrimSpace line) =? "quit")
                 || (TrimSpace line =? "\q"))%string = true).
  { destruct H as [H | [H | H]]; rewrite H; rewrite ?Bool.orb_true_r; reflexivity. }
  assert (Hne : (TrimSpace line =? EmptyString)%string = false).
  { destruct (TrimSpace line); [| reflexivity]. destruct H as [H | [H | H]]; discriminate H. }
  unfold StartBody.
  rewrite (bind_done _ _ _ _ _ (getPrompt_value c h)).
  rewrite (bind_done _ _ _ tt
             (mkState (set_reader (mkReader (input (reader c))
                                            (database c ++ if inTransaction c then "*=> " else "=> ")) c) h))
    by reflexivity.
  rewrite (bind_done _ _ _ _ _
             (readMultiLine_first_line_unit
                (set_reader (mkReader (input (reader c))
                               (database c ++ if inTransaction c then "*=> " else "=> ")) c)
                h line rest Hin Hfirst)).
  rewrite Hne. cbv zeta. rewrite Htt.
  unfold handlePsqlCommand. cbv zeta. rewrite Htt, Hq1.
  unfold bind, Fprintf, modifyCLI, ret. cbn [cli history]. rewrite Hq2.
  destruct c. reflexivity.
Qed.

(** X6.  When the first line read is [\q], or exit or quit in any letter
    case (white space around it ignored), Start returns without error
    after that one line: it has written a line feed, has made no call on
    the backend, and the lines that follow are left unread. *)
Theorem Start_returns_on_quit env fuel c h line rest :
  input (reader c) = RLine line :: rest ->
  TrimSpace line = "\q" \/ ToLower (TrimSpace line) = "exit"
  \/ ToLower (TrimSpace line) = "quit" ->
  Start env (S fuel) (mkState c h)
  = Some (Done None,
          mkState (set_term (term c ++ nl)
                     (set_reader (mkReader rest (database c
                                                 ++ if inTransaction c then "*=> " else "=> ")) c))
                  h).
Proof.
  intros Hin H. cbn [Start]. rewrite (StartBody_quit env c h line rest Hin H). reflexivity.
Qed.

Lemma Start_returns_on_quit_witness :
  Start envDown 1 (mkState (sampleCLI [RLine "  QuIt "; RLine "select 1;"]) [])
  = Some (Done None,
          mkState (set_term nl
                     (set_reader (mkReader [RLine "select 1;"] "testdb=> ")
                                 (sampleCLI [RLine "  QuIt "; RLine "select 1;"])))
                  []).
Proof.
  exact (Start_returns_on_quit envDown 0 (sampleCLI [RLine "  QuIt "; RLine "select 1;"]) []
           "  QuIt " [RLine "select 1;"] eq_refl (or_intror (or_intror eq_refl))).
Defined.

(** ** The accumulator: what a unit is made of *)

Lemma readLoop_keeps_accumulating database :
  forall ls lines pr tail,
    lines <> [] ->
    forallb continuesStatement ls = true ->
    exists pr',
      readLoop database lines pr (map RLine ls ++ tail)
      = readLoop database (lines ++ ls) pr' tail.
Proof.
  induction ls as [| l ls IH]; intros lines pr tail Hne Hall.
  - exists pr. rewrite app_nil_r. reflexivity.
  - cbn [forallb] in Hall. apply andb_prop in Hall. destruct Hall as [Hl Hall].
    cbn [map app]. rewrite (readLoop_buffered _ _ _ _ _ Hne).
    assert (Hne' : (lines ++ [l])%list <> []) by (destruct lines; discriminate).
    unfold continuesStatement in Hl.
    destruct (HasPrefix (TrimSpace l) "\").
    + destruct (IH (lines ++ [l])%list pr tail Hne' Hall) as [pr' E].
      exists pr'. rewrite E, <- app_assoc. reflexivity.
    + cbn [orb] in Hl. apply Bool.negb_true_iff in Hl. rewrite Hl.
      destruct (IH (lines ++ [l])%list (database ++ "-> ") tail Hne' Hall) as [pr' E].
      exists pr'. rewrite E, <- app_assoc. reflexivity.
Qed.

(** X7.  A statement in progress (its lines in ASCII text) that meets
    the end of the input, or an error of the line source, before a line
    ends it is dropped:
    readMultiLine's loop returns the empty text, and the lines typed so
    far are lost. *)
Theorem unterminated_statement_is_dropped database lines pr ls tail :
  forallb isASCII ls = true ->
  lines <> [] ->
  forallb continuesStatement ls = true ->
  tail = [] \/ (exists rest, tail = REOF :: rest) \/ (exists msg rest, tail = RErr msg :: rest) ->
  fst (readLoop database lines pr (map RLine ls ++ tail)) = EmptyString
  /\ input (snd (readLoop database lines pr (map RLine ls ++ tail))) = tl tail.
Proof.
  intros _ Hne Hall Htail.
  destruct (readLoop_keeps_accumulating database ls lines pr tail Hne Hall) as [pr' ->].
  destruct Htail as [-> | [[rest ->] | [msg [rest ->]]]]; split; reflexivity.
Qed.

Lemma unterminated_statement_is_dropped_witness :
  fst (readLoop "db" ["select 1"] "db-> "
         (map RLine ["from t"; "\x;"; "where a = 1"] ++ [REOF; RLine "select 2;"]))
  = EmptyString
  /\ input (snd (readLoop "db" ["select 1"] "db-> "
                   (map RLine ["from t"; "\x;"; "where a = 1"] ++ [REOF; RLine "select 2;"])))
     = [RLine "select 2;"].
Proof.
  apply (unterminated_statement_is_dropped "db" ["select 1"] "db-> "
           ["from t"; "\x;"; "where a = 1"] [REOF; RLine "select 2;"]).
  - reflexivity.
  - discriminate.
  - reflexivity.
  - right. left. exists [RLine "select 2;"]. reflexivity.
Defined.

Lemma readLoop_unit_shape database :
  forall inp lines pr res r,
    readLoop database lines pr inp = (res, r) ->
    res <> EmptyString ->
    exists ls,
      inp = (map RLine ls ++ input r)%list
      /\ ((res = Join (lines ++ ls) nl
           /\ exists front last,
               ls = (front ++ [last])%list /\ HasSuffix (TrimSpace last) ";" = true)
          \/ (lines = []
              /\ exists l, ls = [l] /\ res = TrimSpace l
                           /\ (HasPrefix res "\" = true \/ isShortcut (ToLower res) = true))).
Proof.
  induction inp as [| ev rest IH]; intros lines pr res r H Hres.
  - cbn in H. injection H as <- _. contradiction.
  - destruct ev as [line | | msg]; cbn [readLoop] in H;
      try (injection H as <- _; contradiction).
    cbv zeta in H.
    destruct ((TrimSpace line =? EmptyString)%string && (List.length lines =? 0)) eqn:E0;
      [injection H as <- _; contradiction |].
    destruct ((List.length lines =? 0) && HasPrefix (TrimSpace line) "\") eqn:E1.
    { injection H as <- <-. apply andb_prop in E1. destruct E1 as [El Ep].
      exists [line]. split; [reflexivity |]. right.
      split; [destruct lines; [reflexivity | discriminate El] |].
      exists line. repeat split. left. exact Ep. }
    destruct ((List.length lines =? 0) && isShortcut (ToLower (TrimSpace line))) eqn:E2.
    { injection H as <- <-. apply andb_prop in E2. destruct E2 as [El Es].
      exists [line]. split; [reflexivity |]. right.
      split; [destruct lines; [reflexivity | discriminate El] |].
      exists line. repeat split. right. exact Es. }
    assert (Hne' : (lines ++ [line])%list <> []) by (destruct lines; discriminate).
    assert (Hrec : forall pr0,
               readLoop database (lines ++ [line]) pr0 rest = (res, r) ->
               exists ls,
                 RLine line :: rest = (map RLine ls ++ input r)%list
                 /\ ((res = Join (lines ++ ls) nl
                      /\ exists front last,
                          ls = (front ++ [last])%list
                          /\ HasSuffix (TrimSpace last) ";" = true)
                     \/ (lines = []
                         /\ exists l, ls = [l] /\ res = TrimSpace l
                                      /\ (HasPrefix res "\" = true
                                          \/ isShortcut (ToLower res) = true)))).
    { intros pr0 H0. destruct (IH _ _ _ _ H0 Hres) as [ls [Hinp [[Hj [front [last [Hls Hl]]]] | [Hnil _]]]];
        [| contradiction].
      exists (line :: ls). split; [cbn [map app]; rewrite <- Hinp; reflexivity |].
      left. split; [rewrite Hj, <- app_assoc; reflexivity |].
      exists (line :: front), last. split; [rewrite Hls; reflexivity | exact Hl]. }
    destruct ((0 <? List.length lines) && HasPrefix (TrimSpace line) "\"); [exact (Hrec _ H) |].
    destruct (HasSuffix (TrimSpace line) ";") eqn:Es; [| exact (Hrec _ H)].
    injection H as <- <-. exists [line]. split; [reflexivity |]. left.
    split; [reflexivity |]. exists [], line. split; [reflexivity | exact Es].
Qed.

(** X8.  With a line source that delivers ASCII text, a unit that
    readMultiLine returns is made of the lines it read and of nothing
    else: either it is the trimmed form of the single
    line read, which starts with the escape prefix or is one of exit,
    quit and help; or it is all the lines read, as they were typed,
    joined by line feeds, and the last of them ends (trimmed) with a
    semicolon.  The line source is left with what follows those lines. *)
Theorem readMultiLine_unit_is_the_lines_read c h res s' :
  forallb readIsASCII (input (reader c)) = true ->
  readMultiLine (mkState c h) = (Done res, s') ->
  res <> EmptyString ->
  exists ls,
    input (reader c) = (map RLine ls ++ input (reader (cli s')))%list
    /\ ((res = Join ls nl
         /\ exists front last,
             ls = (front ++ [last])%list /\ HasSuffix (TrimSpace last) ";" = true)
        \/ (exists l, ls = [l] /\ res = TrimSpace l
                      /\ (HasPrefix res "\" = true \/ isShortcut (ToLower res) = true))).
Proof.
  intros _. unfold readMultiLine, bind, getCLI, modifyCLI, ret. cbn [cli history].
  destruct (readLoop (database c) [] (prompt (reader c)) (input (reader c))) as [res0 r] eqn:E.
  intros H Hres. injection H as -> <-. cbn [cli reader set_reader].
  destruct (readLoop_unit_shape _ _ _ _ _ _ E Hres) as [ls [Hinp Hshape]].
  exists ls. split; [exact Hinp |].
  destruct Hshape as [[Hj Hlast] | [_ Hl]]; [left; split; [exact Hj | exact Hlast] | right; exact Hl].
Qed.

Lemma readMultiLine_unit_is_the_lines_read_witness :
  exists ls,
    [RLine "select 1"; RLine " from t; "; RLine "\q"] = (map RLine ls ++ [RLine "\q"])%list
    /\ (("select 1" ++ nl ++ " from t; " = Join ls nl
         /\ exists front last,
             ls = (front ++ [last])%list /\ HasSuffix (TrimSpace last) ";" = true)
        \/ (exists l, ls = [l] /\ "select 1" ++ nl ++ " from t; " = TrimSpace l
                      /\ (HasPrefix ("select 1" ++ nl ++ " from t; ") "\" = true
                          \/ isShortcut (ToLower ("select 1" ++ nl ++ " from t; ")) = true))).
Proof.
  apply (readMultiLine_unit_is_the_lines_read
           (sampleCLI [RLine "select 1"; RLine " from t; "; RLine "\q"]) []
           ("select 1" ++ nl ++ " from t; ")
           (mkState (set_reader (mkReader [RLine "\q"] "testdb-> ")
                       (sampleCLI [RLine "select 1"; RLine " from t; "; RLine "\q"])) [])).
  - reflexivity.
  - reflexivity.
  - discriminate.
Defined.

(** ** The router *)

Lemma executeSQL_by_kind env sqlStr s :
  executeSQL env sqlStr s
  = (startTime <- time_Now env ;;
     if (strippedStatement sqlStr =? EmptyString)%string then ret tt
     else match transactionKeyword (ToUpper (strippedStatement sqlStr)) with
          | Some (flag, keyword) => transactionControl env flag keyword startTime
          | None =>
              if isQuery (strippedStatement sqlStr)
              then executeQuery env (60 * Second)%Z (strippedStatement sqlStr) startTime
              else executeCommand env (60 * Second)%Z (strippedStatement sqlStr) startTime
          end) s.
Proof.
  unfold executeSQL, transactionKeyword, strippedStatement, bind.
  destruct (time_Now env s) as [[startTime | msg] s1]; [| reflexivity].
  cbv zeta.
  destruct (_ =? EmptyString)%string; [reflexivity |].
  destruct ((_ =? "BEGIN") || _)%string; [reflexivity |].
  destruct (_ =? "COMMIT")%string; [reflexivity |].
  destruct (_ =? "ROLLBACK")%string; reflexivity.
Qed.

(** X9.  A statement that is empty once it is trimmed and its final
    semicolon is taken off is not executed: executeSQL reads the clock
    and returns, with nothing sent to the backend, nothing written and
    the session unchanged. *)
Theorem executeSQL_empty_statement_is_skipped env sqlStr c h :
  strippedStatement sqlStr = EmptyString ->
  executeSQL env sqlStr (mkState c h) = (Done tt, mkState c (CNow :: h)).
Proof.
  intros H. rewrite executeSQL_by_kind, H. reflexivity.
Qed.

Lemma executeSQL_empty_statement_is_skipped_witness :
  executeSQL envDown "  ;  " (sampleState [])
  = (Done tt, mkState (sampleCLI []) (CNow :: history (sampleState []))).
Proof.
  exact (executeSQL_empty_statement_is_skipped envDown "  ;  " (sampleCLI [])
           (history (sampleState [])) eq_refl).
Defined.

(** X10.  In a session that has no connection (Start before Connect, or
    after a Connect whose [sql.Open] failed) every statement that is not
    empty makes executeSQL panic on the nil handle; nothing reaches the
    backend and nothing is written. *)
Theorem executeSQL_without_connection_panics env sqlStr c h :
  db c = None ->
  strippedStatement sqlStr <> EmptyString ->
  fst (executeSQL env sqlStr (mkState c h)) = Panic nilDeref
  /\ history (snd (executeSQL env sqlStr (mkState c h))) = CNow :: h
  /\ term (cli (snd (executeSQL env sqlStr (mkState c h)))) = term c.
Proof.
  intros Hdb Hne. rewrite executeSQL_by_kind.
  apply String.eqb_neq in Hne.
  unfold bind at 1, time_Now, call. cbn [cli history]. rewrite Hne.
  destruct c as [t cfg dbh rd si ex tm mr it dbn]. cbn in Hdb. subst dbh.
  destruct (transactionKeyword _) as [[flag keyword] |].
  - repeat split.
  - destruct (isQuery _); repeat split.
Qed.

Lemma executeSQL_without_connection_panics_witness :
  fst (executeSQL envUp "select 1;"
         (mkState (NewCLI [] "localhost" 5432%Z "postgres" "password" "testdb") []))
  = Panic nilDeref.
Proof.
  apply (executeSQL_without_connection_panics envUp "select 1;"
           (NewCLI [] "localhost" 5432%Z "postgres" "password" "testdb") []).
  - reflexivity.
  - discriminate.
Defined.

(** X12.  When the backend refuses an ASCII statement that is no
    transaction keyword, executeSQL writes [ERROR: message] and an empty line and
    nothing more: no timing line, even with timing on, and no change to
    the session. *)
Theorem failed_statement_reports_error_only env sqlStr c h d msg :
  isASCII sqlStr = true ->
  db c = Some d ->
  strippedStatement sqlStr <> EmptyString ->
  transactionKeyword (ToUpper (strippedStatement sqlStr)) = None ->
  (if isQuery (strippedStatement sqlStr)
   then query_result env (CNow :: h) d (60 * Second)%Z (strippedStatement sqlStr) = inl msg
   else exec_result env (CNow :: h) d (60 * Second)%Z (strippedStatement sqlStr) = inl msg) ->
  executeSQL env sqlStr (mkState c h)
  = (Done tt,
     mkState (set_term (term c ++ "ERROR: " ++ msg ++ nl ++ nl) c)
             ((if isQuery (strippedStatement sqlStr)
               then CQuery d (60 * Second)%Z (strippedStatement sqlStr)
               else CExec d (60 * Second)%Z (strippedStatement sqlStr)) :: CNow :: h)).
Proof.
  intros _ Hdb Hne Hkw Herr. rewrite executeSQL_by_kind.
  apply String.eqb_neq in Hne.
  unfold bind at 1, time_Now, call. cbn [cli history]. rewrite Hne, Hkw.
  destruct c as [t cfg dbh rd si ex tm mr it dbn]. cbn in Hdb. subst dbh.
  revert Herr. generalize (60 * Second)%Z as timeout. intros timeout Herr.
  destruct (isQuery _).
  - unfold executeQuery, bind, theDB, bind, getCLI, ret, call. cbn [cli history db].
    rewrite Herr. reflexivity.
  - unfold executeCommand, db_ExecContext, bind, theDB, bind, getCLI, ret, call.
    cbn [cli history db]. rewrite Herr. reflexivity.
Qed.

Lemma failed_statement_reports_error_only_witness :
  term (cli (snd (executeSQL envDown "select 1;"
                    (mkState (set_timingEnabled true (sampleCLI [])) []))))
  = "ERROR: connection refused" ++ nl ++ nl.
Proof.
  rewrite (failed_statement_reports_error_only envDown "select 1;"
             (set_timingEnabled true (sampleCLI [])) []
             (mkDB 0 "host=localhost port=5432 user=postgres password=password dbname=testdb sslmode=disable connect_timeout=10 application_name=psql")
             "connection refused" eq_refl eq_refl).
  - reflexivity.
  - discriminate.
  - reflexivity.
  - reflexivity.
Defined.

(** X11.  A statement that is BEGIN, START TRANSACTION, COMMIT or
    ROLLBACK in any letter case (trimmed, with or without its semicolon)
    is sent as the keyword BEGIN, COMMIT or ROLLBACK under a timeout of
    30 seconds, not as typed.  When the backend accepts it, the keyword
    is written as acknowledgment, followed by the timing line when
    timing is on, the flag inTransaction is true after BEGIN and false
    after the other two, and the prompt carries the mark [*] exactly
    when the flag is set. *)
Theorem transaction_keyword_acknowledged env sqlStr c h d flag keyword n :
  db c = Some d ->
  transactionKeyword (ToUpper (strippedStatement sqlStr)) = Some (flag, keyword) ->
  exec_result env (CNow :: h) d (30 * Second)%Z keyword = inr n ->
  let s' := snd (executeSQL env sqlStr (mkState c h)) in
  fst (executeSQL env sqlStr (mkState c h)) = Done tt
  /\ inTransaction (cli s') = flag
  /\ fst (getPrompt s') = Done (database c ++ if flag then "*=> " else "=> ")
  /\ term (cli s')
     = (if timingEnabled c
        then (term c ++ keyword ++ nl)
             ++ "Time: "
             ++ fmt_ms env (clock env (CExec d (30 * Second)%Z keyword :: CNow :: h)
                            - clock env h)%Z
             ++ " ms" ++ nl
        else term c ++ keyword ++ nl)
  /\ history s'
     = ((if timingEnabled c then [CNow] else [])
          ++ CExec d (30 * Second)%Z keyword :: CNow :: h)%list.
Proof.
  intros Hdb Hkw Hok s'. subst s'. rewrite executeSQL_by_kind.
  assert (Hne : (strippedStatement sqlStr =? EmptyString)%string = false).
  { destruct (strippedStatement sqlStr); [discriminate Hkw | reflexivity]. }
  unfold bind at 1 2, time_Now, call. cbn [cli history]. rewrite Hne, Hkw.
  destruct c as [t cfg dbh rd si ex tm mr it dbn]. cbn in Hdb. subst dbh.
  unfold transactionControl, bind, modifyCLI, db_ExecContext, theDB, bind, getCLI, ret, call.
  revert Hok. generalize (30 * Second)%Z as timeout. intros timeout Hok.
  cbn [cli history db set_inTransaction]. rewrite Hok.
  unfold getPrompt, bind, getCLI, ret.
  destruct tm, flag; repeat split.
Qed.

Lemma transaction_keyword_acknowledged_witness :
  let s' := snd (executeSQL envUp " Start Transaction ; " (sampleState [])) in
  inTransaction (cli s') = true
  /\ fst (getPrompt s') = Done "testdb*=> "
  /\ term (cli s') = "BEGIN" ++ nl.
Proof.
  destruct (transaction_keyword_acknowledged envUp " Start Transaction ; " (sampleCLI [])
              (history (sampleState []))
              (mkDB 0 "host=localhost port=5432 user=postgres password=password dbname=testdb sslmode=disable connect_timeout=10 application_name=psql")
              true "BEGIN" 0%Z eq_refl eq_refl eq_refl) as [_ [Hflag [Hprompt [Hterm _]]]].
  split; [exact Hflag | split; [exact Hprompt | exact Hterm]].
Defined.

(** ** Table mode: the length of the lines *)

Lemma length_Repeat_char ch n : String.length (Repeat (String ch EmptyString) n) = n.
Proof. induction n as [| n IH]; cbn; [reflexivity | rewrite IH; reflexivity]. Qed.

Lemma length_padRight w cell :
  String.length (padRight w cell) = Nat.max w (String.length cell).
Proof. unfold padRight. rewrite length_append, length_Repeat_char. lia. Qed.

Lemma length_separatorCells ws : String.length (separatorCells ws) = gridWidth ws.
Proof.
  induction ws as [| w ws IH]; [reflexivity |].
  cbn [separatorCells gridWidth]. rewrite !length_append, length_Repeat_char, IH.
  destruct ws; cbn; lia.
Qed.

Lemma length_tableCells :
  forall cells ws,
    Forall2 (fun cell w => String.length cell <= w) cells ws ->
    String.length (tableCells ws cells) = gridWidth ws.
Proof.
  induction cells as [| cell cells IH]; intros ws H; inversion H as [| ? w ? ws' Hc Hrest]; subst.
  - reflexivity.
  - cbn [tableCells gridWidth]. rewrite !length_append, length_padRight, (IH ws' Hrest).
    inversion Hrest; subst; cbn; lia.
Qed.

Lemma Forall2_by_nth {A B} (P : A -> B -> Prop) (da : A) (db0 : B) :
  forall la lb,
    List.length la = List.length lb ->
    (forall i, i < List.length la -> P (nth i la da) (nth i lb db0)) ->
    Forall2 P la lb.
Proof.
  induction la as [| a la IH]; intros [| b lb] Hlen H; cbn in Hlen; try discriminate.
  - constructor.
  - constructor.
    + apply (H 0). cbn. lia.
    + apply IH; [lia |]. intros i Hi. apply (H (S i)). cbn. lia.
Qed.

Lemma length_renderCell v :
  String.length (renderCell v) = Nat.min 50 (String.length (formatValue v)).
Proof.
  destruct (Nat.ltb_spec 50 (String.length (formatValue v))) as [Hlong | Hshort].
  - destruct (renderCell_long v Hlong) as [_ ->]. lia.
  - rewrite (renderCell_short v Hshort). lia.
Qed.

(** After its leading blank, every data line is as long as the line of
    dashes under the header, and so is the header line when no column
    label is longer than 50 characters (a longer label is written whole,
    while its column stays 50 wide). *)
Lemma tableCells_fill_the_grid cap cols pending :
  let result := collectRows cap (List.length cols) pending (map headerWidth cols) [] in
  let colWidths := fst (fst result) in
  let allRows := snd (fst result) in
  String.length (separatorCells colWidths) = gridWidth colWidths
  /\ (forall row, In row allRows ->
        String.length (tableCells colWidths row) = gridWidth colWidths)
  /\ (Forall (fun col => String.length col <= 50) cols ->
      String.length (tableCells colWidths cols) = gridWidth colWidths).
Proof.
  intros result colWidths allRows.
  pose proof (Hspec := collectRows_spec cap (List.length cols) pending
                (map headerWidth cols) [] (length_map _ _) (headerWidths_bounded cols)).
  cbv zeta in Hspec.
  cbn [List.length app] in Hspec.
  set (shown := firstn (fetchCount cap 0 pending) pending) in *.
  subst colWidths allRows result. rewrite Hspec. cbn [fst snd].
  assert (Hlen : List.length (widenAll (List.length cols) shown (map headerWidth cols))
                 = List.length cols) by (apply widenAll_length; apply length_map).
  assert (Hnth : forall i, i < List.length cols ->
            nth i (widenAll (List.length cols) shown (map headerWidth cols)) 0
            = Nat.min 50 (Nat.max (headerWidth (nth i cols EmptyString))
                (list_max (map (fun r => String.length (formatValue (nth i r VNil))) shown)))).
  { intros i Hi.
    assert (Hh : nth i (map headerWidth cols) 0 = headerWidth (nth i cols EmptyString)).
    { rewrite (nth_indep _ 0 (headerWidth EmptyString)) by (rewrite length_map; exact Hi).
      apply map_nth. }
    rewrite (widenAll_nth (List.length cols) i Hi shown (map headerWidth cols));
      [rewrite Hh; reflexivity | apply length_map |].
    rewrite Hh, headerWidth_clamps. lia. }
  split; [apply length_separatorCells |]. split.
  - intros row Hrow. apply in_map_iff in Hrow. destruct Hrow as [r [<- Hr]].
    apply length_tableCells.
    apply (Forall2_by_nth _ EmptyString 0);
      [rewrite length_map, Scan_length, Hlen; reflexivity |].
    intros i Hi. rewrite length_map, Scan_length in Hi.
    change EmptyString with (renderCell VNil) at 1. rewrite map_nth.
    rewrite length_renderCell, (Scan_nth _ _ _ Hi), (Hnth i Hi).
    assert (Hge : String.length (formatValue (nth i r VNil))
                  <= list_max (map (fun r => String.length (formatValue (nth i r VNil))) shown)).
    { apply list_max_ge. apply in_map_iff. exists r. split; [reflexivity | exact Hr]. }
    lia.
  - intros Hcols. apply length_tableCells.
    apply (Forall2_by_nth _ EmptyString 0); [rewrite Hlen; reflexivity |].
    intros i Hi. rewrite (Hnth i Hi), headerWidth_clamps.
    rewrite Forall_forall in Hcols.
    specialize (Hcols (nth i cols EmptyString) (nth_In _ _ Hi)). lia.
Qed.

(** A label of more than 50 characters makes the header line longer
    than the rest of the grid. *)
Example long_header_sticks_out :
  let label := "a_column_label_that_is_a_good_deal_longer_than_fifty_characters" in
  let result := collectRows 1000 1 [[VInt 1]] (map headerWidth [label]) [] in
  String.length (tableCells (fst (fst result)) [label]) = 64
  /\ String.length (separatorCells (fst (fst result))) = 51.
Proof. vm_compute. split; reflexivity. Qed.

(** ** Expanded mode with the row cap of a session *)

Lemma itoa_short_up_to_1000 n : n <= 1000 -> String.length (itoa (Z.of_nat n)) <= 4.
Proof.
  intros Hn.
  assert (Hall : forallb (fun k => String.length (itoa (Z.of_nat k)) <=? 4) (seq 0 1001) = true)
    by (vm_compute; reflexivity).
  rewrite forallb_forall in Hall.
  apply Nat.leb_le. apply Hall. apply in_seq. lia.
Qed.

Lemma expandedLoop_no_panic cap cols :
  (cap <= 1000)%Z ->
  forall pending rowNum,
    (Z.of_nat rowNum < cap)%Z ->
    snd (expandedLoop cap cols pending rowNum) = false.
Proof.
  intros Hcap. induction pending as [| r rest IH]; intros rowNum Hrow; [reflexivity |].
  cbn [expandedLoop].
  assert (Hhead : (50 <? String.length ("-[ RECORD " ++ itoa (Z.of_nat (S rowNum)) ++ " ]"))
                  = false).
  { apply Nat.ltb_ge. rewrite !length_append.
    pose proof (itoa_short_up_to_1000 (S rowNum)) as Hs.
    change (String.length "-[ RECORD ") with 10. change (String.length " ]") with 2. lia. }
  rewrite Hhead.
  destruct (cap <=? Z.of_nat (S rowNum))%Z eqn:E; [reflexivity |].
  apply Z.leb_gt in E. specialize (IH (S rowNum) E).
  destruct (expandedLoop cap cols rest (S rowNum)) as [[[more n] rest'] p].
  exact IH.
Qed.

(** X15.  With a row cap between 1 and 1000 (every session has 1000),
    displayExpanded never hands [strings.Repeat] a negative count: it
    ends without panic, and it has fetched as many rows as the stream
    holds, up to the cap. *)
Theorem displayExpanded_never_panics env rows cols startTime c h :
  (0 < maxRows c <= 1000)%Z ->
  fst (displayExpanded env rows cols startTime (mkState c h))
  = Done (skipn (Nat.min (List.length (rows_pending rows)) (Z.to_nat (maxRows c)))
                (rows_pending rows),
          false).
Proof.
  intros [Hlo Hhi].
  pose proof (expandedLoop_no_panic (maxRows c) cols Hhi (rows_pending rows) 0 Hlo) as Hp.
  destruct (expandedLoop_spec (maxRows c) cols (rows_pending rows) 0)
    as [text [j [p [_ [Hj [E _]]]]]].
  rewrite E in Hp. cbn [snd] in Hp. subst p. specialize (Hj eq_refl).
  rewrite (fetchCount_under_cap _ _ Hlo) in Hj. subst j.
  unfold displayExpanded, bind, getCLI. cbn [cli]. rewrite E.
  destruct (0 + _ =? 0); destruct (timingEnabled c); reflexivity.
Qed.

Lemma displayExpanded_never_panics_witness :
  fst (displayExpanded envUp (mkRows ["id"; "name"] ["int4"; "text"] sampleRows)
         ["id"; "name"] 0%Z (mkState (sampleCLI []) []))
  = Done ([], false).
Proof.
  apply (displayExpanded_never_panics envUp
           (mkRows ["id"; "name"] ["int4"; "text"] sampleRows) ["id"; "name"] 0%Z
           (sampleCLI []) []).
  split; [reflexivity | discriminate].
Defined.

(** ** Defaults of the configuration *)

Lemma default_string_not_empty (s d : string) :
  d <> EmptyString -> (if (s =? EmptyString)%string then d else s) <> EmptyString.
Proof.
  intros Hd. destruct (String.eqb_spec s EmptyString); [exact Hd | assumption].
Qed.

Lemma default_Z_not_zero (x d : Z) :
  d <> 0%Z -> (if (x =? 0)%Z then d else x) <> 0%Z.
Proof.
  intros Hd. destruct (Z.eqb_spec x 0); [exact Hd | assumption].
Qed.

(** X16.  NewCLIWithConfig replaces exactly the settings left at their
    zero value: afterwards the SSL mode and the application name are not
    empty and the connect timeout, the two pool sizes and the connection
    lifetime are not zero (so a pool size or timeout of zero cannot be
    asked for), a setting that was given is kept, and applying the
    defaults a second time changes nothing. *)
Theorem configuration_defaults termInput cfg :
  let cfg' := config (NewCLIWithConfig termInput cfg) in
  cfg' = withDefaults cfg
  /\ SSLMode cfg' <> EmptyString
  /\ ApplicationName cfg' <> EmptyString
  /\ ConnectTimeout cfg' <> 0%Z
  /\ MaxOpenConns cfg' <> 0%Z
  /\ MaxIdleConns cfg' <> 0%Z
  /\ ConnMaxLifetime cfg' <> 0%Z
  /\ (SSLMode cfg <> EmptyString -> SSLMode cfg' = SSLMode cfg)
  /\ (ApplicationName cfg <> EmptyString -> ApplicationName cfg' = ApplicationName cfg)
  /\ (ConnectTimeout cfg <> 0%Z -> ConnectTimeout cfg' = ConnectTimeout cfg)
  /\ (MaxOpenConns cfg <> 0%Z -> MaxOpenConns cfg' = MaxOpenConns cfg)
  /\ (MaxIdleConns cfg <> 0%Z -> MaxIdleConns cfg' = MaxIdleConns cfg)
  /\ (ConnMaxLifetime cfg <> 0%Z -> ConnMaxLifetime cfg' = ConnMaxLifetime cfg)
  /\ withDefaults cfg' = cfg'.
Proof.
  intros cfg'. subst cfg'. cbn [NewCLIWithConfig config].
  destruct cfg as [ho po us pw da ssl ct st mo mi ml app sp tz cp].
  unfold withDefaults. cbn [Host Port Username Password Database SSLMode ConnectTimeout
    StatementTimeout MaxOpenConns MaxIdleConns ConnMaxLifetime ApplicationName SearchPath
    TimeZone CustomParams].
  split; [reflexivity |].
  split; [apply default_string_not_empty; discriminate |].
  split; [apply default_string_not_empty; discriminate |].
  split; [apply default_Z_not_zero; discriminate |].
  split; [apply default_Z_not_zero; discriminate |].
  split; [apply default_Z_not_zero; discriminate |].
  split; [apply default_Z_not_zero; discriminate |].
  split; [intros H; destruct (String.eqb_spec ssl EmptyString); [contradiction | reflexivity] |].
  split; [intros H; destruct (String.eqb_spec app EmptyString); [contradiction | reflexivity] |].
  split; [intros H; destruct (Z.eqb_spec ct 0); [contradiction | reflexivity] |].
  split; [intros H; destruct (Z.eqb_spec mo 0); [contradiction | reflexivity] |].
  split; [intros H; destruct (Z.eqb_spec mi 0); [contradiction | reflexivity] |].
  split; [intros H; destruct (Z.eqb_spec ml 0); [contradiction | reflexivity] |].
  destruct (String.eqb_spec ssl EmptyString) as [-> | Hssl];
    destruct (String.eqb_spec app EmptyString) as [-> | Happ];
    destruct (Z.eqb_spec ct 0) as [-> | Hct];
    destruct (Z.eqb_spec mo 0) as [-> | Hmo];
    destruct (Z.eqb_spec mi 0) as [-> | Hmi];
    destruct (Z.eqb_spec ml 0) as [-> | Hml];
    cbn [String.eqb Ascii.eqb Bool.eqb Z.eqb Z.mul Pos.mul Second Hour];
    repeat match goal with
           | H : ?x <> EmptyString |- context [(?x =? EmptyString)%string] =>
               destruct (String.eqb_spec x EmptyString); [contradiction |]
           | H : ?x <> 0%Z |- context [(?x =? 0)%Z] =>
               destruct (Z.eqb_spec x 0); [contradiction |]
           end;
    reflexivity.
Qed.

(** ** Connect and Close *)

(** X17.  Connect reports its failures by the error it returns and writes
    nothing.  When [sql.Open] fails the session is left without a handle.
    When the ping fails, the new handle has been given the pool settings
    of the configuration, is closed, and stays in the session as its
    handle: a Close of the session after that closes the same handle a
    second time. *)
Theorem Connect_failures env c h :
  let dsn := connectDSN (config c) in
  let d := mkDB (List.length h) dsn in
  let pooled := [CSetConnMaxLifetime d (ConnMaxLifetime (config c));
                 CSetMaxIdleConns d (MaxIdleConns (config c));
                 CSetMaxOpenConns d (MaxOpenConns (config c));
                 COpen dsn] in
  (forall e, open_error env h dsn = Some e ->
     Connect env (mkState c h) = (Done (Some e), mkState (set_db None c) (COpen dsn :: h)))
  /\ (forall e, open_error env h dsn = None ->
        ping_error env (pooled ++ h) d = Some e ->
        Connect env (mkState c h)
        = (Done (Some e), mkState (set_db (Some d) c) (CClose d :: CPing d :: pooled ++ h))
        /\ Close (snd (Connect env (mkState c h)))
           = (Done None,
              mkState (set_db (Some d) c) (CClose d :: CClose d :: CPing d :: pooled ++ h))).
Proof.
  intros dsn d pooled. subst pooled d. split.
  - intros e He. unfold Connect, bind, getCLI, sql_Open, modifyCLI, ret. cbn [cli history].
    fold dsn. rewrite He. reflexivity.
  - intros e He Hp.
    assert (E : Connect env (mkState c h)
                = (Done (Some e),
                   mkState (set_db (Some (mkDB (List.length h) dsn)) c)
                     (CClose (mkDB (List.length h) dsn)
                        :: CPing (mkDB (List.length h) dsn)
                        :: [CSetConnMaxLifetime (mkDB (List.length h) dsn) (ConnMaxLifetime (config c));
                            CSetMaxIdleConns (mkDB (List.length h) dsn) (MaxIdleConns (config c));
                            CSetMaxOpenConns (mkDB (List.length h) dsn) (MaxOpenConns (config c));
                            COpen dsn] ++ h))).
    { unfold Connect, bind, getCLI, sql_Open, modifyCLI, ret, db_Ping, db_Close, call.
      cbn [cli history]. fold dsn. rewrite He. cbn [cli history fst snd app] in *.
      rewrite Hp. reflexivity. }
    split; [exact E |]. rewrite E. destruct c. reflexivity.
Qed.

Lemma Connect_failures_witness :
  fst (Connect envDown (mkState (NewCLI [] "localhost" 5432%Z "postgres" "password" "testdb") []))
  = Done (Some "connection refused")
  /\ term (cli (snd (Connect envDown
                       (mkState (NewCLI [] "localhost" 5432%Z "postgres" "password" "testdb") []))))
     = EmptyString.
Proof.
  destruct (Connect_failures envDown
              (NewCLI [] "localhost" 5432%Z "postgres" "password" "testdb") []) as [_ H].
  destruct (H "connection refused" eq_refl eq_refl) as [E _].
  rewrite E. split; reflexivity.
Defined.

(** * The byte-by-byte line source *)

Lemma substring_all_of_append a :
  forall b, substring 0 (String.length a) (a ++ b) = a.
Proof.
  induction a as [| x a IH]; intros b; cbn.
  - destruct b; reflexivity.
  - rewrite IH. reflexivity.
Qed.

Lemma dropLast_append_char line ch :
  RawReader.dropLast (line ++ String ch EmptyString) = line.
Proof.
  unfold RawReader.dropLast. rewrite length_append. cbn [String.length].
  replace (String.length line + 1 - 1) with (String.length line) by lia.
  apply substring_all_of_append.
Qed.

Lemma printableChar_kept ch :
  RawReader.printableChar ch = true ->
  ((nat_of_ascii ch =? 10) || (nat_of_ascii ch =? 13)) = false
  /\ ((nat_of_ascii ch =? 127) || (nat_of_ascii ch =? 8)) = false.
Proof.
  unfold RawReader.printableChar. intros H. apply andb_prop in H. destruct H as [H1 H2].
  apply Nat.leb_le in H1. apply Nat.ltb_lt in H2.
  split; apply Bool.orb_false_iff; split; apply Nat.eqb_neq; lia.
Qed.

Lemma rawLoop_printable_char line w ch rest :
  RawReader.printableChar ch = true ->
  RawReader.readLoop line w (RawReader.RdByte ch :: rest)
  = RawReader.readLoop (line ++ String ch EmptyString) (w ++ RawReader.echoOf ch) rest.
Proof.
  intros H. destruct (printableChar_kept ch H) as [H1 H2].
  cbn [RawReader.readLoop]. cbv zeta. rewrite H1, H2.
  unfold RawReader.printableChar in H. rewrite H. reflexivity.
Qed.

Lemma rawLoop_typed :
  forall s line w rest,
    RawReader.printable s = true ->
    RawReader.readLoop line w (RawReader.typed s ++ rest)
    = RawReader.readLoop (line ++ s) (w ++ RawReader.echoAll s) rest.
Proof.
  induction s as [| ch s IH]; intros line w rest H.
  - cbn. rewrite !append_empty_r. reflexivity.
  - cbn [RawReader.printable] in H. apply andb_prop in H. destruct H as [Hc Hs].
    unfold RawReader.typed. cbn [list_ascii_of_string map app].
    rewrite (rawLoop_printable_char _ _ _ _ Hc).
    fold (RawReader.typed s). rewrite (IH _ _ _ Hs).
    cbn [RawReader.echoAll]. rewrite !append_assoc. reflexivity.
Qed.

(** X18.  A line typed in printable characters (codes 32 to 126) and
    ended by a line feed comes back from ReadLine as it was typed, with
    no error; the reads that follow the line feed are left for the next
    call, and every character has been written back to the terminal
    (a percent sign as the text [%!(NOVERB)], since the character is
    used as the format). *)
Theorem raw_ReadLine_returns_typed_line s rest w :
  RawReader.printable s = true ->
  RawReader.ReadLine
    (RawReader.mkReader (RawReader.typed s ++ RawReader.RdByte (ascii_of_nat 10) :: rest) w)
  = ((s, None), RawReader.mkReader rest (w ++ RawReader.echoAll s)).
Proof.
  intros H. unfold RawReader.ReadLine. cbn [RawReader.term_in RawReader.writer].
  rewrite (rawLoop_typed s EmptyString w _ H). reflexivity.
Qed.

Lemma raw_ReadLine_returns_typed_line_witness :
  RawReader.ReadLine
    (RawReader.mkReader (RawReader.typed "select 100 % 7;"
                           ++ RawReader.RdByte (ascii_of_nat 10) :: RawReader.typed "\q")
                        EmptyString)
  = (("select 100 % 7;", None),
     RawReader.mkReader (RawReader.typed "\q") "select 100 %!(NOVERB) 7;").
Proof.
  exact (raw_ReadLine_returns_typed_line "select 100 % 7;" (RawReader.typed "\q")
           EmptyString eq_refl).
Defined.

(** X19.  A backspace (code 127 or 8) takes back the printable character
    typed before it: the loop goes on with the line it had before the
    character, having written the character and then the erase
    sequence. *)
Theorem raw_backspace_takes_back_a_character line w ch bs rest :
  RawReader.printableChar ch = true ->
  nat_of_ascii bs = 127 \/ nat_of_ascii bs = 8 ->
  RawReader.readLoop line w (RawReader.RdByte ch :: RawReader.RdByte bs :: rest)
  = RawReader.readLoop line ((w ++ RawReader.echoOf ch) ++ RawReader.backspaceEcho) rest.
Proof.
  intros Hc Hbs. rewrite (rawLoop_printable_char _ _ _ _ Hc).
  cbn [RawReader.readLoop]. cbv zeta.
  assert (H1 : ((nat_of_ascii bs =? 10) || (nat_of_ascii bs =? 13)) = false)
    by (destruct Hbs as [-> | ->]; reflexivity).
  assert (H2 : ((nat_of_ascii bs =? 127) || (nat_of_ascii bs =? 8)) = true)
    by (destruct Hbs as [-> | ->]; reflexivity).
  rewrite H1, H2.
  assert (H3 : (0 <? String.length (line ++ String ch EmptyString)) = true)
    by (apply Nat.ltb_lt; rewrite length_append; cbn; lia).
  rewrite H3, dropLast_append_char. reflexivity.
Qed.

Lemma raw_backspace_takes_back_a_character_witness :
  fst (RawReader.readLoop "selec" EmptyString
         [RawReader.RdByte "x"; RawReader.RdByte (ascii_of_nat 127);
          RawReader.RdByte "t"; RawReader.RdByte (ascii_of_nat 10)])
  = ("select", None).
Proof.
  rewrite (raw_backspace_takes_back_a_character "selec" EmptyString "x" (ascii_of_nat 127)
             [RawReader.RdByte "t"; RawReader.RdByte (ascii_of_nat 10)]
             eq_refl (or_introl eq_refl)).
  reflexivity.
Defined.

Lemma printable_append a b :
  RawReader.printable a = true -> RawReader.printable b = true ->
  RawReader.printable (a ++ b) = true.
Proof.
  induction a as [| x a IH]; intros Ha Hb; [exact Hb |].
  cbn [RawReader.printable append] in *. apply andb_prop in Ha. destruct Ha as [Hx Ha].
  rewrite Hx, (IH Ha Hb). reflexivity.
Qed.

Lemma printable_substring :
  forall s i n, RawReader.printable s = true -> RawReader.printable (substring i n s) = true.
Proof.
  induction s as [| x s IH]; intros i n H.
  - destruct i, n; reflexivity.
  - cbn [RawReader.printable] in H. apply andb_prop in H. destruct H as [Hx Hs].
    destruct i as [| i]; cbn [substring].
    + destruct n as [| n]; [reflexivity |].
      cbn [RawReader.printable]. rewrite Hx, (IH 0 n Hs). reflexivity.
    + apply IH. exact Hs.
Qed.

(** X20.  Whatever the terminal delivers, the line ReadLine returns holds
    printable characters only: control characters and bytes above 126
    never enter it. *)
Theorem raw_ReadLine_line_is_printable r :
  RawReader.printable (fst (fst (RawReader.ReadLine r))) = true.
Proof.
  unfold RawReader.ReadLine.
  assert (H : forall inp line w,
             RawReader.printable line = true ->
             RawReader.printable (fst (fst (RawReader.readLoop line w inp))) = true).
  { induction inp as [| ev rest IH]; intros line w Hl; [reflexivity |].
    destruct ev as [ch | | msg]; cbn [RawReader.readLoop]; [| apply IH; exact Hl | reflexivity].
    cbv zeta.
    destruct ((nat_of_ascii ch =? 10) || (nat_of_ascii ch =? 13)); [exact Hl |].
    destruct ((nat_of_ascii ch =? 127) || (nat_of_ascii ch =? 8)).
    - destruct (0 <? String.length line); [| apply IH; exact Hl].
      apply IH. apply printable_substring. exact Hl.
    - destruct ((32 <=? nat_of_ascii ch) && (nat_of_ascii ch <? 127)) eqn:E;
        [| apply IH; exact Hl].
      apply IH. apply printable_append; [exact Hl |].
      cbn [RawReader.printable]. unfold RawReader.printableChar. rewrite E. reflexivity. }
  apply H. reflexivity.
Qed.



(** * Statements and the session *)

Lemma set_term_of_set_term t1 t2 c : set_term t2 (set_term t1 c) = set_term t2 c.
Proof. destruct c. reflexivity. Qed.

Lemma set_term_own c : set_term (term c) c = c.
Proof. destruct c. reflexivity. Qed.

Lemma terminal_ret {A} (a : A) : changesOnlyTerminal (ret a).
Proof. intros s. exists (term (cli s)). cbn. rewrite set_term_own. reflexivity. Qed.

Lemma terminal_panic {A} msg : changesOnlyTerminal (@panic A msg).
Proof. intros s. exists (term (cli s)). cbn. rewrite set_term_own. reflexivity. Qed.

Lemma terminal_getCLI : changesOnlyTerminal getCLI.
Proof. intros s. exists (term (cli s)). cbn. rewrite set_term_own. reflexivity. Qed.

Lemma terminal_call {A} ev (answer : list Call -> A) : changesOnlyTerminal (call ev answer).
Proof. intros s. exists (term (cli s)). cbn. rewrite set_term_own. reflexivity. Qed.

Lemma terminal_Fprintf text : changesOnlyTerminal (Fprintf text).
Proof. intros s. exists (term (cli s) ++ text). reflexivity. Qed.

Lemma terminal_bind {A B} (m : M A) (k : A -> M B) :
  changesOnlyTerminal m -> (forall a, changesOnlyTerminal (k a)) ->
  changesOnlyTerminal (bind m k).
Proof.
  intros Hm Hk s. unfold bind. destruct (Hm s) as [t1 E1].
  destruct (m s) as [[a | msg] s1]; cbn [snd] in *.
  - destruct (Hk a s1) as [t2 E2]. exists t2. rewrite E2, E1. apply set_term_of_set_term.
  - exists t1. exact E1.
Qed.

Lemma terminal_when b m : changesOnlyTerminal m -> changesOnlyTerminal (when b m).
Proof. intros Hm. destruct b; [exact Hm | apply terminal_ret]. Qed.

Create HintDb terminal.
#[local] Hint Resolve terminal_ret terminal_panic terminal_getCLI terminal_call
  terminal_Fprintf terminal_when : terminal.

Ltac terminal_step :=
  match goal with
  | |- changesOnlyTerminal (bind _ _) => apply terminal_bind; [| intro]
  | |- changesOnlyTerminal (match ?x with _ => _ end) => destruct x
  | |- changesOnlyTerminal _ => solve [auto with terminal]
  end.

Ltac terminal := repeat terminal_step.

Lemma terminal_theDB : changesOnlyTerminal theDB.
Proof. unfold theDB. terminal. Qed.
#[local] Hint Resolve terminal_theDB : terminal.

Lemma terminal_printTiming env t : changesOnlyTerminal (printTiming env t).
Proof. unfold printTiming, time_Now. terminal. Qed.
#[local] Hint Resolve terminal_printTiming : terminal.

Lemma terminal_executeQuery env timeout sqlStr t :
  changesOnlyTerminal (executeQuery env timeout sqlStr t).
Proof.
  unfold executeQuery, displayTable, displayExpanded, printError. cbv zeta. terminal.
Qed.

Lemma terminal_executeCommand env timeout sqlStr t :
  changesOnlyTerminal (executeCommand env timeout sqlStr t).
Proof. unfold executeCommand, db_ExecContext, printError. terminal. Qed.

(** X22.  An ASCII statement that is none of the four transaction
    keywords changes nothing in the session but the text on the terminal,
    whatever the backend does with it: the flag inTransaction, the
    display flags, the connection and the database name are as before.
    (So [BEGIN WORK] or [begin isolation level serializable], which open
    a transaction on the server, leave the prompt without its mark.) *)
Theorem other_statements_change_only_the_terminal env sqlStr s :
  isASCII sqlStr = true ->
  transactionKeyword (ToUpper (strippedStatement sqlStr)) = None ->
  exists text, cli (snd (executeSQL env sqlStr s)) = set_term text (cli s).
Proof.
  intros _ Hkw.
  assert (H : changesOnlyTerminal (executeSQL env sqlStr)).
  { intros s0. rewrite executeSQL_by_kind. revert s0.
    change (changesOnlyTerminal
              (startTime <- time_Now env ;;
               if (strippedStatement sqlStr =? EmptyString)%string then ret tt
               else match transactionKeyword (ToUpper (strippedStatement sqlStr)) with
                    | Some (flag, keyword) => transactionControl env flag keyword startTime
                    | None =>
                        if isQuery (strippedStatement sqlStr)
                        then executeQuery env (60 * Second)%Z (strippedStatement sqlStr) startTime
                        else executeCommand env (60 * Second)%Z (strippedStatement sqlStr) startTime
                    end)).
    rewrite Hkw. unfold time_Now.
    apply terminal_bind; [auto with terminal | intro startTime].
    destruct (_ =? EmptyString)%string; [auto with terminal |].
    destruct (isQuery _); [apply terminal_executeQuery | apply terminal_executeCommand]. }
  exact (H s).
Qed.

Lemma other_statements_change_only_the_terminal_witness :
  exists text,
    cli (snd (executeSQL envUp "BEGIN WORK;" (sampleState [])))
    = set_term text (cli (sampleState [])).
Proof.
  exact (other_statements_change_only_the_terminal envUp "BEGIN WORK;" (sampleState [])
           eq_refl eq_refl).
Defined.

(** ** Queries and their result stream *)

Lemma displayTable_result env rows cols colTypes startTime c h :
  exists text,
    displayTable env rows cols colTypes startTime (mkState c h)
    = (Done (skipn (fetchCount (maxRows c) 0 (rows_pending rows)) (rows_pending rows)),
       mkState (set_term text c) ((if timingEnabled c then [CNow] else []) ++ h)).
Proof.
  unfold displayTable, bind, getCLI. cbn [cli].
  pose proof (collectRows_spec (maxRows c) (List.length cols) (rows_pending rows)
                (map headerWidth cols) [] (length_map _ _) (headerWidths_bounded cols)) as E.
  cbv zeta in E. cbn [List.length] in E. rewrite E.
  destruct c as [t cfg dbh rd si ex tm mr it dbn]. destruct tm; eexists; reflexivity.
Qed.

Lemma displayExpanded_result env rows cols startTime c h :
  (0 < maxRows c <= 1000)%Z ->
  exists text,
    displayExpanded env rows cols startTime (mkState c h)
    = (Done (skipn (fetchCount (maxRows c) 0 (rows_pending rows)) (rows_pending rows), false),
       mkState (set_term text c) ((if timingEnabled c then [CNow] else []) ++ h)).
Proof.
  intros [Hlo Hhi].
  pose proof (expandedLoop_no_panic (maxRows c) cols Hhi (rows_pending rows) 0 Hlo) as Hp.
  destruct (expandedLoop_spec (maxRows c) cols (rows_pending rows) 0)
    as [text [j [p [_ [Hj [E _]]]]]].
  rewrite E in Hp. cbn [snd] in Hp. subst p. specialize (Hj eq_refl). subst j.
  unfold displayExpanded, bind, getCLI. cbn [cli]. rewrite E.
  destruct c as [t cfg dbh rd si ex tm mr it dbn].
  destruct (0 + _ =? 0); destruct tm; eexists; reflexivity.
Qed.

(** X23.  A query that the backend answers with a result stream always has
    that stream closed again, in table mode and in expanded mode alike,
    after min(rows in the stream, row cap) rows have been fetched
    from it; executeQuery ends without panic (row cap as in every
    session: between 1 and 1000). *)
Theorem query_stream_is_closed env timeout sqlStr startTime c h d rows :
  db c = Some d ->
  query_result env h d timeout sqlStr = inr rows ->
  (0 < maxRows c <= 1000)%Z ->
  fst (executeQuery env timeout sqlStr startTime (mkState c h)) = Done tt
  /\ history (snd (executeQuery env timeout sqlStr startTime (mkState c h)))
     = (CRowsClose d (Nat.min (List.length (rows_pending rows)) (Z.to_nat (maxRows c)))
          :: (if timingEnabled c then [CNow] else [])
          ++ CQuery d timeout sqlStr :: h)%list.
Proof.
  intros Hdb Hq Hcap.
  assert (Hn : fetchCount (maxRows c) 0 (rows_pending rows)
               = Nat.min (List.length (rows_pending rows)) (Z.to_nat (maxRows c)))
    by (apply fetchCount_under_cap; lia).
  assert (Hfetched : List.length (rows_pending rows)
                     - List.length (skipn (fetchCount (maxRows c) 0 (rows_pending rows))
                                          (rows_pending rows))
                     = Nat.min (List.length (rows_pending rows)) (Z.to_nat (maxRows c))).
  { rewrite length_skipn, Hn. lia. }
  assert (Hrun : exists text,
             executeQuery env timeout sqlStr startTime (mkState c h)
             = (Done tt,
                mkState (set_term text c)
                  (CRowsClose d (Nat.min (List.length (rows_pending rows))
                                         (Z.to_nat (maxRows c)))
                     :: (if timingEnabled c then [CNow] else [])
                     ++ CQuery d timeout sqlStr :: h)%list)).
  { unfold executeQuery.
    rewrite (bind_done theDB _ (mkState c h) d (mkState c h))
      by (unfold theDB, bind, getCLI; cbn [cli]; rewrite Hdb; reflexivity).
    rewrite (bind_done _ _ (mkState c h) (inr rows) (mkState c (CQuery d timeout sqlStr :: h)))
      by (unfold call; cbn [cli history]; rewrite Hq; reflexivity).
    cbv zeta.
    rewrite (bind_done getCLI _ _ c (mkState c (CQuery d timeout sqlStr :: h))) by reflexivity.
    destruct (expandedMode c).
    - destruct (displayExpanded_result env rows (rows_cols rows) startTime c
                  (CQuery d timeout sqlStr :: h) Hcap) as [text E].
      rewrite (bind_done _ _ _ _ _ E). cbn [fst snd]. rewrite Hfetched.
      exists text. reflexivity.
    - destruct (displayTable_result env rows (rows_cols rows) (rows_types rows) startTime c
                  (CQuery d timeout sqlStr :: h)) as [text E].
      rewrite (bind_done _ _ _ _ _ E). rewrite Hfetched.
      exists text. reflexivity. }
  destruct Hrun as [text ->]. split; reflexivity.
Qed.

Lemma query_stream_is_closed_witness :
  history (snd (executeQuery envUp (60 * Second)%Z "select 1" 0%Z (sampleState [])))
  = CRowsClose (mkDB 0 "host=localhost port=5432 user=postgres password=password dbname=testdb sslmode=disable connect_timeout=10 application_name=psql") 3
      :: CQuery (mkDB 0 "host=localhost port=5432 user=postgres password=password dbname=testdb sslmode=disable connect_timeout=10 application_name=psql")
                (60 * Second)%Z "select 1"
      :: history (sampleState []).
Proof.
  destruct (query_stream_is_closed envUp (60 * Second)%Z "select 1" 0%Z (sampleCLI [])
              (history (sampleState []))
              (mkDB 0 "host=localhost port=5432 user=postgres password=password dbname=testdb sslmode=disable connect_timeout=10 application_name=psql")
              (mkRows ["id"; "name"] ["int4"; "text"] sampleRows)
              eq_refl eq_refl) as [_ H].
  - split; [reflexivity | discriminate].
  - exact H.
Defined.

(** * The texts written to the terminal *)

(** ** Steps of a run *)

Lemma Fprintf_last c h t1 text :
  Fprintf text (mkState (set_term (term c ++ t1) c) h)
  = (Done tt, mkState (set_term (term c ++ t1 ++ text) c) h).
Proof. unfold Fprintf, modifyCLI. cbn [cli history]. rewrite set_term_twice. reflexivity. Qed.

Lemma timing_after {B} env startTime c h t1 (k : unit -> M B) :
  bind (when (timingEnabled c) (printTiming env startTime)) k
       (mkState (set_term (term c ++ t1) c) h)
  = k tt (mkState (set_term (term c ++ t1 ++ timingText env (timingEnabled c) h startTime) c)
                  ((if timingEnabled c then [CNow] else []) ++ h)%list).
Proof.
  unfold timingText. destruct (timingEnabled c).
  - unfold when, printTiming, time_Now, bind, call, Fprintf, modifyCLI. cbn [cli history].
    rewrite set_term_twice. reflexivity.
  - unfold when, bind, ret. rewrite append_empty_r. reflexivity.
Qed.

Lemma started_writing c h : mkState c h = mkState (set_term (term c ++ EmptyString) c) h.
Proof. rewrite set_term_same. reflexivity. Qed.

Lemma Repeat_blanks n : Repeat " " n = blanks n.
Proof. induction n as [| n IH]; [reflexivity |]. cbn [Repeat blanks]. rewrite IH. reflexivity. Qed.

Lemma Repeat_dashes n : Repeat "-" n = dashes n.
Proof. induction n as [| n IH]; [reflexivity |]. cbn [Repeat dashes]. rewrite IH. reflexivity. Qed.

Lemma padRight_leftAligned w cell : padRight w cell = leftAligned w cell.
Proof. unfold padRight, leftAligned. rewrite Repeat_blanks. reflexivity. Qed.

(** ** Table mode: the grid written *)

Lemma tableCells_concat :
  forall cells ws,
    List.length cells <= List.length ws ->
    tableCells ws cells
    = String.concat "| "
        (map (fun wc => leftAligned (fst wc) (snd wc) ++ " ") (combine ws cells)).
Proof.
  induction cells as [| cell cells IH]; intros [| w ws] H; cbn [List.length] in H;
    try reflexivity.
  destruct cells as [| cell2 cells].
  - destruct ws; cbn; rewrite padRight_leftAligned; reflexivity.
  - destruct ws as [| w2 ws]; [cbn [List.length] in H; lia |].
    specialize (IH (w2 :: ws)). cbn [List.length] in IH, H.
    change (tableCells (w :: w2 :: ws) (cell :: cell2 :: cells))
      with (padRight w cell ++ " " ++ "| " ++ tableCells (w2 :: ws) (cell2 :: cells)).
    rewrite IH by lia. rewrite padRight_leftAligned.
    cbn [combine map String.concat fst snd]. rewrite !append_assoc. reflexivity.
Qed.

Lemma gridLine_tableCells ws cells :
  List.length cells <= List.length ws ->
  " " ++ tableCells ws cells = gridLine ws cells.
Proof. intros H. unfold gridLine. rewrite (tableCells_concat cells ws H). reflexivity. Qed.

Lemma dashLine_separatorCells : forall ws, separatorCells ws = dashLine ws.
Proof.
  unfold dashLine. induction ws as [| w ws IH]; [reflexivity |].
  cbn [separatorCells]. rewrite IH, Repeat_dashes.
  destruct ws as [| w2 ws]; cbn [map String.concat]; [apply append_empty_r | reflexivity].
Qed.

(** The widths the row loop ends with, column by column. *)
Lemma widenAll_headers cols shown :
  widenAll (List.length cols) shown (map headerWidth cols)
  = map (columnWidth cols shown) (seq 0 (List.length cols)).
Proof.
  apply (nth_ext _ _ 0 0).
  - rewrite widenAll_length by apply length_map. rewrite length_map, length_seq. reflexivity.
  - intros i Hi. rewrite widenAll_length in Hi by apply length_map.
    assert (Hh : nth i (map headerWidth cols) 0 = headerWidth (nth i cols EmptyString)).
    { rewrite (nth_indep _ 0 (headerWidth EmptyString)) by (rewrite length_map; exact Hi).
      apply map_nth. }
    rewrite (widenAll_nth (List.length cols) i Hi shown (map headerWidth cols));
      [| apply length_map | rewrite Hh, headerWidth_clamps; lia].
    rewrite Hh, headerWidth_clamps.
    rewrite (nth_indep _ 0 (columnWidth cols shown 0))
      by (rewrite length_map, length_seq; exact Hi).
    rewrite (map_nth (columnWidth cols shown) (seq 0 (List.length cols)) 0 i).
    rewrite seq_nth by exact Hi. unfold columnWidth. cbn [Nat.add]. lia.
Qed.

Lemma append_six (a b c d e f : string) :
  (((((EmptyString ++ a) ++ b) ++ c) ++ d) ++ e) ++ f = a ++ b ++ c ++ d ++ e ++ f.
Proof. rewrite !append_assoc. reflexivity. Qed.

(** A run of displayTable: what it returns, what it writes and the calls
    it makes. *)
Lemma displayTable_run env rows cols colTypes startTime c h :
  let ncols := List.length cols in
  let shown := firstn (fetchCount (maxRows c) 0 (rows_pending rows)) (rows_pending rows) in
  let widths := map (columnWidth cols shown) (seq 0 ncols) in
  displayTable env rows cols colTypes startTime (mkState c h)
  = (Done (skipn (fetchCount (maxRows c) 0 (rows_pending rows)) (rows_pending rows)),
     mkState
       (set_term
          (term c ++ (gridLine widths cols ++ nl) ++ (dashLine widths ++ nl)
           ++ String.concat EmptyString
                (map (fun r => gridLine widths (map renderCell (Scan ncols r)) ++ nl) shown)
           ++ rowCountLine (List.length shown)
           ++ timingText env (timingEnabled c) h startTime
           ++ nl) c)
       ((if timingEnabled c then [CNow] else []) ++ h)%list).
Proof.
  intros ncols shown widths.
  unfold displayTable. rewrite (bind_done getCLI _ (mkState c h) c (mkState c h)) by reflexivity.
  pose proof (collectRows_spec (maxRows c) (List.length cols) (rows_pending rows)
                (map headerWidth cols) [] (length_map _ _) (headerWidths_bounded cols)) as E.
  cbv zeta in E. cbn [List.length app] in E. rewrite E. clear E.
  fold shown. rewrite (widenAll_headers cols shown). fold ncols. fold widths.
  rewrite (started_writing c h), !Fprintf_after, timing_after, Fprintf_after.
  unfold ret. rewrite append_six, length_map, map_map.
  assert (Hw : List.length widths = ncols)
    by (subst widths; rewrite length_map, length_seq; reflexivity).
  assert (Hrows : map (fun r => " " ++ tableCells widths (map renderCell (Scan ncols r)) ++ nl)
                      shown
                  = map (fun r => gridLine widths (map renderCell (Scan ncols r)) ++ nl) shown).
  { apply map_ext. intros r.
    rewrite <- (gridLine_tableCells widths (map renderCell (Scan ncols r)))
      by (rewrite length_map, Scan_length, Hw; reflexivity).
    reflexivity. }
  rewrite Hrows, dashLine_separatorCells.
  rewrite <- (gridLine_tableCells widths cols) by (rewrite Hw; reflexivity).
  reflexivity.
Qed.



(** ** Table mode: the length of the lines written *)

Lemma length_gridLine ws cells :
  Forall2 (fun cell w => String.length cell <= w) cells ws ->
  String.length (gridLine ws cells) = S (gridWidth ws).
Proof.
  intros H.
  assert (Hlen : List.length cells <= List.length ws)
    by (rewrite (Forall2_length H); apply Nat.le_refl).
  rewrite <- (gridLine_tableCells ws cells Hlen).
  change (String.length (" " ++ tableCells ws cells))
    with (S (String.length (tableCells ws cells))).
  rewrite (length_tableCells cells ws H). reflexivity.
Qed.

Lemma columnWidth_bounds cols shown i :
  columnWidth cols shown i <= 50
  /\ Nat.min 50 (String.length (nth i cols EmptyString)) <= columnWidth cols shown i
  /\ (forall r, In r shown ->
        Nat.min 50 (String.length (formatValue (nth i r VNil))) <= columnWidth cols shown i).
Proof.
  unfold columnWidth. split; [lia |]. split; [lia |].
  intros r Hin.
  assert (Hge : String.length (formatValue (nth i r VNil))
                <= list_max (map (fun r => String.length (formatValue (nth i r VNil))) shown)).
  { apply list_max_ge. apply in_map_iff. exists r. split; [reflexivity | exact Hin]. }
  lia.
Qed.

Lemma nth_columnWidths cols shown n i :
  i < n -> nth i (map (columnWidth cols shown) (seq 0 n)) 0 = columnWidth cols shown i.
Proof.
  intros Hi.
  rewrite (nth_indep _ 0 (columnWidth cols shown 0)) by (rewrite length_map, length_seq; exact Hi).
  rewrite (map_nth (columnWidth cols shown) (seq 0 n) 0 i).
  rewrite seq_nth by exact Hi. reflexivity.
Qed.

(** X14.  The lines of the grid displayTable writes, for labels and
    values in ASCII text: every data line is one character longer than
    the line of dashes under the header (the data lines begin with a
    blank, the line of dashes does not), and so is the header line when
    no label is longer than 50 characters. *)
Theorem table_lines_are_one_longer_than_the_dashes env rows cols colTypes startTime c h :
  let ncols := List.length cols in
  let shown := firstn (fetchCount (maxRows c) 0 (rows_pending rows)) (rows_pending rows) in
  let widths := map (columnWidth cols shown) (seq 0 ncols) in
  let dataLine := fun r => gridLine widths (map renderCell (Scan ncols r)) in
  forallb isASCII cols = true ->
  forallb (fun r => forallb valueIsASCII (Scan ncols r)) shown = true ->
  term (cli (snd (displayTable env rows cols colTypes startTime (mkState c h))))
  = term c ++ (gridLine widths cols ++ nl) ++ (dashLine widths ++ nl)
    ++ String.concat EmptyString (map (fun r => dataLine r ++ nl) shown)
    ++ rowCountLine (List.length shown)
    ++ timingText env (timingEnabled c) h startTime
    ++ nl
  /\ (forall r, In r shown ->
        String.length (dataLine r) = S (String.length (dashLine widths)))
  /\ (Forall (fun col => String.length col <= 50) cols ->
      String.length (gridLine widths cols) = S (String.length (dashLine widths))).
Proof.
  intros ncols shown widths dataLine _ _.
  assert (Hw : List.length widths = ncols)
    by (subst widths; rewrite length_map, length_seq; reflexivity).
  assert (Hdash : String.length (dashLine widths) = gridWidth widths)
    by (rewrite <- dashLine_separatorCells; apply length_separatorCells).
  split; [rewrite displayTable_run; reflexivity |]. rewrite Hdash. split.
  - intros r Hr. subst dataLine. cbv beta. apply length_gridLine.
    apply (Forall2_by_nth _ EmptyString 0);
      [rewrite length_map, Scan_length, Hw; reflexivity |].
    intros i Hi. rewrite length_map, Scan_length in Hi.
    change EmptyString with (renderCell VNil) at 1. rewrite map_nth.
    rewrite length_renderCell, (Scan_nth _ _ _ Hi).
    subst widths. rewrite (nth_columnWidths cols shown ncols i Hi).
    apply (proj2 (proj2 (columnWidth_bounds cols shown i)) r Hr).
  - intros Hcols. apply length_gridLine.
    apply (Forall2_by_nth _ EmptyString 0); [rewrite Hw; reflexivity |].
    intros i Hi. subst widths. rewrite (nth_columnWidths cols shown ncols i Hi).
    rewrite Forall_forall in Hcols.
    specialize (Hcols (nth i cols EmptyString) (nth_In _ _ Hi)).
    pose proof (proj1 (proj2 (columnWidth_bounds cols shown i))). lia.
Qed.

Lemma table_lines_are_one_longer_than_the_dashes_witness :
  String.length (gridLine [4; 4] ["id"; "name"]) = 13
  /\ String.length (dashLine [4; 4]) = 12
  /\ String.length (gridLine [4; 4] ["1"; "Ada"]) = 13.
Proof.
  destruct (table_lines_are_one_longer_than_the_dashes envUp
              (mkRows ["id"; "name"] ["int4"; "text"] [[VInt 1; VString "Ada"]])
              ["id"; "name"] ["int4"; "text"] 0%Z (sampleCLI []) (history (sampleState []))
              eq_refl eq_refl) as [_ [Hrows Hheader]].
  split; [| split].
  - apply Hheader. repeat constructor.
  - reflexivity.
  - apply (Hrows [VInt 1; VString "Ada"]). left. reflexivity.
Defined.

(** ** The command tag *)

(** The tag of executeCommand is the keyword the statement begins with. *)
Lemma commandTag_leading_keyword sqlStr :
  commandTag sqlStr = leadingCommandKeyword (TrimSpace sqlStr).
Proof.
  unfold commandTag, leadingCommandKeyword. cbv zeta.
  rewrite !HasPrefix_ToUpper_keyword by reflexivity. reflexivity.
Qed.

(** X13.  When the backend accepts an ASCII statement, executeCommand
    writes the keyword the statement begins with (trimmed, the case of
    letters ignored) when that is one of INSERT, UPDATE, DELETE, CREATE,
    DROP and ALTER, and the word COMMAND otherwise, followed by the
    number of rows affected; then the timing line when timing is on, and
    an empty line. *)
Theorem executeCommand_reports_leading_keyword env timeout sqlStr startTime c h d n :
  isASCII sqlStr = true ->
  db c = Some d ->
  exec_result env h d timeout sqlStr = inr n ->
  executeCommand env timeout sqlStr startTime (mkState c h)
  = (Done tt,
     mkState
       (set_term
          (term c ++ leadingCommandKeyword (TrimSpace sqlStr) ++ " " ++ itoa n ++ nl
           ++ timingText env (timingEnabled c) (CExec d timeout sqlStr :: h) startTime
           ++ nl) c)
       ((if timingEnabled c then [CNow] else []) ++ CExec d timeout sqlStr :: h)%list).
Proof.
  intros _ Hdb Hexec. unfold executeCommand.
  rewrite (bind_done _ _ (mkState c h) (inr n) (mkState c (CExec d timeout sqlStr :: h)))
    by (unfold db_ExecContext, bind, theDB, bind, getCLI, ret, call; cbn [cli history];
        rewrite Hdb; cbn [cli history]; rewrite Hexec; reflexivity).
  rewrite (started_writing c (CExec d timeout sqlStr :: h)), Fprintf_after.
  rewrite (bind_done getCLI _ _ _ _ eq_refl).
  change (timingEnabled (cli _)) with (timingEnabled c).
  rewrite timing_after. cbv beta. rewrite Fprintf_last, commandTag_leading_keyword.
  rewrite !append_assoc. reflexivity.
Qed.

Lemma executeCommand_reports_leading_keyword_witness :
  term (cli (snd (executeCommand envUp (60 * Second)%Z "  insert into t values (1)" 0%Z
                    (sampleState []))))
  = "INSERT 0" ++ nl ++ nl
  /\ term (cli (snd (executeCommand envUp (60 * Second)%Z "vacuum t" 0%Z (sampleState []))))
     = "COMMAND 0" ++ nl ++ nl.
Proof.
  change (sampleState []) with (mkState (sampleCLI []) (history (sampleState []))).
  split.
  - rewrite (executeCommand_reports_leading_keyword envUp (60 * Second)%Z
               "  insert into t values (1)" 0%Z (sampleCLI []) (history (sampleState []))
               (mkDB 0 "host=localhost port=5432 user=postgres password=password dbname=testdb sslmode=disable connect_timeout=10 application_name=psql")
               0%Z eq_refl eq_refl eq_refl).
    reflexivity.
  - rewrite (executeCommand_reports_leading_keyword envUp (60 * Second)%Z
               "vacuum t" 0%Z (sampleCLI []) (history (sampleState []))
               (mkDB 0 "host=localhost port=5432 user=postgres password=password dbname=testdb sslmode=disable connect_timeout=10 application_name=psql")
               0%Z eq_refl eq_refl eq_refl).
    reflexivity.
Defined.

(** ** Describing a table *)

Lemma concat_empty_cons x xs :
  String.concat EmptyString (x :: xs) = x ++ String.concat EmptyString xs.
Proof. destruct xs; cbn [String.concat]; [rewrite append_empty_r |]; reflexivity. Qed.

Lemma describeCells_in_range :
  forall cells ws,
    List.length cells <= List.length ws -> snd (describeCells ws cells) = false.
Proof.
  induction cells as [| cell cells IH]; intros ws H; [destruct ws; reflexivity |].
  destruct ws as [| w ws]; cbn [List.length] in H; [lia |].
  cbn [describeCells]. specialize (IH ws).
  destruct (describeCells ws cells) as [t p]. cbn [snd] in *. apply IH. lia.
Qed.

Lemma describeCells_concat :
  forall cells ws,
    List.length cells <= List.length ws ->
    fst (describeCells ws cells)
    = String.concat EmptyString
        (map (fun wc => leftAligned (fst wc) (snd wc) ++ " | ") (combine ws cells)).
Proof.
  induction cells as [| cell cells IH]; intros ws H; [destruct ws; reflexivity |].
  destruct ws as [| w ws]; cbn [List.length] in H; [lia |].
  cbn [describeCells combine map fst snd]. rewrite concat_empty_cons.
  specialize (IH ws). destruct (describeCells ws cells) as [t p]. cbn [fst] in *.
  rewrite IH by lia. rewrite padRight_leftAligned, !append_assoc. reflexivity.
Qed.

Lemma describeRows_concat ncols :
  ncols <= 3 ->
  forall pending,
    describeRows [10; 20; 15] ncols pending
    = String.concat EmptyString
        (map (fun r => describeLine (map describeValue (Scan ncols r)) ++ nl) pending).
Proof.
  intros Hn. induction pending as [| r pending IH]; [reflexivity |].
  cbn [describeRows map]. rewrite concat_empty_cons, IH.
  rewrite describeCells_concat by (rewrite length_map, Scan_length; cbn [List.length]; lia).
  unfold describeLine. rewrite !append_assoc. reflexivity.
Qed.

(** X24.  describeTable, when the backend answers its query with a stream
    of at most three columns (the query asks for three) whose labels and
    values are ASCII text, ends without panic and writes the title, the
    header between two frame lines, one line for every row of the stream
    whatever the row cap of the session is, a closing frame line and an
    empty line, and nothing else: no count of rows and no timing line.
    It closes the stream and reads no clock.  When the backend refuses
    the query, one [ERROR:] line is written and nothing is closed. *)
Theorem describeTable_lists_every_row env tableName c h d :
  db c = Some d ->
  (forall rows,
     query_result env h d (30 * Second)%Z (sqlDescribeTable tableName) = inr rows ->
     List.length (rows_cols rows) <= 3 ->
     forallb isASCII (rows_cols rows) = true ->
     forallb (fun r => forallb (fun v => isASCII (describeValue v))
                               (Scan (List.length (rows_cols rows)) r))
             (rows_pending rows) = true ->
     describeTable env tableName (mkState c h)
     = (Done tt,
        mkState
          (set_term
             (term c ++ "Table " ++ dq ++ tableName ++ dq ++ nl
              ++ describeFrame ++ nl
              ++ describeLine (rows_cols rows) ++ nl
              ++ describeFrame ++ nl
              ++ String.concat EmptyString
                   (map (fun r => describeLine
                                    (map describeValue
                                         (Scan (List.length (rows_cols rows)) r)) ++ nl)
                        (rows_pending rows))
              ++ describeFrame ++ nl
              ++ nl) c)
          (CRowsClose d (List.length (rows_pending rows))
             :: CQuery d (30 * Second)%Z (sqlDescribeTable tableName) :: h)))
  /\ (forall msg,
        query_result env h d (30 * Second)%Z (sqlDescribeTable tableName) = inl msg ->
        describeTable env tableName (mkState c h)
        = (Done tt,
           mkState (set_term (term c ++ "ERROR: " ++ msg ++ nl) c)
             (CQuery d (30 * Second)%Z (sqlDescribeTable tableName) :: h))).
Proof.
  intros Hdb.
  assert (HtheDB : theDB (mkState c h) = (Done d, mkState c h))
    by (unfold theDB, bind, getCLI; cbn [cli]; rewrite Hdb; reflexivity).
  split.
  - intros rows Hq Hcols _ _.
    pose proof (describeCells_in_range (rows_cols rows) [10; 20; 15] Hcols) as Hp.
    pose proof (describeCells_concat (rows_cols rows) [10; 20; 15] Hcols) as Hhead.
    unfold describeTable. cbv zeta.
    rewrite (bind_done theDB _ _ _ _ HtheDB).
    rewrite (bind_done _ _ (mkState c h) (inr rows)
               (mkState c (CQuery d (30 * Second)%Z (sqlDescribeTable tableName) :: h)))
      by (unfold call; cbn [cli history]; rewrite Hq; reflexivity).
    destruct (describeCells [10; 20; 15] (rows_cols rows)) as [headerText p].
    cbn [fst snd] in Hp, Hhead. subst p headerText.
    rewrite (started_writing c), !Fprintf_after.
    rewrite (describeRows_concat _ Hcols).
    change (separatorLine [10; 20; 15]) with (describeFrame ++ nl).
    unfold call, describeLine. cbn [cli history]. rewrite !append_assoc. reflexivity.
  - intros msg Hq. unfold describeTable. cbv zeta.
    rewrite (bind_done theDB _ _ _ _ HtheDB).
    rewrite (bind_done _ _ (mkState c h) (inl msg)
               (mkState c (CQuery d (30 * Second)%Z (sqlDescribeTable tableName) :: h)))
      by (unfold call; cbn [cli history]; rewrite Hq; reflexivity).
    reflexivity.
Qed.

Lemma describeTable_lists_every_row_witness :
  describeTable envUp "t" (sampleState [])
  = (Done tt,
     mkState
       (set_term
          ("Table " ++ dq ++ "t" ++ dq ++ nl
           ++ "+------------+----------------------+-----------------+" ++ nl
           ++ "| id         | name                 | " ++ nl
           ++ "+------------+----------------------+-----------------+" ++ nl
           ++ "| 1          | ab                   | " ++ nl
           ++ "| 2          |                      | " ++ nl
           ++ "| 3          | true                 | " ++ nl
           ++ "+------------+----------------------+-----------------+" ++ nl
           ++ nl) (sampleCLI []))
       (CRowsClose (mkDB 0 "host=localhost port=5432 user=postgres password=password dbname=testdb sslmode=disable connect_timeout=10 application_name=psql") 3
          :: CQuery (mkDB 0 "host=localhost port=5432 user=postgres password=password dbname=testdb sslmode=disable connect_timeout=10 application_name=psql")
                    (30 * Second)%Z (sqlDescribeTable "t")
          :: history (sampleState []))).
Proof.
  destruct (describeTable_lists_every_row envUp "t" (sampleCLI []) (history (sampleState []))
              (mkDB 0 "host=localhost port=5432 user=postgres password=password dbname=testdb sslmode=disable connect_timeout=10 application_name=psql")
              eq_refl) as [H _].
  apply (H (mkRows ["id"; "name"] ["int4"; "text"] sampleRows) eq_refl).
  - cbn. lia.
  - reflexivity.
  - reflexivity.
Defined.
